(** * Untitled UI tooling and sitemap rules of the marketing site

  A shallow embedding of three source files of the repository:

  - [scripts/scrape-untitled-ui.js]: the class [UntitledUIScraper] and the
    taxonomy [COMPONENT_CATEGORIES];
  - the helper command line tool: the class [UIHelper];
  - the [serialize] function given to the sitemap integration in the site
    configuration.

  JavaScript strings are modelled by [string].  The case conversion of
  the language follows the Unicode tables of the engine; on ASCII text it
  changes the letters A-Z and a-z only, and this is what [JS.toLowerCase]
  and [JS.toUpperCase] compute.  A statement that depends on the result
  of a case conversion is made for ASCII text ([asciiText]).
  A plain object is an association list in property order, a [Map] an
  association list in insertion order and a [Set] a duplicate-free list in
  insertion order.  Effects (clock, file system, console, process exit,
  exceptions) are threaded through a state monad with three outcomes. *)

From Stdlib Require Import List String Ascii Bool Arith Lia QArith DecimalString.
Import ListNotations.
Local Close Scope Q_scope.
Local Open Scope nat_scope.
Local Open Scope bool_scope.
Local Open Scope list_scope.
Local Open Scope string_scope.

(** ** JavaScript values used by the sources *)

Module JS.

(** The double quote character, for messages that quote an argument. *)
Definition dq : string := String (ascii_of_nat 34) EmptyString.

(** The line feed, written [\n] in the sources. *)
Definition nl : string := String (ascii_of_nat 10) EmptyString.

Definition lowerChar (c : ascii) : ascii :=
  let n := nat_of_ascii c in
  if ((65 <=? n) && (n <=? 90))%nat then ascii_of_nat (n + 32) else c.

Definition upperChar (c : ascii) : ascii :=
  let n := nat_of_ascii c in
  if ((97 <=? n) && (n <=? 122))%nat then ascii_of_nat (n - 32) else c.

(** [String.prototype.toLowerCase] on ASCII text, where the conversion of
    the language changes the letters A-Z only.  On other text (the Kelvin
    sign, a final sigma, ...) the language converts by the Unicode tables
    and by context; such text is outside this function. *)
Fixpoint toLowerCase (s : string) : string :=
  match s with
  | EmptyString => EmptyString
  | String c r => String (lowerChar c) (toLowerCase r)
  end.

(** [String.prototype.toUpperCase] on ASCII text, where the conversion of
    the language changes the letters a-z only.  On other text the language
    converts by the Unicode tables (a sharp s becomes two letters); such
    text is outside this function. *)
Fixpoint toUpperCase (s : string) : string :=
  match s with
  | EmptyString => EmptyString
  | String c r => String (upperChar c) (toUpperCase r)
  end.

(** [s.charAt(0)]: the first character as a string, empty for the empty string. *)
Definition charAt0 (s : string) : string :=
  match s with
  | EmptyString => EmptyString
  | String c _ => String c EmptyString
  end.

(** [s.slice(1)] *)
Definition slice1 (s : string) : string :=
  match s with
  | EmptyString => EmptyString
  | String _ r => r
  end.

(** [s.includes(t)]: [t] occurs in [s] at some position. *)
Fixpoint includes (s t : string) : bool :=
  if prefix t s then true
  else match s with
       | EmptyString => false
       | String _ r => includes r t
       end.

(** [Array.prototype.join] *)
Fixpoint join (sep : string) (l : list string) : string :=
  match l with
  | [] => ""
  | [x] => x
  | x :: r => x ++ sep ++ join sep r
  end.

(** A string in a condition: the empty string is false. *)
Definition truthy (s : string) : bool := negb (String.eqb s "").

(** [Array.prototype.includes] on an array of strings. *)
Definition arrayIncludes (l : list string) (x : string) : bool :=
  existsb (String.eqb x) l.

(** A number interpolated in a template literal. *)
Definition numberToString (n : nat) : string :=
  NilZero.string_of_uint (Nat.to_uint n).

(** *** Plain objects

    An object literal, or the result of [JSON.parse], is the list of its
    own enumerable properties in enumeration order (no key of the sources
    is an array index, so this is creation order). *)
Definition Obj (A : Type) : Type := list (string * A).

Definition keys {A} (o : Obj A) : list string := map fst o.
Definition values {A} (o : Obj A) : list A := map snd o.
Definition entries {A} (o : Obj A) : list (string * A) := o.

Fixpoint own {A} (o : Obj A) (k : string) : option A :=
  match o with
  | [] => None
  | (k', v) :: r => if String.eqb k k' then Some v else own r k
  end.

(** [o[k] = v]: an existing property keeps its place. *)
Fixpoint define {A} (o : Obj A) (k : string) (v : A) : Obj A :=
  match o with
  | [] => [(k, v)]
  | (k', v') :: r =>
      if String.eqb k k' then (k, v) :: r else (k', v') :: define r k v
  end.

(** [Object.fromEntries] *)
Definition fromEntries {A} (es : list (string * A)) : Obj A :=
  fold_left (fun o e => define o (fst e) (snd e)) es [].

(** What a property read finds on [Object.prototype] when the object has
    no own property of that name: a built-in function (with its [name])
    or, for [__proto__], the prototype object itself. *)
Inductive Builtin : Type :=
| BuiltinFunction (fname : string)
| PrototypeObject.

Definition prototypeMethods : list string :=
  [ "__defineGetter__"; "__defineSetter__"; "hasOwnProperty";
    "__lookupGetter__"; "__lookupSetter__"; "isPrototypeOf";
    "propertyIsEnumerable"; "toString"; "valueOf"; "toLocaleString" ].

Definition objectPrototype (k : string) : option Builtin :=
  if String.eqb k "constructor" then Some (BuiltinFunction "Object")
  else if String.eqb k "__proto__" then Some PrototypeObject
  else if arrayIncludes prototypeMethods k then Some (BuiltinFunction k)
  else None.

(** The result of the property read [o[k]]. *)
Inductive Property (A : Type) : Type :=
| Own (v : A)
| Inherited (b : Builtin)
| Undefined.
Arguments Own {A} v.
Arguments Inherited {A} b.
Arguments Undefined {A}.

Definition get {A} (o : Obj A) (k : string) : Property A :=
  match own o k with
  | Some v => Own v
  | None =>
      match objectPrototype k with
      | Some b => Inherited b
      | None => Undefined
      end
  end.

(** *** [Map] and [Set], in insertion order *)
Definition MapOf (A : Type) : Type := list (string * A).

Definition mapSet {A} (m : MapOf A) (k : string) (v : A) : MapOf A :=
  define m k v.
Definition mapHas {A} (m : MapOf A) (k : string) : bool :=
  match own m k with Some _ => true | None => false end.
Definition mapGet {A} (m : MapOf A) (k : string) : option A := own m k.
Definition mapSize {A} (m : MapOf A) : nat := List.length m.

Definition SetOf : Type := list string.
Definition setAdd (s : SetOf) (x : string) : SetOf :=
  if arrayIncludes s x then s else (s ++ [x])%list.
(** [new Set(array)] *)
Definition setFrom (l : list string) : SetOf := fold_left setAdd l [].

(** *** Paths

    A path is the list of its segments; [path.join] concatenates and
    resolves [..] segments. *)
Definition Path : Type := list string.

Fixpoint normalize (acc : list string) (segs : list string) : Path :=
  match segs with
  | [] => rev acc
  | s :: r =>
      if String.eqb s ".." then normalize (tl acc) r
      else normalize (s :: acc) r
  end.

Definition pathJoin (parts : list Path) : Path := normalize [] (List.concat parts).

Definition dirname (p : Path) : Path := removelast p.

(** An absolute path as text. *)
Definition pathToString (p : Path) : string := "/" ++ join "/" p.

Fixpoint pathEqb (p q : Path) : bool :=
  match p, q with
  | [], [] => true
  | a :: p', b :: q' => String.eqb a b && pathEqb p' q'
  | _, _ => false
  end.

(** Every ancestor of a path, the path itself included. *)
Fixpoint ancestors (p : Path) : list Path :=
  match p with
  | [] => [[]]
  | s :: r => [] :: map (cons s) (ancestors r)
  end.

(** *** Errors *)
Inductive Error : Type :=
| TypeError (message : string)
| SyntaxError (message : string)
| SystemError (message : string).

Definition message (e : Error) : string :=
  match e with
  | TypeError m | SyntaxError m | SystemError m => m
  end.

End JS.

(** ** Data model: component records and the catalog *)

Module Installation.
Record t : Type := { cli : string; manual : bool }.
End Installation.

Module Component.
Record t : Type := {
  name : string;
  description : string;
  category : string;
  installation : Installation.t;
  variants : list string;
  props : JS.Obj string;
  examples : list string;
  dependencies : list string;
  documentation : string;
  lastUpdated : string
}.

(** [{ name, ...d }]: the property [name] is defined first and then
    overwritten by the spread of [d], whose own [name] comes first too:
    the result has the properties of [d], in the order of [d]. *)
Definition nameAndSpread (name : string) (d : t) : t := d.
End Component.

Module Metadata.
Record t : Type := {
  source : string;
  url : string;
  scrapedAt : string;
  totalComponents : nat;
  categories : list string
}.
End Metadata.

Module Catalog.
Record t : Type := {
  metadata : Metadata.t;
  categories : JS.Obj (list Component.t);
  components : JS.Obj Component.t
}.
End Catalog.

(** ** The environment of a process *)

(** What a file holds.  [JSON.stringify (v, null, 2)] of a record or of a
  catalog is represented by the value itself, which [JSON.parse] gives
  back; [Text] is a file that is not JSON. *)
Inductive Json : Type :=
| ComponentJson (d : Component.t)
| CatalogJson (c : Catalog.t).

Inductive File : Type :=
| JsonFile (v : Json)
| Text (s : string).

(** An argument of [console.error]. *)
Inductive ConsoleArg : Type :=
| Str (s : string)
| Err (e : JS.Error).

Record World : Type := {
clock : nat -> string;          (* the k-th [new Date().toISOString()] *)
clockReads : nat;
fsFault : nat -> option string; (* the k-th file system call: [Some m] rejects with message [m] *)
fsCalls : nat;
dirs : list JS.Path;
files : list (JS.Path * File);
stdout : list string;
stderr : list (list ConsoleArg);
slept : nat                     (* milliseconds spent in [setTimeout] *)
}.

Fixpoint lookupFile (fs : list (JS.Path * File)) (p : JS.Path) : option File :=
match fs with
| [] => None
| (q, f) :: r => if JS.pathEqb p q then Some f else lookupFile r p
end.

Fixpoint storeFile (fs : list (JS.Path * File)) (p : JS.Path) (f : File)
: list (JS.Path * File) :=
match fs with
| [] => [(p, f)]
| (q, g) :: r =>
    if JS.pathEqb p q then (p, f) :: r else (q, g) :: storeFile r p f
end.

Definition isDir (w : World) (p : JS.Path) : bool :=
existsb (JS.pathEqb p) (dirs w).

(** ** Effects: a state monad with exceptions and process exit *)

Inductive Outcome (A : Type) : Type :=
| Returned (a : A)
| Threw (e : JS.Error)
| Exited (code : nat).
Arguments Returned {A} a.
Arguments Threw {A} e.
Arguments Exited {A} code.

Definition M (S A : Type) : Type := S -> Outcome A * S.

Definition ret {S A} (a : A) : M S A := fun s => (Returned a, s).

Definition bind {S A B} (c : M S A) (k : A -> M S B) : M S B :=
fun s =>
  match c s with
  | (Returned a, s') => k a s'
  | (Threw e, s') => (Threw e, s')
  | (Exited n, s') => (Exited n, s')
  end.

Definition throw {S A} (e : JS.Error) : M S A := fun s => (Threw e, s).

(** [process.exit (code)] *)
Definition processExit {S A} (code : nat) : M S A := fun s => (Exited code, s).

(** [try { body } catch (error) { handler }] *)
Definition tryCatch {S A} (body : M S A) (handler : JS.Error -> M S A) : M S A :=
fun s =>
  match body s with
  | (Threw e, s') => handler e s'
  | r => r
  end.

Definition gets {S A} (f : S -> A) : M S A := fun s => (Returned (f s), s).
Definition modify {S} (f : S -> S) : M S unit := fun s => (Returned tt, f s).

Declare Scope eff_scope.
Delimit Scope eff_scope with eff.
Notation "x <- c ;; k" := (bind c (fun x => k))
(at level 61, c at next level, right associativity) : eff_scope.
Notation "c ;; k" := (bind c (fun _ => k))
(at level 61, right associativity) : eff_scope.
Local Open Scope eff_scope.

(** [for (const x of l) { body }] and [l.forEach (body)] *)
Fixpoint forEach {S X} (l : list X) (body : X -> M S unit) : M S unit :=
match l with
| [] => ret tt
| x :: r => body x ;; forEach r body
end.

(** The status the operating system sees: an exception that leaves the top
  level [run ()] is an unhandled rejection, on which Node ends the
  process with status 1. *)
Definition exitStatus {A} (o : Outcome A) : nat :=
match o with
| Returned _ => 0
| Threw _ => 1
| Exited n => n
end.

(** States that carry the world. *)
Class Env (S : Type) : Type := {
world : S -> World;
withWorld : World -> S -> S
}.

#[export] Instance Env_World : Env World := {
world := fun w => w;
withWorld := fun w _ => w
}.

Section Primitives.
Context {S : Type} `{Env S}.

Definition updWorld (f : World -> World) : M S unit :=
  modify (fun s => withWorld (f (world s)) s).

(** [new Date().toISOString()] *)
Definition nowISO : M S string :=
  t <- gets (fun s => clock (world s) (clockReads (world s))) ;;
  updWorld (fun w =>
    {| clock := clock w; clockReads := 1 + clockReads w;
       fsFault := fsFault w; fsCalls := fsCalls w; dirs := dirs w;
       files := files w; stdout := stdout w; stderr := stderr w;
       slept := slept w |}) ;;
  ret t.

(** Every file system call first asks the environment. *)
Definition fsCall : M S unit :=
  r <- gets (fun s => fsFault (world s) (fsCalls (world s))) ;;
  updWorld (fun w =>
    {| clock := clock w; clockReads := clockReads w;
       fsFault := fsFault w; fsCalls := 1 + fsCalls w; dirs := dirs w;
       files := files w; stdout := stdout w; stderr := stderr w;
       slept := slept w |}) ;;
  match r with
  | Some m => throw (JS.SystemError m)
  | None => ret tt
  end.

(** [fs.mkdir (p, { recursive: true })] *)
Definition mkdir (p : JS.Path) : M S unit :=
  fsCall ;;
  updWorld (fun w =>
    {| clock := clock w; clockReads := clockReads w;
       fsFault := fsFault w; fsCalls := fsCalls w;
       dirs := (JS.ancestors p ++ dirs w)%list;
       files := files w; stdout := stdout w; stderr := stderr w;
       slept := slept w |}).

(** [fs.writeFile (p, content)] *)
Definition writeFile (p : JS.Path) (f : File) : M S unit :=
  fsCall ;;
  ok <- gets (fun s => isDir (world s) (JS.dirname p)) ;;
  if ok : bool then
    updWorld (fun w =>
      {| clock := clock w; clockReads := clockReads w;
         fsFault := fsFault w; fsCalls := fsCalls w; dirs := dirs w;
         files := storeFile (files w) p f;
         stdout := stdout w; stderr := stderr w; slept := slept w |})
  else throw (JS.SystemError "ENOENT: no such file or directory").

(** [fs.readFile (p, 'utf-8')] *)
Definition readFile (p : JS.Path) : M S File :=
  fsCall ;;
  r <- gets (fun s => lookupFile (files (world s)) p) ;;
  match r with
  | Some f => ret f
  | None => throw (JS.SystemError "ENOENT: no such file or directory")
  end.

(** [console.log (s)] *)
Definition consoleLog (s : string) : M S unit :=
  updWorld (fun w =>
    {| clock := clock w; clockReads := clockReads w;
       fsFault := fsFault w; fsCalls := fsCalls w; dirs := dirs w;
       files := files w; stdout := (stdout w ++ [s])%list;
       stderr := stderr w; slept := slept w |}).

(** [console.error (...args)] *)
Definition consoleError (args : list ConsoleArg) : M S unit :=
  updWorld (fun w =>
    {| clock := clock w; clockReads := clockReads w;
       fsFault := fsFault w; fsCalls := fsCalls w; dirs := dirs w;
       files := files w; stdout := stdout w;
       stderr := (stderr w ++ [args])%list; slept := slept w |}).

(** [await new Promise (resolve => setTimeout (resolve, ms))] *)
Definition sleep (ms : nat) : M S unit :=
  updWorld (fun w =>
    {| clock := clock w; clockReads := clockReads w;
       fsFault := fsFault w; fsCalls := fsCalls w; dirs := dirs w;
       files := files w; stdout := stdout w; stderr := stderr w;
       slept := ms + slept w |}).

End Primitives.

(** ** The scraper: [scripts/scrape-untitled-ui.js] *)

Definition COMPONENT_CATEGORIES : JS.Obj (list string) :=
[ ("buttons", ["button"; "button-group"; "split-button"]);
  ("inputs", ["input"; "textarea"; "select"; "checkbox"; "radio"; "switch"; "file-upload"]);
  ("avatars", ["avatar"; "avatar-group"]);
  ("navigation", ["breadcrumb"; "pagination"; "tabs"; "navbar"; "sidebar"]);
  ("feedback", ["alert"; "toast"; "progress"; "spinner"; "badge"]);
  ("overlays", ["modal"; "popover"; "tooltip"; "dropdown"; "dialog"]);
  ("layout", ["card"; "container"; "divider"; "stack"]);
  ("data-display", ["table"; "list"; "stat"; "timeline"; "carousel"]);
  ("forms", ["form"; "fieldset"; "form-control"; "validation"]) ].

Module UntitledUIScraper.

Record t : Type := {
  baseUrl : string;
  outputDir : JS.Path;
  components : JS.MapOf Component.t
}.

(** The state of the process: the scraper object and the world. *)
Record State : Type := { this : t; env : World }.

#[export] Instance Env_State : Env State := {
  world := env;
  withWorld := fun w s => {| this := this s; env := w |}
}.

(** [constructor ()]; [dirname] is the directory of the script. *)
Definition new (dirname : JS.Path) : t :=
  {| baseUrl := "https://www.untitledui.com/react/components";
     outputDir := JS.pathJoin [dirname; [".."]; ["src"]; ["lib"]; ["untitled-ui"]];
     components := [] |}.

Definition init : M State unit :=
  out <- gets (fun s => outputDir (this s)) ;;
  mkdir out ;;
  mkdir (JS.pathJoin [out; ["components"]]).

Fixpoint firstCategory (es : list (string * list string)) (componentName : string)
  : string :=
  match es with
  | [] => "misc"
  | (category, components) :: r =>
      if JS.arrayIncludes components componentName then category
      else firstCategory r componentName
  end.

Definition getCategoryForComponent (componentName : string) : string :=
  firstCategory (JS.entries COMPONENT_CATEGORIES) componentName.

(** The object that [fetchComponentInfo] builds and returns, for the base
    URL of the scraper and the reading [stamp] of the clock: the literal
    [componentData], then the two overrides. *)
Definition synthesize (base componentName stamp : string) : Component.t :=
  let componentData :=
    {| Component.name := componentName;
       Component.description :=
         JS.toUpperCase (JS.charAt0 componentName) ++ JS.slice1 componentName
         ++ " component from Untitled UI";
       Component.category := getCategoryForComponent componentName;
       Component.installation :=
         {| Installation.cli := "npx untitledui@latest add " ++ componentName;
            Installation.manual := true |};
       Component.variants := [];
       Component.props := [];
       Component.examples := [];
       Component.dependencies := ["react"; "react-aria"; "tailwindcss"];
       Component.documentation := base ++ "/" ++ componentName;
       Component.lastUpdated := stamp |} in
  let withOverrides (vs : list string) (ps : JS.Obj string) :=
    {| Component.name := Component.name componentData;
       Component.description := Component.description componentData;
       Component.category := Component.category componentData;
       Component.installation := Component.installation componentData;
       Component.variants := vs;
       Component.props := ps;
       Component.examples := Component.examples componentData;
       Component.dependencies := Component.dependencies componentData;
       Component.documentation := Component.documentation componentData;
       Component.lastUpdated := Component.lastUpdated componentData |} in
  if String.eqb componentName "button" then
    withOverrides
      ["primary"; "secondary"; "tertiary"; "destructive"; "link"]
      [ ("color", "string"); ("size", "sm | md | lg | xl");
        ("iconLeading", "ReactNode"); ("iconTrailing", "ReactNode");
        ("isLoading", "boolean"); ("isDisabled", "boolean") ]
  else if String.eqb componentName "input" then
    withOverrides
      ["default"; "invalid"; "disabled"; "with-icon"; "with-dropdown"]
      [ ("size", "sm | md | lg"); ("isInvalid", "boolean");
        ("isDisabled", "boolean"); ("iconLeading", "ReactNode");
        ("iconTrailing", "ReactNode") ]
  else componentData.

Definition fetchComponentInfo (componentName : string) : M State Component.t :=
  base <- gets (fun s => baseUrl (this s)) ;;
  stamp <- nowISO ;;
  ret (synthesize base componentName stamp).

(** The name is one path segment: no name of the taxonomy has a slash. *)
Definition saveComponentFile (componentName : string) (componentData : Component.t)
  : M State unit :=
  out <- gets (fun s => outputDir (this s)) ;;
  let filePath := JS.pathJoin [out; ["components"]; [componentName ++ ".json"]] in
  writeFile filePath (JsonFile (ComponentJson componentData)).

(** [this.components.set (componentName, componentData)] *)
Definition setComponent (componentName : string) (componentData : Component.t)
  : M State unit :=
  modify (fun s =>
    {| this :=
         {| baseUrl := baseUrl (this s);
            outputDir := outputDir (this s);
            components := JS.mapSet (components (this s)) componentName componentData |};
       env := env s |}).

(** The set filled by the two nested [forEach] of [scrapeAllComponents]. *)
Definition allComponents : JS.SetOf :=
  fold_left (fun acc components => fold_left JS.setAdd components acc)
    (JS.values COMPONENT_CATEGORIES) [].

(** The body of the [for] loop of [scrapeAllComponents]. *)
Definition processComponent (componentName : string) : M State unit :=
  consoleLog ("📦 Processing " ++ componentName ++ "...") ;;
  tryCatch
    (componentData <- fetchComponentInfo componentName ;;
     setComponent componentName componentData ;;
     saveComponentFile componentName componentData ;;
     sleep 100)
    (fun error =>
       consoleError [ Str ("❌ Error processing " ++ componentName ++ ":");
                      Str (JS.message error) ]).

Definition scrapeAllComponents : M State unit :=
  consoleLog "🚀 Starting Untitled UI component scraping..." ;;
  forEach allComponents processComponent ;;
  size <- gets (fun s => JS.mapSize (components (this s))) ;;
  consoleLog ("✅ Processed " ++ JS.numberToString size ++ " components").

Definition quoted (s : string) : string := "'" ++ s ++ "'".

Definition typesHeader : string :=
"// Auto-generated Untitled UI component types
export interface UntitledUIComponent {
  name: string;
  description: string;
  category: string;
  installation: { cli: string; manual: boolean; };
  variants: string[];
  props: Record<string, string>;
  examples: string[];
  dependencies: string[];
  documentation: string;
  lastUpdated: string;
}

".

(** The text written to [types.ts]; the argument is not used. *)
Definition typeDefinitions (catalog : Catalog.t) : string :=
  typesHeader
  ++ "export type ComponentCategory = "
  ++ JS.join " | " (map quoted (JS.keys COMPONENT_CATEGORIES)) ++ ";" ++ JS.nl
  ++ "export type ComponentName = "
  ++ JS.join " | "
       (map quoted (JS.setFrom (List.concat (JS.values COMPONENT_CATEGORIES))))
  ++ ";" ++ JS.nl.

Definition generateTypeDefinitions (catalog : Catalog.t) : M State unit :=
  out <- gets (fun s => outputDir (this s)) ;;
  writeFile (JS.pathJoin [out; ["types.ts"]]) (Text (typeDefinitions catalog)).

Definition capitalize (s : string) : string :=
  JS.toUpperCase (JS.charAt0 s) ++ JS.slice1 s.

Definition usageGuide (catalog : Catalog.t) : string :=
  "# Untitled UI Components Catalog" ++ JS.nl ++ JS.nl
  ++ "This catalog contains "
  ++ JS.numberToString (Metadata.totalComponents (Catalog.metadata catalog))
  ++ " components from [Untitled UI]("
  ++ Metadata.url (Catalog.metadata catalog) ++ ")." ++ JS.nl ++ JS.nl
  ++ "## Installation" ++ JS.nl
  ++ "```bash" ++ JS.nl
  ++ "npx untitledui@latest add [component-name]" ++ JS.nl
  ++ "```" ++ JS.nl ++ JS.nl
  ++ "## Categories" ++ JS.nl
  ++ JS.join ""
       (map (fun e : string * list Component.t =>
               JS.nl ++ "### " ++ capitalize (fst e) ++ JS.nl
               ++ JS.join JS.nl
                    (map (fun comp => "- **" ++ Component.name comp ++ "**: "
                                      ++ Component.description comp) (snd e))
               ++ JS.nl)
            (JS.entries (Catalog.categories catalog)))
  ++ JS.nl ++ JS.nl
  ++ "Generated: " ++ Metadata.scrapedAt (Catalog.metadata catalog) ++ JS.nl.

Definition generateUsageGuide (catalog : Catalog.t) : M State unit :=
  out <- gets (fun s => outputDir (this s)) ;;
  writeFile (JS.pathJoin [out; ["README.md"]]) (Text (usageGuide catalog)).

Definition searchUtility : string :=
"// Untitled UI Component Search Utility
import catalog from './catalog.json';
import type { UntitledUIComponent, ComponentCategory } from './types';

export class UntitledUISearch {
  static findByName(name: string): UntitledUIComponent | null {
    return catalog.components[name] || null;
  }

  static findByCategory(category: ComponentCategory): UntitledUIComponent[] {
    return catalog.categories[category] || [];
  }

  static search(query: string): UntitledUIComponent[] {
    const lowerQuery = query.toLowerCase();
    return Object.values(catalog.components).filter(component =>
      component.name.toLowerCase().includes(lowerQuery) ||
      component.description.toLowerCase().includes(lowerQuery) ||
      component.category.toLowerCase().includes(lowerQuery)
    );
  }

  static getInstallCommand(name: string): string | null {
    const component = this.findByName(name);
    return component?.installation.cli || null;
  }
}

export default UntitledUISearch;
".

Definition generateSearchUtility : M State unit :=
  out <- gets (fun s => outputDir (this s)) ;;
  writeFile (JS.pathJoin [out; ["search.ts"]]) (Text searchUtility).

(** [{ name }]: what [{ name, ...undefined }] would be.  The [filter]
    before the [map] keeps the names of the store only, so that this
    record is never built. *)
Definition nameOnly (name : string) : Component.t :=
  {| Component.name := name; Component.description := "";
     Component.category := "";
     Component.installation := {| Installation.cli := ""; Installation.manual := false |};
     Component.variants := []; Component.props := []; Component.examples := [];
     Component.dependencies := []; Component.documentation := "";
     Component.lastUpdated := "" |}.

(** The entry of [catalog.categories] for one taxonomy list. *)
Definition categoryRecords (store : JS.MapOf Component.t) (componentNames : list string)
  : list Component.t :=
  map (fun name =>
         match JS.mapGet store name with
         | Some d => Component.nameAndSpread name d
         | None => nameOnly name
         end)
      (filter (fun name => JS.mapHas store name) componentNames).

(** The object [catalog] that [generateCatalog] builds before writing it. *)
Definition assembleCatalog (self : t) (stamp : string) : Catalog.t :=
  fold_left
    (fun (catalog : Catalog.t) (e : string * list string) =>
       {| Catalog.metadata := Catalog.metadata catalog;
          Catalog.categories :=
            JS.define (Catalog.categories catalog) (fst e)
              (categoryRecords (components self) (snd e));
          Catalog.components := Catalog.components catalog |})
    (JS.entries COMPONENT_CATEGORIES)
    {| Catalog.metadata :=
         {| Metadata.source := "Untitled UI React Components";
            Metadata.url := baseUrl self;
            Metadata.scrapedAt := stamp;
            Metadata.totalComponents := JS.mapSize (components self);
            Metadata.categories := JS.keys COMPONENT_CATEGORIES |};
       Catalog.categories := [];
       Catalog.components := JS.fromEntries (components self) |}.

Definition generateCatalog : M State unit :=
  consoleLog "📚 Generating component catalog..." ;;
  stamp <- nowISO ;;
  self <- gets this ;;
  let catalog := assembleCatalog self stamp in
  writeFile (JS.pathJoin [outputDir self; ["catalog.json"]]) (JsonFile (CatalogJson catalog)) ;;
  generateTypeDefinitions catalog ;;
  generateUsageGuide catalog ;;
  generateSearchUtility ;;
  consoleLog ("✅ Catalog generated with "
              ++ JS.numberToString (Metadata.totalComponents (Catalog.metadata catalog))
              ++ " components").

Definition run : M State unit :=
  tryCatch
    (init ;;
     scrapeAllComponents ;;
     generateCatalog ;;
     consoleLog "🎉 Untitled UI scraping completed successfully!" ;;
     out <- gets (fun s => outputDir (this s)) ;;
     consoleLog ("📁 Files generated in: " ++ JS.pathToString out))
    (fun error =>
       consoleError [Str "❌ Scraping failed:"; Err error] ;;
       processExit 1).

(** The script run as a program: [new UntitledUIScraper ().run ()]. *)
Definition main (dirname : JS.Path) (w : World) : Outcome unit * World :=
  let (o, s) := run {| this := new dirname; env := w |} in (o, env s).

(** Where the catalog of a run is written. *)
Definition catalogPath (dirname : JS.Path) : JS.Path :=
  JS.pathJoin [outputDir (new dirname); ["catalog.json"]].

End UntitledUIScraper.

(** ** The helper command line tool: the class [UIHelper] *)

Module UIHelper.

Record t : Type := { catalogPath : JS.Path }.

(** [constructor ()]; [dirname] is the directory of the script. *)
Definition new (dirname : JS.Path) : t :=
  {| catalogPath :=
       JS.pathJoin [dirname; [".."]; ["src"]; ["lib"]; ["untitled-ui"]; ["catalog.json"]] |}.

(** [JSON.parse] *)
Definition jsonParse (f : File) : M World Json :=
  match f with
  | JsonFile v => ret v
  | Text _ => throw (JS.SyntaxError "Unexpected token")
  end.

Definition loadCatalog (self : t) : M World Json :=
  tryCatch
    (catalogData <- readFile (catalogPath self) ;;
     jsonParse catalogData)
    (fun error =>
       consoleError [Str "❌ Could not load catalog. Run npm run scrape-ui first."] ;;
       processExit 1).

(** The first read of [catalog.components], [catalog.categories] or
    [catalog.metadata] in an operation: a document that is not a catalog has
    none of them, and what the operation does next with [undefined] throws. *)
Definition asCatalog (doc : Json) : M World Catalog.t :=
  match doc with
  | CatalogJson c => ret c
  | ComponentJson _ => throw (JS.TypeError "Cannot read properties of undefined")
  end.

(** The predicate of the [filter] in [search]. *)
Definition matches (lowerQuery : string) (component : Component.t) : bool :=
  JS.includes (JS.toLowerCase (Component.name component)) lowerQuery
  || JS.includes (JS.toLowerCase (Component.description component)) lowerQuery
  || JS.includes (JS.toLowerCase (Component.category component)) lowerQuery
  || existsb (fun variant => JS.includes (JS.toLowerCase variant) lowerQuery)
       (Component.variants component).

Definition searchResults (catalog : Catalog.t) (query : string) : list Component.t :=
  let lowerQuery := JS.toLowerCase query in
  filter (matches lowerQuery) (JS.values (Catalog.components catalog)).

Definition noneFound (query : string) : string :=
  "🔍 No components found for " ++ JS.dq ++ query ++ JS.dq.

(** The lines that [search] prints for one result. *)
Definition resultLines (comp : Component.t) : list string :=
  [ "📦 " ++ Component.name comp ++ " (" ++ Component.category comp ++ ")";
    "   " ++ Component.description comp;
    "   Install: " ++ Installation.cli (Component.installation comp);
    "   Variants: " ++ JS.join ", " (Component.variants comp);
    "   Docs: " ++ Component.documentation comp ++ JS.nl ].

Definition search (self : t) (query : string) : M World unit :=
  doc <- loadCatalog self ;;
  catalog <- asCatalog doc ;;
  let results := searchResults catalog query in
  if Nat.eqb (List.length results) 0 then
    consoleLog (noneFound query)
  else
    consoleLog ("🎯 Found " ++ JS.numberToString (List.length results)
                ++ " component(s) for " ++ JS.dq ++ query ++ JS.dq ++ ":" ++ JS.nl) ;;
    forEach results (fun comp => forEach (resultLines comp) consoleLog).

Definition categoryNotFound (category : string) : string :=
  "❌ Category " ++ JS.dq ++ category ++ JS.dq ++ " not found.".

(** The [else] branch of [list]: every category with its members. *)
Definition listAll (catalog : Catalog.t) : M World unit :=
  consoleLog ("📚 All Categories ("
              ++ JS.numberToString (Metadata.totalComponents (Catalog.metadata catalog))
              ++ " components):" ++ JS.nl) ;;
  forEach (JS.entries (Catalog.categories catalog))
    (fun e : string * list Component.t =>
       consoleLog ("📂 " ++ JS.toUpperCase (fst e) ++ " ("
                   ++ JS.numberToString (List.length (snd e)) ++ " components)") ;;
       forEach (snd e) (fun comp => consoleLog ("  📦 " ++ Component.name comp)) ;;
       consoleLog "").

(** The [then] branch of [list]. *)
Definition listCategory (catalog : Catalog.t) (category : string) : M World unit :=
  match JS.get (Catalog.categories catalog) category with
  | JS.Undefined =>
      consoleLog (categoryNotFound category) ;;
      consoleLog ("Available categories: "
                  ++ JS.join ", " (JS.keys (Catalog.categories catalog)))
  | JS.Own categoryComponents =>
      consoleLog ("📂 " ++ JS.toUpperCase category ++ " Components:" ++ JS.nl) ;;
      forEach categoryComponents (fun comp =>
        consoleLog ("  📦 " ++ Component.name comp ++ " - " ++ Component.description comp) ;;
        consoleLog ("     " ++ Installation.cli (Component.installation comp)))
  | JS.Inherited _ =>
      consoleLog ("📂 " ++ JS.toUpperCase category ++ " Components:" ++ JS.nl) ;;
      throw (JS.TypeError "categoryComponents.forEach is not a function")
  end.

(** [list (category = null)]: [None] is the absent argument. *)
Definition list (self : t) (category : option string) : M World unit :=
  doc <- loadCatalog self ;;
  catalog <- asCatalog doc ;;
  match category with
  | Some c => if JS.truthy c then listCategory catalog c else listAll catalog
  | None => listAll catalog
  end.

Definition componentNotFound (componentName : string) : string :=
  "❌ Component " ++ JS.dq ++ componentName ++ JS.dq ++ " not found.".

Definition install (self : t) (componentName : string) : M World unit :=
  doc <- loadCatalog self ;;
  catalog <- asCatalog doc ;;
  match JS.get (Catalog.components catalog) componentName with
  | JS.Undefined =>
      consoleLog (componentNotFound componentName) ;;
      consoleLog ("Use " ++ JS.dq ++ "npm run ui search <query>" ++ JS.dq
                  ++ " to find components.")
  | JS.Own component =>
      consoleLog ("🚀 Installing " ++ componentName ++ "...") ;;
      consoleLog ("Command: " ++ Installation.cli (Component.installation component)) ;;
      consoleLog (JS.nl ++ "Component Info:") ;;
      consoleLog ("  Description: " ++ Component.description component) ;;
      consoleLog ("  Category: " ++ Component.category component) ;;
      consoleLog ("  Variants: " ++ JS.join ", " (Component.variants component)) ;;
      consoleLog ("  Dependencies: " ++ JS.join ", " (Component.dependencies component)) ;;
      consoleLog ("  Documentation: " ++ Component.documentation component)
  | JS.Inherited _ =>
      consoleLog ("🚀 Installing " ++ componentName ++ "...") ;;
      throw (JS.TypeError "Cannot read properties of undefined (reading 'cli')")
  end.

Definition info (self : t) (componentName : string) : M World unit :=
  doc <- loadCatalog self ;;
  catalog <- asCatalog doc ;;
  match JS.get (Catalog.components catalog) componentName with
  | JS.Undefined =>
      consoleLog (componentNotFound componentName)
  | JS.Own component =>
      consoleLog ("📦 " ++ JS.toUpperCase (Component.name component) ++ JS.nl) ;;
      consoleLog ("Description: " ++ Component.description component) ;;
      consoleLog ("Category: " ++ Component.category component) ;;
      consoleLog ("Install: " ++ Installation.cli (Component.installation component)) ;;
      consoleLog ("Documentation: " ++ Component.documentation component) ;;
      consoleLog ("Dependencies: " ++ JS.join ", " (Component.dependencies component)) ;;
      (if Nat.ltb 0 (List.length (Component.variants component)) then
         consoleLog (JS.nl ++ "Variants:") ;;
         forEach (Component.variants component)
           (fun variant => consoleLog ("  • " ++ variant))
       else ret tt) ;;
      (if Nat.ltb 0 (List.length (JS.keys (Component.props component))) then
         consoleLog (JS.nl ++ "Props:") ;;
         forEach (JS.entries (Component.props component))
           (fun e : string * string => consoleLog ("  • " ++ fst e ++ ": " ++ snd e))
       else ret tt)
  | JS.Inherited (JS.BuiltinFunction fname) =>
      consoleLog ("📦 " ++ JS.toUpperCase fname ++ JS.nl) ;;
      consoleLog "Description: undefined" ;;
      consoleLog "Category: undefined" ;;
      throw (JS.TypeError "Cannot read properties of undefined (reading 'cli')")
  | JS.Inherited JS.PrototypeObject =>
      throw (JS.TypeError "Cannot read properties of undefined (reading 'toUpperCase')")
  end.

Definition helpText : string :=
"
🎨 Untitled UI Helper CLI

Usage:
  npm run ui <command> [args]

Commands:
  search <query>     Search for components by name, description, or category
  list [category]    List all components or components in a specific category  
  install <name>     Show installation info for a component
  info <name>        Show detailed information about a component
  help              Show this help message

Examples:
  npm run ui search button
  npm run ui list inputs
  npm run ui install button
  npm run ui info button

Categories: buttons, inputs, avatars, navigation, feedback, overlays, layout, data-display, forms
".

Definition showHelp : M World unit := consoleLog helpText.

(** [run ()]; [argv] is [process.argv], whose first two entries are the
    interpreter and the script. *)
Definition run (self : t) (argv : Datatypes.list string) : M World unit :=
  let args := skipn 2 argv in
  let command := nth_error args 0 in
  let arg1 := nth_error args 1 in
  match command with
  | None => showHelp
  | Some c =>
      if String.eqb c "search" then
        match arg1 with
        | Some query =>
            if JS.truthy query then search self query
            else consoleLog "❌ Please provide a search query" ;;
                 consoleLog "Usage: npm run ui search <query>"
        | None =>
            consoleLog "❌ Please provide a search query" ;;
            consoleLog "Usage: npm run ui search <query>"
        end
      else if String.eqb c "list" then list self arg1
      else if String.eqb c "install" then
        match arg1 with
        | Some componentName =>
            if JS.truthy componentName then install self componentName
            else consoleLog "❌ Please provide a component name" ;;
                 consoleLog "Usage: npm run ui install <component-name>"
        | None =>
            consoleLog "❌ Please provide a component name" ;;
            consoleLog "Usage: npm run ui install <component-name>"
        end
      else if String.eqb c "info" then
        match arg1 with
        | Some componentName =>
            if JS.truthy componentName then info self componentName
            else consoleLog "❌ Please provide a component name" ;;
                 consoleLog "Usage: npm run ui info <component-name>"
        | None =>
            consoleLog "❌ Please provide a component name" ;;
            consoleLog "Usage: npm run ui info <component-name>"
        end
      else showHelp
  end.

(** The script run as a program: [new UIHelper ().run ()]. *)
Definition main (dirname : JS.Path) (argv : Datatypes.list string) : M World unit :=
  run (new dirname) argv.

End UIHelper.

(** ** The sitemap rules of the site configuration *)

Module SiteConfig.

Definition site : string := "https://nextworkmarketing.com".

(** An item of the sitemap, as the integration hands it to [serialize]. *)
Record SitemapItem : Type := {
  url : string;
  changefreq : string;
  priority : Q;
  lastmod : string
}.

(** The options [changefreq: 'weekly'] and [priority: 0.7] of the
    integration: every item starts from them. *)
Definition defaultChangefreq : string := "weekly".
Definition defaultPriority : Q := (7 # 10)%Q.

Definition itemFor (pageUrl lastModified : string) : SitemapItem :=
  {| url := pageUrl; changefreq := defaultChangefreq;
     priority := defaultPriority; lastmod := lastModified |}.

Definition assign (item : SitemapItem) (p : Q) (freq : string) : SitemapItem :=
  {| url := url item; changefreq := freq; priority := p; lastmod := lastmod item |}.

Definition serialize (item : SitemapItem) : SitemapItem :=
  if JS.includes (url item) "/projects/" then assign item (9 # 10)%Q "weekly"
  else if JS.includes (url item) "/blog/" then assign item (8 # 10)%Q "weekly"
  else if String.eqb (url item) "https://nextworkmarketing.com/" then
    assign item (1 # 1)%Q "daily"
  else if JS.includes (url item) "/about" || JS.includes (url item) "/careers" then
    assign item (6 # 10)%Q "monthly"
  else if JS.includes (url item) "/privacy" || JS.includes (url item) "/terms" then
    assign item (3 # 10)%Q "yearly"
  else item.

(** [filter: (page) => ...] *)
Definition filter (page : string) : bool :=
  negb (JS.includes page "/admin/") && negb (JS.includes page "/internal/").

End SiteConfig.

(** ** The generated search utility: the class [UntitledUISearch] of [search.ts]

    The module that [generateSearchUtility] writes; [catalog] is the
    document it imports from [catalog.json]. *)

Module UntitledUISearch.

(** [catalog.components[name] || null]; [JS.Undefined] stands for [null]. *)
Definition findByName (catalog : Catalog.t) (name : string) : JS.Property Component.t :=
  JS.get (Catalog.components catalog) name.

(** [catalog.categories[category] || []] *)
Definition findByCategory (catalog : Catalog.t) (category : string)
  : JS.Property (list Component.t) :=
  match JS.get (Catalog.categories catalog) category with
  | JS.Undefined => JS.Own []
  | r => r
  end.

Definition search (catalog : Catalog.t) (query : string) : list Component.t :=
  let lowerQuery := JS.toLowerCase query in
  filter (fun component =>
            JS.includes (JS.toLowerCase (Component.name component)) lowerQuery
            || JS.includes (JS.toLowerCase (Component.description component)) lowerQuery
            || JS.includes (JS.toLowerCase (Component.category component)) lowerQuery)
    (JS.values (Catalog.components catalog)).

(** [component?.installation.cli || null]: [None] is [null]; the optional
    chaining stops at a missing component only. *)
Definition getInstallCommand (catalog : Catalog.t) (name : string)
  : Outcome (option string) :=
  match findByName catalog name with
  | JS.Own component =>
      let cli := Installation.cli (Component.installation component) in
      Returned (if JS.truthy cli then Some cli else None)
  | JS.Inherited _ =>
      Threw (JS.TypeError "Cannot read properties of undefined (reading 'cli')")
  | JS.Undefined => Returned None
  end.

End UntitledUISearch.

(** ** Vocabulary of the statements *)

(** [t] occurs in [s] as a contiguous part. *)
Definition occursIn (t s : string) : Prop := exists a b, s = a ++ t ++ b.

(** The world after [lines] were printed on the standard output. *)
Definition printed (w : World) (lines : list string) : World :=
  {| clock := clock w; clockReads := clockReads w;
     fsFault := fsFault w; fsCalls := fsCalls w; dirs := dirs w;
     files := files w; stdout := (stdout w ++ lines)%list;
     stderr := stderr w; slept := slept w |}.

(** The world after one more call of the file system. *)
Definition afterFsCall (w : World) : World :=
  {| clock := clock w; clockReads := clockReads w;
     fsFault := fsFault w; fsCalls := 1 + fsCalls w; dirs := dirs w;
     files := files w; stdout := stdout w; stderr := stderr w;
     slept := slept w |}.

(** The catalog file of the helper can be read in [w], and holds [catalog]. *)
Definition loads (self : UIHelper.t) (w : World) (catalog : Catalog.t) : Prop :=
  fsFault w (fsCalls w) = None
  /\ lookupFile (files w) (UIHelper.catalogPath self) = Some (JsonFile (CatalogJson catalog)).

(** The listing of every category: a title, then for each category a
    header, one line per member and an empty line. *)
Definition listing (catalog : Catalog.t) : list string :=
  ("📚 All Categories ("
   ++ JS.numberToString (Metadata.totalComponents (Catalog.metadata catalog))
   ++ " components):" ++ JS.nl)
  :: List.concat
       (map (fun e : string * list Component.t =>
               ("📂 " ++ JS.toUpperCase (fst e) ++ " ("
                ++ JS.numberToString (List.length (snd e)) ++ " components)")
               :: List.app (map (fun comp => "  📦 " ++ Component.name comp) (snd e))
                           [""])
            (Catalog.categories catalog)).


(** A record and a catalog with their timestamps blanked. *)
Definition withoutTimestamp (d : Component.t) : Component.t :=
  {| Component.name := Component.name d;
     Component.description := Component.description d;
     Component.category := Component.category d;
     Component.installation := Component.installation d;
     Component.variants := Component.variants d;
     Component.props := Component.props d;
     Component.examples := Component.examples d;
     Component.dependencies := Component.dependencies d;
     Component.documentation := Component.documentation d;
     Component.lastUpdated := "" |}.

Definition withoutTimestamps (c : Catalog.t) : Catalog.t :=
  {| Catalog.metadata :=
       {| Metadata.source := Metadata.source (Catalog.metadata c);
          Metadata.url := Metadata.url (Catalog.metadata c);
          Metadata.scrapedAt := "";
          Metadata.totalComponents := Metadata.totalComponents (Catalog.metadata c);
          Metadata.categories := Metadata.categories (Catalog.metadata c) |};
     Catalog.categories :=
       map (fun e => (fst e, map withoutTimestamp (snd e))) (Catalog.categories c);
     Catalog.components :=
       map (fun e => (fst e, withoutTimestamp (snd e))) (Catalog.components c) |}.

(** A store whose entries are, in order, the records synthesized for [names]. *)
Definition synthesizedFor (base : string) (names : list string)
  (store : JS.MapOf Component.t) : Prop :=
  Forall2 (fun n e => fst e = n
                      /\ exists stamp, snd e = UntitledUIScraper.synthesize base n stamp)
          names store.

(** A world with an empty disk, a working file system and a clock. *)
Definition emptyWorld : World :=
  {| clock := fun k => "2024-01-01T00:00:00." ++ JS.numberToString k ++ "Z";
     clockReads := 0; fsFault := fun _ => None; fsCalls := 0;
     dirs := [[]]; files := []; stdout := []; stderr := []; slept := 0 |}.

(** The world left by a run of the scraper installed in [/repo/scripts],
    with a fresh console. *)
Definition scrapedWorld : World :=
  let w := snd (UntitledUIScraper.main ["repo"; "scripts"] emptyWorld) in
  {| clock := clock w; clockReads := clockReads w;
     fsFault := fsFault w; fsCalls := fsCalls w; dirs := dirs w;
     files := files w; stdout := []; stderr := []; slept := slept w |}.

(** The catalog that this run left on the disk. *)
Definition scrapedCatalog : Catalog.t :=
  match lookupFile (files scrapedWorld) (UntitledUIScraper.catalogPath ["repo"; "scripts"]) with
  | Some (JsonFile (CatalogJson c)) => c
  | _ => UntitledUIScraper.assembleCatalog (UntitledUIScraper.new ["repo"; "scripts"]) ""
  end.

(** The world after [f] was written at [p]. *)
Definition written (w : World) (p : JS.Path) (f : File) : World :=
  {| clock := clock w; clockReads := clockReads w;
     fsFault := fsFault w; fsCalls := fsCalls w; dirs := dirs w;
     files := storeFile (files w) p f;
     stdout := stdout w; stderr := stderr w; slept := slept w |}.

(** The state of the scraper in another world. *)
Definition inWorld (s : UntitledUIScraper.State) (w : World) : UntitledUIScraper.State :=
  {| UntitledUIScraper.this := UntitledUIScraper.this s; UntitledUIScraper.env := w |}.

(** A computation of the scraper that leaves the scraper object as it is. *)
Definition keepsThis {A} (c : M UntitledUIScraper.State A) : Prop :=
  forall s o s', c s = (o, s') -> UntitledUIScraper.this s' = UntitledUIScraper.this s.

(** The scraper object with another store. *)
Definition withStore (self : UntitledUIScraper.t) (store : JS.MapOf Component.t)
  : UntitledUIScraper.t :=
  {| UntitledUIScraper.baseUrl := UntitledUIScraper.baseUrl self;
     UntitledUIScraper.outputDir := UntitledUIScraper.outputDir self;
     UntitledUIScraper.components := store |}.

(** The same function on every value of an object. *)
Definition mapValues {A B} (g : A -> B) (o : JS.Obj A) : JS.Obj B :=
  map (fun e => (fst e, g (snd e))) o.

(** The step of the loop of [generateCatalog] over the taxonomy. *)
Definition addCategory (store : JS.MapOf Component.t) (catalog : Catalog.t)
  (e : string * list string) : Catalog.t :=
  {| Catalog.metadata := Catalog.metadata catalog;
     Catalog.categories :=
       JS.define (Catalog.categories catalog) (fst e)
         (UntitledUIScraper.categoryRecords store (snd e));
     Catalog.components := Catalog.components catalog |}.

(** From [s] to [s'] the file system answers the same way and no directory
    was lost. *)
Definition sameDisk (s s' : UntitledUIScraper.State) : Prop :=
  fsFault (UntitledUIScraper.env s') = fsFault (UntitledUIScraper.env s)
  /\ forall p, isDir (UntitledUIScraper.env s) p = true ->
               isDir (UntitledUIScraper.env s') p = true.

(** A computation of the scraper that changes the disk in this way only. *)
Definition keepsDisk {A} (c : M UntitledUIScraper.State A) : Prop :=
  forall s o s', c s = (o, s') -> sameDisk s s'.

(** The state of the scraper after one reading of the clock. *)
Definition ticked (s : UntitledUIScraper.State) : UntitledUIScraper.State :=
  {| UntitledUIScraper.this := UntitledUIScraper.this s;
     UntitledUIScraper.env :=
       let w := UntitledUIScraper.env s in
       {| clock := clock w; clockReads := 1 + clockReads w;
          fsFault := fsFault w; fsCalls := fsCalls w; dirs := dirs w;
          files := files w; stdout := stdout w; stderr := stderr w;
          slept := slept w |} |}.

(** The reading of the clock that the next [new Date ()] gives. *)
Definition nextStamp (s : UntitledUIScraper.State) : string :=
  clock (UntitledUIScraper.env s) (clockReads (UntitledUIScraper.env s)).

(** The world after one call of [console.error]. *)
Definition errored (w : World) (args : list ConsoleArg) : World :=
  {| clock := clock w; clockReads := clockReads w;
     fsFault := fsFault w; fsCalls := fsCalls w; dirs := dirs w;
     files := files w; stdout := stdout w;
     stderr := (stderr w ++ [args])%list; slept := slept w |}.

(** What [loadCatalog] prints before it ends the process. *)
Definition guidance : list ConsoleArg :=
  [Str "❌ Could not load catalog. Run npm run scrape-ui first."].

(** The catalog file of the helper cannot be loaded in [w]: the read is
    refused, the file is missing, or it is not JSON. *)
Definition unloadable (self : UIHelper.t) (w : World) : Prop :=
  fsFault w (fsCalls w) <> None
  \/ lookupFile (files w) (UIHelper.catalogPath self) = None
  \/ exists t, lookupFile (files w) (UIHelper.catalogPath self) = Some (Text t).

(** What [list] prints for a category of the catalog. *)
Definition categoryLines (category : string) (records : list Component.t) : list string :=
  ("📂 " ++ JS.toUpperCase category ++ " Components:" ++ JS.nl)
  :: List.concat
       (map (fun comp =>
               [ "  📦 " ++ Component.name comp ++ " - " ++ Component.description comp;
                 "     " ++ Installation.cli (Component.installation comp) ])
            records).

(** What [install] prints for a record of the catalog. *)
Definition installLines (componentName : string) (component : Component.t) : list string :=
  [ "🚀 Installing " ++ componentName ++ "...";
    "Command: " ++ Installation.cli (Component.installation component);
    JS.nl ++ "Component Info:";
    "  Description: " ++ Component.description component;
    "  Category: " ++ Component.category component;
    "  Variants: " ++ JS.join ", " (Component.variants component);
    "  Dependencies: " ++ JS.join ", " (Component.dependencies component);
    "  Documentation: " ++ Component.documentation component ].

(** What [info] prints for a record of the catalog: six lines, then the
    variants and the properties when there are some. *)
Definition infoLines (component : Component.t) : list string :=
  List.app
    [ "📦 " ++ JS.toUpperCase (Component.name component) ++ JS.nl;
      "Description: " ++ Component.description component;
      "Category: " ++ Component.category component;
      "Install: " ++ Installation.cli (Component.installation component);
      "Documentation: " ++ Component.documentation component;
      "Dependencies: " ++ JS.join ", " (Component.dependencies component) ]
    (List.app
       (match Component.variants component with
        | [] => []
        | vs => (JS.nl ++ "Variants:") :: map (fun variant => "  • " ++ variant) vs
        end)
       (match Component.props component with
        | [] => []
        | ps => (JS.nl ++ "Props:")
                :: map (fun e : string * string => "  • " ++ fst e ++ ": " ++ snd e) ps
        end)).

(** A computation of the helper that leaves the disk alone and does not
    call the file system. *)
Definition quiet {A} (c : M World A) : Prop :=
  forall w o w',
    c w = (o, w') ->
    files w' = files w /\ dirs w' = dirs w /\ fsCalls w' = fsCalls w.

(** A computation of the scraper that does not end the process. *)
Definition neverExits {A} (c : M UntitledUIScraper.State A) : Prop :=
  forall s o s', c s = (o, s') -> forall n, o <> Exited n.

(** ASCII text: every character is below 128.  On such text the case
    conversions of the language are [JS.toLowerCase] and [JS.toUpperCase]. *)
Definition asciiText (s : string) : bool :=
  forallb (fun c => Nat.ltb (nat_of_ascii c) 128) (list_ascii_of_string s).



(** A capital letter, A to Z. *)
Definition capital (c : ascii) : bool :=
  Nat.leb 65 (nat_of_ascii c) && Nat.leb (nat_of_ascii c) 90.

(** Two characters that differ at most in case: the same character, or a
    capital letter and its small letter (32 places further). *)
Definition sameLetter (a b : ascii) : bool :=
  Ascii.eqb a b
  || (capital a && Nat.eqb (nat_of_ascii b) (nat_of_ascii a + 32))
  || (capital b && Nat.eqb (nat_of_ascii a) (nat_of_ascii b + 32)).

(** Two strings that differ at most in the case of their letters. *)
Fixpoint equalIgnoringCase (s t : string) : bool :=
  match s, t with
  | EmptyString, EmptyString => true
  | String a s', String b t' => sameLetter a b && equalIgnoringCase s' t'
  | _, _ => false
  end.


(** The sum of the lengths of the lists of an object. *)
Definition totalLength {A} (o : JS.Obj (list A)) : nat :=
  fold_right (fun e n => List.length (snd e) + n) 0 o.

(** * Properties *)

(** ** Strings, arrays, objects and sets *)

Lemma prefix_app (t s : string) : prefix t s = true <-> exists b, s = t ++ b.
Proof.
  revert s; induction t as [|x t IH]; intros [|y s]; simpl.
  - split; [intros _; now exists "" | reflexivity].
  - split; [intros _; now exists (String y s) | reflexivity].
  - split; [discriminate | intros [b Hb]; discriminate].
  - destruct (Ascii.ascii_dec x y) as [->|Hxy].
    + rewrite IH. split; intros [b Hb]; exists b.
      * now rewrite Hb.
      * now inversion Hb.
    + split; [discriminate | intros [b Hb]; congruence].
Qed.

Lemma includes_unfold (s t : string) :
  JS.includes s t
  = if prefix t s then true
    else match s with
         | EmptyString => false
         | String _ r => JS.includes r t
         end.
Proof. destruct s; reflexivity. Qed.

(** [includes] decides occurrence. *)
Lemma includes_occursIn (s t : string) : JS.includes s t = true <-> occursIn t s.
Proof.
  unfold occursIn. induction s as [|x s IH]; rewrite includes_unfold.
  - destruct (prefix t "") eqn:Hp.
    + split; [intros _ | reflexivity].
      apply prefix_app in Hp as [b Hb]. now exists "", b.
    + split; [discriminate |].
      intros [[|y a] [b Hb]]; [| discriminate].
      assert (prefix t "" = true) by (apply prefix_app; now exists b).
      congruence.
  - destruct (prefix t (String x s)) eqn:Hp.
    + split; [intros _ | reflexivity].
      apply prefix_app in Hp as [b Hb]. now exists "", b.
    + rewrite IH. split.
      * intros [a [b Hb]]. exists (String x a), b. simpl. now rewrite Hb.
      * intros [[|y a] [b Hb]].
        -- assert (prefix t (String x s) = true) by (apply prefix_app; now exists b).
           congruence.
        -- exists a, b. now inversion Hb.
Qed.

Lemma includes_false (s t : string) : JS.includes s t = false <-> ~ occursIn t s.
Proof.
  rewrite <- includes_occursIn. destruct (JS.includes s t); intuition congruence.
Qed.

Lemma arrayIncludes_In (l : list string) (x : string) :
  JS.arrayIncludes l x = true <-> In x l.
Proof.
  unfold JS.arrayIncludes. rewrite existsb_exists. split.
  - intros [y [Hy Heq]]. apply String.eqb_eq in Heq. now subst.
  - intros Hx. exists x. split; [assumption | apply String.eqb_refl].
Qed.

Lemma arrayIncludes_notIn (l : list string) (x : string) :
  JS.arrayIncludes l x = false <-> ~ In x l.
Proof.
  rewrite <- arrayIncludes_In. destruct (JS.arrayIncludes l x); intuition congruence.
Qed.

(** A set stays duplicate-free and gains exactly the added element. *)
Lemma setAdd_spec (s : JS.SetOf) (x : string) :
  NoDup s ->
  NoDup (JS.setAdd s x) /\ forall y, In y (JS.setAdd s x) <-> In y s \/ y = x.
Proof.
  intros Hs. unfold JS.setAdd.
  destruct (JS.arrayIncludes s x) eqn:Hx.
  - apply arrayIncludes_In in Hx. split; [assumption |].
    intros y. split; [now left | intros [H | ->]; assumption].
  - apply arrayIncludes_notIn in Hx. split.
    + apply NoDup_app; [assumption | repeat constructor; intros [] |].
      intros a Ha [<- | []]. contradiction.
    + intros y. rewrite in_app_iff. simpl. intuition.
Qed.

Lemma fold_setAdd_spec (l : list string) (acc : JS.SetOf) :
  NoDup acc ->
  NoDup (fold_left JS.setAdd l acc)
  /\ forall y, In y (fold_left JS.setAdd l acc) <-> In y acc \/ In y l.
Proof.
  revert acc; induction l as [|x l IH]; intros acc Hacc; simpl.
  - split; [assumption | intuition].
  - destruct (setAdd_spec acc x Hacc) as [Hnd Hin].
    destruct (IH _ Hnd) as [Hnd' Hin']. split; [assumption |].
    intros y. rewrite Hin', Hin. intuition.
Qed.

(** Adding the elements of a duplicate-free list to an empty set keeps the list. *)
Lemma fold_setAdd_fresh (l : list string) (acc : JS.SetOf) :
  NoDup (acc ++ l) -> fold_left JS.setAdd l acc = (acc ++ l)%list.
Proof.
  revert acc; induction l as [|x l IH]; intros acc Hnd; simpl.
  - now rewrite app_nil_r.
  - assert (Hx : JS.arrayIncludes acc x = false).
    { apply arrayIncludes_notIn. intros Hin.
      apply NoDup_remove_2 in Hnd. apply Hnd. apply in_app_iff. now left. }
    unfold JS.setAdd at 2. rewrite Hx.
    rewrite IH; rewrite <- app_assoc; simpl; [reflexivity | assumption].
Qed.

Lemma setFrom_spec (l : list string) :
  NoDup (JS.setFrom l) /\ forall y, In y (JS.setFrom l) <-> In y l.
Proof.
  destruct (fold_setAdd_spec l [] (NoDup_nil _)) as [Hnd Hin].
  split; [exact Hnd |]. intros y. unfold JS.setFrom. rewrite Hin. simpl. intuition.
Qed.

(** ** The taxonomy *)

Lemma taxonomy_names_NoDup : NoDup (List.concat (JS.values COMPONENT_CATEGORIES)).
Proof.
  rewrite <- (eq_refl : nodup string_dec (List.concat (JS.values COMPONENT_CATEGORIES))
                        = List.concat (JS.values COMPONENT_CATEGORIES)).
  apply NoDup_nodup.
Qed.

Lemma taxonomy_member (n : string) :
  In n (List.concat (JS.values COMPONENT_CATEGORIES))
  <-> exists category members,
        In (category, members) COMPONENT_CATEGORIES /\ In n members.
Proof.
  rewrite in_concat. unfold JS.values. split.
  - intros [ms [Hms Hn]]. apply in_map_iff in Hms as [[c ms'] [Heq Hin]].
    simpl in Heq; subst. now exists c, ms.
  - intros [c [ms [Hin Hn]]]. exists ms. split; [| assumption].
    apply in_map_iff. now exists (c, ms).
Qed.

(** The nested loops of [scrapeAllComponents] and [new Set (... .flat ())]
    of [generateTypeDefinitions] build the same set. *)
Lemma fold_fold_setAdd (ls : list (list string)) (acc : JS.SetOf) :
  fold_left (fun a l => fold_left JS.setAdd l a) ls acc
  = fold_left JS.setAdd (List.concat ls) acc.
Proof.
  revert acc; induction ls as [|l ls IH]; intros acc; simpl; [reflexivity |].
  now rewrite fold_left_app, IH.
Qed.

Lemma allComponents_flat :
  UntitledUIScraper.allComponents = List.concat (JS.values COMPONENT_CATEGORIES).
Proof.
  unfold UntitledUIScraper.allComponents. rewrite fold_fold_setAdd.
  apply (fold_setAdd_fresh _ []). exact taxonomy_names_NoDup.
Qed.

(** The first category that lists a name is found, or no category lists it. *)
Lemma firstCategory_spec (es : list (string * list string)) (n : string) :
  (exists ms, In (UntitledUIScraper.firstCategory es n, ms) es /\ In n ms)
  \/ (UntitledUIScraper.firstCategory es n = "misc"
      /\ forall c ms, In (c, ms) es -> ~ In n ms).
Proof.
  induction es as [|[c ms] es IH]; simpl.
  - right. split; [reflexivity | intros c ms []].
  - destruct (JS.arrayIncludes ms n) eqn:Hn.
    + left. exists ms. apply arrayIncludes_In in Hn. split; [now left | assumption].
    + apply arrayIncludes_notIn in Hn. destruct IH as [[ms' [Hin Hn']] | [Hm Hall]].
      * left. exists ms'. split; [now right | assumption].
      * right. split; [assumption |].
        intros c' ms' [Heq | Hin]; [inversion Heq; now subst | eauto].
Qed.

(** No name is listed by two categories. *)
Lemma concat_NoDup_unique (es : list (string * list string)) :
  NoDup (List.concat (map snd es)) ->
  forall c1 m1 c2 m2 n,
    In (c1, m1) es -> In (c2, m2) es -> In n m1 -> In n m2 -> c1 = c2.
Proof.
  induction es as [|[c ms] es IH]; simpl; intros Hnd c1 m1 c2 m2 n H1 H2 Hn1 Hn2;
    [contradiction |].
  assert (Hcross : forall c' m', In (c', m') es -> In n ms -> In n m' -> False).
  { intros c' m' Hin Hms Hm'.
    assert (Hc : In n (List.concat (map snd es))).
    { apply in_concat. exists m'. split; [| assumption].
      apply in_map_iff. now exists (c', m'). }
    clear - Hnd Hms Hc. induction ms as [|x ms IHms]; [contradiction |].
    simpl in Hnd. inversion Hnd as [|? ? Hx Hnd']; subst.
    destruct Hms as [-> | Hms]; [| now apply IHms].
    apply Hx. apply in_app_iff. now right. }
  destruct H1 as [E1 | H1], H2 as [E2 | H2].
  - congruence.
  - inversion E1; subst. exfalso; eauto.
  - inversion E2; subst. exfalso; eauto.
  - apply NoDup_app_remove_l in Hnd. eauto.
Qed.

(** ** Fetching one component *)

Import UntitledUIScraper.

(** [fetchComponentInfo] always returns: it reads the clock once and
    synthesizes the record. *)
Lemma fetchComponentInfo_returns (componentName : string) (s : State) :
  fetchComponentInfo componentName s
  = (Returned (synthesize (baseUrl (this s)) componentName (nextStamp s)), ticked s).
Proof. reflexivity. Qed.

(** C3. A name listed by a category of the taxonomy gets that category, a
    name that no category lists gets "misc". *)
Theorem getCategoryForComponent_taxonomy (componentName : string) :
  (forall category members,
      In (category, members) COMPONENT_CATEGORIES -> In componentName members ->
      getCategoryForComponent componentName = category)
  /\ ((forall category members,
          In (category, members) COMPONENT_CATEGORIES -> ~ In componentName members) ->
      getCategoryForComponent componentName = "misc").
Proof.
  unfold getCategoryForComponent, JS.entries.
  destruct (firstCategory_spec COMPONENT_CATEGORIES componentName)
    as [[ms [Hin Hn]] | [Hmisc Hnone]]; split.
  - intros category members Hc Hm.
    exact (concat_NoDup_unique COMPONENT_CATEGORIES taxonomy_names_NoDup
             _ _ _ _ _ Hin Hc Hn Hm).
  - intros Hnone. exfalso. exact (Hnone _ _ Hin Hn).
  - intros category members Hc Hm. exfalso. exact (Hnone _ _ Hc Hm).
  - intros _. exact Hmisc.
Qed.

Lemma getCategoryForComponent_taxonomy_witness :
  getCategoryForComponent "button" = "buttons"
  /\ getCategoryForComponent "nonexistent" = "misc".
Proof.
  split.
  - apply (proj1 (getCategoryForComponent_taxonomy "button")
             "buttons" ["button"; "button-group"; "split-button"]);
      simpl; auto.
  - apply (proj2 (getCategoryForComponent_taxonomy "nonexistent")).
    intros category members Hin Hn. simpl in Hin.
    repeat (destruct Hin as [Hin | Hin];
            [inversion Hin; subst; simpl in Hn; intuition discriminate |]).
    exact Hin.
Defined.

(** C2. The record fetched for any name [X] has the install command
    "npx untitledui@latest add " followed by [X], and [manual] set. *)
Theorem fetchComponentInfo_install_command (X : string) (s : State) :
  exists d s',
    fetchComponentInfo X s = (Returned d, s')
    /\ Installation.cli (Component.installation d) = "npx untitledui@latest add " ++ X
    /\ Installation.manual (Component.installation d) = true.
Proof.
  eexists. eexists. split; [apply fetchComponentInfo_returns |].
  unfold synthesize.
  destruct (String.eqb X "button"); [split; reflexivity |].
  destruct (String.eqb X "input"); split; reflexivity.
Qed.

(** C4. The hand-written overrides: the variants of "button", the [size]
    property of "input", and nothing for any other name. *)
Theorem fetchComponentInfo_overrides (s : State) :
  (exists d s',
      fetchComponentInfo "button" s = (Returned d, s')
      /\ Component.variants d
         = ["primary"; "secondary"; "tertiary"; "destructive"; "link"])
  /\ (exists d s',
        fetchComponentInfo "input" s = (Returned d, s')
        /\ JS.get (Component.props d) "size" = JS.Own "sm | md | lg")
  /\ (forall X, X <> "button" -> X <> "input" ->
        exists d s',
          fetchComponentInfo X s = (Returned d, s')
          /\ Component.variants d = [] /\ Component.props d = []).
Proof.
  repeat split.
  - eexists. eexists. split; [apply fetchComponentInfo_returns | reflexivity].
  - eexists. eexists. split; [apply fetchComponentInfo_returns | reflexivity].
  - intros X Hb Hi. eexists. eexists. split; [apply fetchComponentInfo_returns |].
    unfold synthesize.
    apply String.eqb_neq in Hb, Hi. rewrite Hb, Hi. split; reflexivity.
Qed.

Lemma fetchComponentInfo_overrides_witness :
  exists d s',
    fetchComponentInfo "card" {| this := new ["repo"; "scripts"]; env := emptyWorld |}
    = (Returned d, s')
    /\ Component.variants d = [] /\ Component.props d = [].
Proof.
  apply (proj2 (proj2 (fetchComponentInfo_overrides
                         {| this := new ["repo"; "scripts"]; env := emptyWorld |}))
           "card"); discriminate.
Defined.

(** ** Effects *)

Lemma bind_returned {S A B} (c : M S A) (k : A -> M S B) (s s' : S) (b : B) :
  bind c k s = (Returned b, s') ->
  exists a s1, c s = (Returned a, s1) /\ k a s1 = (Returned b, s').
Proof.
  unfold bind. destruct (c s) as [[a | e | n] s1]; intros H; try discriminate.
  now exists a, s1.
Qed.

Lemma bind_run {S A B} (c : M S A) (k : A -> M S B) (s s1 : S) (a : A) :
  c s = (Returned a, s1) -> bind c k s = k a s1.
Proof. intros H. unfold bind. now rewrite H. Qed.

Lemma pathEqb_eq (p q : JS.Path) : JS.pathEqb p q = true <-> p = q.
Proof.
  revert q; induction p as [|a p IH]; intros [|b q]; simpl;
    try (split; [discriminate | intros E; discriminate]); [tauto |].
  rewrite andb_true_iff, String.eqb_eq, IH. split.
  - intros [-> ->]. reflexivity.
  - intros E. inversion E. tauto.
Qed.

Lemma pathEqb_refl (p : JS.Path) : JS.pathEqb p p = true.
Proof. now apply pathEqb_eq. Qed.

Lemma pathEqb_neq (p q : JS.Path) : p <> q -> JS.pathEqb p q = false.
Proof.
  intros H. destruct (JS.pathEqb p q) eqn:E; [| reflexivity].
  apply pathEqb_eq in E. contradiction.
Qed.

Lemma lookup_store_same (fs : list (JS.Path * File)) (p : JS.Path) (f : File) :
  lookupFile (storeFile fs p f) p = Some f.
Proof.
  induction fs as [|[q g] fs IH]; simpl.
  - now rewrite pathEqb_refl.
  - destruct (JS.pathEqb p q) eqn:E; simpl.
    + now rewrite pathEqb_refl.
    + now rewrite E.
Qed.

Lemma lookup_store_other (fs : list (JS.Path * File)) (p q : JS.Path) (f : File) :
  p <> q -> lookupFile (storeFile fs q f) p = lookupFile fs p.
Proof.
  intros Hpq. induction fs as [|[r g] fs IH]; simpl.
  - now rewrite (pathEqb_neq _ _ Hpq).
  - destruct (JS.pathEqb q r) eqn:E; simpl.
    + apply pathEqb_eq in E; subst r. now rewrite (pathEqb_neq _ _ Hpq).
    + destruct (JS.pathEqb p r); [reflexivity | exact IH].
Qed.

(** [path.join (dir, name)] for a file name. *)
Lemma normalize_snoc (l acc : list string) (x : string) :
  x <> ".." -> JS.normalize acc (l ++ [x]) = (JS.normalize acc l ++ [x])%list.
Proof.
  intros Hx. revert acc; induction l as [|y l IH]; intros acc; simpl.
  - apply String.eqb_neq in Hx. now rewrite Hx.
  - destruct (String.eqb y ".."); apply IH.
Qed.

Lemma pathJoin_file (dir : JS.Path) (x : string) :
  x <> ".." -> JS.pathJoin [dir; [x]] = (JS.pathJoin [dir] ++ [x])%list.
Proof.
  intros Hx. unfold JS.pathJoin. simpl. rewrite app_nil_r.
  now apply normalize_snoc.
Qed.

Lemma pathJoin_file_neq (dir : JS.Path) (x y : string) :
  x <> ".." -> y <> ".." -> x <> y -> JS.pathJoin [dir; [x]] <> JS.pathJoin [dir; [y]].
Proof.
  intros Hx Hy Hxy E. rewrite !pathJoin_file in E by assumption.
  apply app_inv_head in E. congruence.
Qed.

(** What [writeFile] does in a state of the scraper. *)
Lemma writeFile_State (p : JS.Path) (f : File) (s : State) :
  writeFile p f s
  = match fsFault (env s) (fsCalls (env s)) with
    | Some m => (Threw (JS.SystemError m), inWorld s (afterFsCall (env s)))
    | None =>
        if isDir (env s) (JS.dirname p)
        then (Returned tt, inWorld s (written (afterFsCall (env s)) p f))
        else (Threw (JS.SystemError "ENOENT: no such file or directory"),
              inWorld s (afterFsCall (env s)))
    end.
Proof.
  unfold writeFile, fsCall, bind, gets, updWorld, modify, throw, ret. simpl.
  destruct (fsFault (env s) (fsCalls (env s))); [reflexivity |].
  unfold isDir. simpl. destruct (existsb _ _); reflexivity.
Qed.

Lemma writeFile_returned (p : JS.Path) (f : File) (s s' : State) :
  writeFile p f s = (Returned tt, s') ->
  s' = inWorld s (written (afterFsCall (env s)) p f).
Proof.
  rewrite writeFile_State.
  destruct (fsFault _ _); [discriminate |].
  destruct (isDir _ _); [| discriminate]. now inversion 1.
Qed.

Lemma keepsThis_bind {A B} (c : M State A) (k : A -> M State B) :
  keepsThis c -> (forall a, keepsThis (k a)) -> keepsThis (bind c k).
Proof.
  intros Hc Hk s o s'. unfold bind.
  destruct (c s) as [[a | e | n] s1] eqn:E; intros H.
  - rewrite (Hk a _ _ _ H). exact (Hc _ _ _ E).
  - inversion H; subst. exact (Hc _ _ _ E).
  - inversion H; subst. exact (Hc _ _ _ E).
Qed.

Lemma keepsThis_updWorld (f : World -> World) : keepsThis (updWorld f).
Proof. intros s o s' H. inversion H. reflexivity. Qed.

Lemma keepsThis_gets {A} (f : State -> A) : keepsThis (gets f).
Proof. intros s o s' H. inversion H. reflexivity. Qed.

Lemma keepsThis_mkdir (p : JS.Path) : keepsThis (mkdir p).
Proof.
  intros s o s'. unfold mkdir, fsCall, bind, gets, updWorld, modify, throw, ret. simpl.
  destruct (fsFault _ _); now inversion 1.
Qed.

Lemma keepsThis_init : keepsThis init.
Proof.
  unfold init. apply keepsThis_bind; [apply keepsThis_gets | intros out].
  apply keepsThis_bind; [apply keepsThis_mkdir | intros _; apply keepsThis_mkdir].
Qed.

(** ** The type definitions *)

(** C8. The text of [types.ts] declares two unions of string literals,
    each member a name between single quotes and the members separated by
    a bar: [ComponentCategory] with the category names of the taxonomy and
    [ComponentName] with the component names of the taxonomy, each name
    once.  The two lines are written out.  The catalog and the store play
    no part, and this text is what a returning [generateTypeDefinitions]
    leaves in the file. *)
Theorem typeDefinitions_closed_unions (catalog : Catalog.t) (s : State) :
  exists categoryNames componentNames,
    typeDefinitions catalog
    = typesHeader
      ++ "export type ComponentCategory = "
      ++ JS.join " | " (map (fun name => "'" ++ name ++ "'") categoryNames)
      ++ ";" ++ JS.nl
      ++ "export type ComponentName = "
      ++ JS.join " | " (map (fun name => "'" ++ name ++ "'") componentNames)
      ++ ";" ++ JS.nl
    /\ categoryNames = map fst COMPONENT_CATEGORIES
    /\ NoDup componentNames
    /\ (forall n, In n componentNames
                  <-> exists category members,
                        In (category, members) COMPONENT_CATEGORIES /\ In n members)
    /\ typeDefinitions catalog
       = typesHeader
         ++ "export type ComponentCategory = "
         ++ "'buttons' | 'inputs' | 'avatars' | 'navigation' | "
         ++ "'feedback' | 'overlays' | 'layout' | 'data-display' | "
         ++ "'forms'"
         ++ ";" ++ JS.nl
         ++ "export type ComponentName = "
         ++ "'button' | 'button-group' | 'split-button' | 'input' | "
         ++ "'textarea' | 'select' | 'checkbox' | 'radio' | 'switch' | "
         ++ "'file-upload' | 'avatar' | 'avatar-group' | 'breadcrumb' | "
         ++ "'pagination' | 'tabs' | 'navbar' | 'sidebar' | 'alert' | "
         ++ "'toast' | 'progress' | 'spinner' | 'badge' | 'modal' | "
         ++ "'popover' | 'tooltip' | 'dropdown' | 'dialog' | 'card' | "
         ++ "'container' | 'divider' | 'stack' | 'table' | 'list' | "
         ++ "'stat' | 'timeline' | 'carousel' | 'form' | 'fieldset' | "
         ++ "'form-control' | 'validation'"
         ++ ";" ++ JS.nl
    /\ (forall catalog', typeDefinitions catalog' = typeDefinitions catalog)
    /\ (forall s',
          generateTypeDefinitions catalog s = (Returned tt, s') ->
          lookupFile (files (env s')) (JS.pathJoin [outputDir (this s); ["types.ts"]])
          = Some (Text (typeDefinitions catalog))).
Proof.
  exists (JS.keys COMPONENT_CATEGORIES),
         (JS.setFrom (List.concat (JS.values COMPONENT_CATEGORIES))).
  destruct (setFrom_spec (List.concat (JS.values COMPONENT_CATEGORIES))) as [Hnd Hin].
  split; [reflexivity |].
  split; [reflexivity |].
  split; [exact Hnd |].
  split; [intros n; rewrite Hin; apply taxonomy_member |].
  split; [vm_compute; reflexivity |].
  split; [intros catalog'; reflexivity |].
  intros s' H. unfold generateTypeDefinitions in H.
  apply bind_returned in H as [out [s1 [Hout Hw]]].
  inversion Hout; subst out s1.
  apply writeFile_returned in Hw. subst s'. simpl.
  apply lookup_store_same.
Qed.

Lemma typeDefinitions_closed_unions_witness :
  let catalog := assembleCatalog (new ["repo"; "scripts"]) "" in
  let s := {| this := new ["repo"; "scripts"]; env := scrapedWorld |} in
  fst (generateTypeDefinitions catalog s) = Returned tt
  /\ lookupFile (files (env (snd (generateTypeDefinitions catalog s))))
       ["repo"; "src"; "lib"; "untitled-ui"; "types.ts"]
     = Some (Text
               (typesHeader
                ++ "export type ComponentCategory = "
                ++ "'buttons' | 'inputs' | 'avatars' | 'navigation' | "
                ++ "'feedback' | 'overlays' | 'layout' | 'data-display' | "
                ++ "'forms'"
                ++ ";" ++ JS.nl
                ++ "export type ComponentName = "
                ++ "'button' | 'button-group' | 'split-button' | 'input' | "
                ++ "'textarea' | 'select' | 'checkbox' | 'radio' | 'switch' | "
                ++ "'file-upload' | 'avatar' | 'avatar-group' | 'breadcrumb' | "
                ++ "'pagination' | 'tabs' | 'navbar' | 'sidebar' | 'alert' | "
                ++ "'toast' | 'progress' | 'spinner' | 'badge' | 'modal' | "
                ++ "'popover' | 'tooltip' | 'dropdown' | 'dialog' | 'card' | "
                ++ "'container' | 'divider' | 'stack' | 'table' | 'list' | "
                ++ "'stat' | 'timeline' | 'carousel' | 'form' | 'fieldset' | "
                ++ "'form-control' | 'validation'"
                ++ ";" ++ JS.nl)).
Proof.
  intros catalog s. split; [vm_compute; reflexivity |].
  destruct (typeDefinitions_closed_unions catalog s)
    as [categoryNames [componentNames [_ [_ [_ [_ [Htext [_ H]]]]]]]].
  rewrite <- Htext. apply H. vm_compute. reflexivity.
Defined.

(** ** The sitemap rules *)

(** C9. A URL with both "/projects/" and "/blog/" gets the rule of
    "/projects/"; the root of the site gets priority 1 and "daily"; any
    other URL without one of the six marked parts keeps the defaults 0.7
    and "weekly" of the integration. *)
Theorem serialize_precedence :
  (forall item,
      occursIn "/projects/" (SiteConfig.url item) ->
      occursIn "/blog/" (SiteConfig.url item) ->
      SiteConfig.priority (SiteConfig.serialize item) = (9 # 10)%Q
      /\ SiteConfig.changefreq (SiteConfig.serialize item) = "weekly")
  /\ (forall item,
        SiteConfig.url item = SiteConfig.site ++ "/" ->
        SiteConfig.priority (SiteConfig.serialize item) = (1 # 1)%Q
        /\ SiteConfig.changefreq (SiteConfig.serialize item) = "daily")
  /\ (forall pageUrl lastModified,
        pageUrl <> SiteConfig.site ++ "/" ->
        ~ occursIn "/projects/" pageUrl -> ~ occursIn "/blog/" pageUrl ->
        ~ occursIn "/about" pageUrl -> ~ occursIn "/careers" pageUrl ->
        ~ occursIn "/privacy" pageUrl -> ~ occursIn "/terms" pageUrl ->
        SiteConfig.serialize (SiteConfig.itemFor pageUrl lastModified)
        = SiteConfig.itemFor pageUrl lastModified
        /\ SiteConfig.priority (SiteConfig.serialize (SiteConfig.itemFor pageUrl lastModified))
           = (7 # 10)%Q
        /\ SiteConfig.changefreq (SiteConfig.serialize (SiteConfig.itemFor pageUrl lastModified))
           = "weekly").
Proof.
  split; [| split].
  - intros item Hp _. apply includes_occursIn in Hp.
    unfold SiteConfig.serialize. rewrite Hp. split; reflexivity.
  - intros item Hroot. unfold SiteConfig.serialize. rewrite Hroot.
    split; reflexivity.
  - intros pageUrl lastModified Hroot H1 H2 H3 H4 H5 H6.
    apply includes_false in H1, H2, H3, H4, H5, H6.
    apply String.eqb_neq in Hroot.
    assert (E : SiteConfig.serialize (SiteConfig.itemFor pageUrl lastModified)
                = SiteConfig.itemFor pageUrl lastModified).
    { unfold SiteConfig.serialize. cbn [SiteConfig.itemFor SiteConfig.url].
      rewrite H1, H2, H3, H4, H5, H6.
      change "https://nextworkmarketing.com/" with (SiteConfig.site ++ "/").
      now rewrite Hroot. }
    rewrite E. repeat split.
Qed.

Lemma serialize_precedence_witness :
  (let item := SiteConfig.itemFor "https://nextworkmarketing.com/projects/blog/post" "" in
   SiteConfig.priority (SiteConfig.serialize item) = (9 # 10)%Q
   /\ SiteConfig.changefreq (SiteConfig.serialize item) = "weekly")
  /\ (let item := SiteConfig.itemFor "https://nextworkmarketing.com/" "" in
      SiteConfig.priority (SiteConfig.serialize item) = (1 # 1)%Q
      /\ SiteConfig.changefreq (SiteConfig.serialize item) = "daily")
  /\ (let item := SiteConfig.itemFor "https://nextworkmarketing.com/contact" "" in
      SiteConfig.serialize item = item
      /\ SiteConfig.priority (SiteConfig.serialize item) = (7 # 10)%Q
      /\ SiteConfig.changefreq (SiteConfig.serialize item) = "weekly").
Proof.
  destruct serialize_precedence as [Hboth [Hroot Hnone]].
  split; [| split].
  - apply Hboth; apply includes_occursIn; reflexivity.
  - apply Hroot. reflexivity.
  - apply Hnone; try (apply includes_false; reflexivity). discriminate.
Defined.

(** ** The helper: printing and loading *)

Lemma consoleLog_printed (l : string) (w : World) :
  consoleLog l w = (Returned tt, printed w [l]).
Proof. reflexivity. Qed.

Lemma printed_nil (w : World) : printed w [] = w.
Proof. destruct w. unfold printed. simpl. now rewrite app_nil_r. Qed.

Lemma printed_app (w : World) (a b : list string) :
  printed (printed w a) b = printed w (a ++ b).
Proof. unfold printed. simpl. now rewrite app_assoc. Qed.

(** A loop whose body only prints, prints the lines of its rounds in order. *)
Lemma forEach_printed {X} (l : list X) (body : X -> M World unit)
  (f : X -> list string) :
  (forall x w, body x w = (Returned tt, printed w (f x))) ->
  forall w, forEach l body w = (Returned tt, printed w (List.concat (map f l))).
Proof.
  intros Hbody. induction l as [|x l IH]; intros w; simpl.
  - now rewrite printed_nil.
  - rewrite (bind_run _ _ _ _ _ (Hbody x w)). rewrite IH. now rewrite printed_app.
Qed.

Lemma concat_singletons {X} (f : X -> string) (l : list X) :
  List.concat (map (fun x => [f x]) l) = map f l.
Proof. induction l as [|x l IH]; simpl; [reflexivity | now rewrite IH]. Qed.

Lemma forEach_consoleLog {X} (f : X -> string) (l : list X) (w : World) :
  forEach l (fun x => consoleLog (f x)) w = (Returned tt, printed w (map f l)).
Proof.
  rewrite (forEach_printed l _ (fun x => [f x])); [| reflexivity].
  now rewrite concat_singletons.
Qed.

Lemma loadCatalog_loads (self : UIHelper.t) (w : World) (catalog : Catalog.t) :
  loads self w catalog ->
  UIHelper.loadCatalog self w = (Returned (CatalogJson catalog), afterFsCall w).
Proof.
  intros [Hfault Hfile].
  unfold UIHelper.loadCatalog, tryCatch, readFile, fsCall, bind, gets, updWorld,
    modify, throw, ret. simpl.
  rewrite Hfault. simpl. rewrite Hfile. reflexivity.
Qed.

(** [loadCatalog] returns the document of the file, or ends the process with
    status 1 after a message on the standard error. *)
Lemma loadCatalog_cases (self : UIHelper.t) (w : World) :
  (exists doc, UIHelper.loadCatalog self w = (Returned doc, afterFsCall w))
  \/ (exists w', UIHelper.loadCatalog self w = (Exited 1, w') /\ stdout w' = stdout w).
Proof.
  unfold UIHelper.loadCatalog, tryCatch, readFile, fsCall, bind, gets, updWorld,
    modify, throw, ret. simpl.
  destruct (fsFault w (fsCalls w)); simpl.
  - right. eexists. split; reflexivity.
  - destruct (lookupFile (files w) (UIHelper.catalogPath self)) as [[doc | t] |]; simpl.
    + left. now exists doc.
    + right. eexists. split; reflexivity.
    + right. eexists. split; reflexivity.
Qed.

Lemma listAll_prints (catalog : Catalog.t) (w : World) :
  UIHelper.listAll catalog w = (Returned tt, printed w (listing catalog)).
Proof.
  unfold UIHelper.listAll, listing.
  rewrite (bind_run _ _ _ _ _ (consoleLog_printed _ w)).
  rewrite (forEach_printed _ _
             (fun e : string * list Component.t =>
                ("📂 " ++ JS.toUpperCase (fst e) ++ " ("
                 ++ JS.numberToString (List.length (snd e)) ++ " components)")
                :: List.app (map (fun comp => "  📦 " ++ Component.name comp) (snd e))
                            [""])).
  - now rewrite printed_app.
  - intros e w0.
    rewrite (bind_run _ _ _ _ _ (consoleLog_printed _ w0)).
    rewrite (bind_run _ _ _ _ _ (forEach_consoleLog _ (snd e) _)).
    rewrite consoleLog_printed. now rewrite !printed_app.
Qed.

(** No line of the listing is a category-not-found message. *)
Lemma listing_no_notFound (catalog : Catalog.t) (category : string) :
  ~ In (UIHelper.categoryNotFound category) (listing catalog).
Proof.
  unfold listing, UIHelper.categoryNotFound. intros [E | Hin]; [discriminate |].
  apply in_concat in Hin as [ls [Hls Hl]].
  apply in_map_iff in Hls as [e [<- _]].
  destruct Hl as [E | Hl]; [discriminate |].
  apply in_app_iff in Hl as [Hl | [E | []]]; [| discriminate].
  apply in_map_iff in Hl as [comp [E _]]. discriminate.
Qed.

Lemma list_falsy (self : UIHelper.t) (w : World) :
  UIHelper.list self (Some "") w
  = bind (UIHelper.loadCatalog self)
      (fun doc => bind (UIHelper.asCatalog doc) UIHelper.listAll) w.
Proof. reflexivity. Qed.

(** C10. [list] with the empty string behaves as [list] without argument:
    when the catalog loads it prints the listing of every category, and in
    no case a category-not-found message. *)
Theorem list_empty_category (self : UIHelper.t) (w : World) :
  UIHelper.list self (Some "") w = UIHelper.list self None w
  /\ (forall catalog,
        loads self w catalog ->
        UIHelper.list self (Some "") w
        = (Returned tt, printed (afterFsCall w) (listing catalog)))
  /\ (exists lines,
        stdout (snd (UIHelper.list self (Some "") w)) = (stdout w ++ lines)%list
        /\ forall category, ~ In (UIHelper.categoryNotFound category) lines).
Proof.
  split; [reflexivity | split].
  - intros catalog Hl. unfold UIHelper.list.
    rewrite (bind_run _ _ _ _ _ (loadCatalog_loads _ _ _ Hl)).
    simpl. apply listAll_prints.
  - rewrite list_falsy.
    destruct (loadCatalog_cases self w) as [[doc Hdoc] | [w' [Hexit Hout]]].
    + rewrite (bind_run _ _ _ _ _ Hdoc). destruct doc as [d | catalog].
      * exists []. split; [simpl; now rewrite app_nil_r | intros category []].
      * change (bind (UIHelper.asCatalog (CatalogJson catalog)) UIHelper.listAll
                  (afterFsCall w))
          with (UIHelper.listAll catalog (afterFsCall w)).
        rewrite listAll_prints. exists (listing catalog).
        split; [reflexivity | intros category; apply listing_no_notFound].
    + unfold bind. rewrite Hexit. simpl. exists [].
      split; [now rewrite app_nil_r | intros category []].
Qed.

Lemma list_empty_category_witness :
  UIHelper.list (UIHelper.new ["repo"; "scripts"]) (Some "") scrapedWorld
  = (Returned tt, printed (afterFsCall scrapedWorld) (listing scrapedCatalog)).
Proof.
  apply (proj1 (proj2 (list_empty_category (UIHelper.new ["repo"; "scripts"])
                         scrapedWorld))).
  split; vm_compute; reflexivity.
Defined.

(** ** The helper: search *)

(** The predicate of the filter, read as occurrences of the lowered query. *)
Lemma matches_occursIn (lowerQuery : string) (component : Component.t) :
  UIHelper.matches lowerQuery component = true
  <-> occursIn lowerQuery (JS.toLowerCase (Component.name component))
      \/ occursIn lowerQuery (JS.toLowerCase (Component.description component))
      \/ occursIn lowerQuery (JS.toLowerCase (Component.category component))
      \/ exists variant,
           In variant (Component.variants component)
           /\ occursIn lowerQuery (JS.toLowerCase variant).
Proof.
  unfold UIHelper.matches.
  rewrite !orb_true_iff, !includes_occursIn, existsb_exists.
  assert (Hv : (exists x, In x (Component.variants component)
                          /\ JS.includes (JS.toLowerCase x) lowerQuery = true)
               <-> (exists variant, In variant (Component.variants component)
                                    /\ occursIn lowerQuery (JS.toLowerCase variant))).
  { split; intros [v [Hin Hv]]; exists v; split; try assumption;
      now apply includes_occursIn. }
  rewrite Hv. tauto.
Qed.

(** *** Case conversion on ASCII text

    The laws below are laws of the conversions of the language on ASCII
    text; they are stated for such text only. *)

Lemma asciiText_String (c : ascii) (s : string) :
  asciiText (String c s) = Nat.ltb (nat_of_ascii c) 128 && asciiText s.
Proof. reflexivity. Qed.

Lemma asciiText_app (a b : string) :
  asciiText (a ++ b) = asciiText a && asciiText b.
Proof.
  induction a as [|x a IH]; [reflexivity |].
  simpl append. rewrite !asciiText_String, IH. apply andb_assoc.
Qed.

Lemma toLowerCase_app (a b : string) :
  asciiText a = true -> asciiText b = true ->
  JS.toLowerCase (a ++ b) = JS.toLowerCase a ++ JS.toLowerCase b.
Proof.
  intros _ _. induction a as [|x a IH]; simpl; [reflexivity | now rewrite IH].
Qed.


Lemma occursIn_toLowerCase (a b : string) :
  asciiText b = true ->
  occursIn a b -> occursIn (JS.toLowerCase a) (JS.toLowerCase b).
Proof.
  intros Hb [p [q Hpq]]. subst b.
  rewrite !asciiText_app, !andb_true_iff in Hb. destruct Hb as [Hp [Ha Hq]].
  exists (JS.toLowerCase p), (JS.toLowerCase q).
  rewrite toLowerCase_app; [| exact Hp | now rewrite asciiText_app, Ha, Hq].
  rewrite toLowerCase_app; [reflexivity | exact Ha | exact Hq].
Qed.

Lemma lowerChar_upperChar (c : ascii) :
  JS.lowerChar (JS.upperChar c) = JS.lowerChar c.
Proof. destruct c as [[] [] [] [] [] [] [] []]; reflexivity. Qed.

Lemma toLowerCase_toUpperCase (s : string) :
  asciiText s = true ->
  JS.toLowerCase (JS.toUpperCase s) = JS.toLowerCase s.
Proof.
  intros _. induction s as [|c s IH]; simpl; [reflexivity |].
  now rewrite lowerChar_upperChar, IH.
Qed.

(** Two characters differ at most in case exactly when they are lowered
    to the same character; checked on the 256 x 256 pairs. *)
Lemma sameLetter_lowerChar (a b : ascii) :
  sameLetter a b = Ascii.eqb (JS.lowerChar a) (JS.lowerChar b).
Proof.
  assert (Hall : forall c, In c (map ascii_of_nat (seq 0 256))).
  { intros c. apply in_map_iff. exists (nat_of_ascii c).
    split; [apply ascii_nat_embedding |].
    apply in_seq. pose proof (nat_ascii_bounded c). lia. }
  assert (H : forallb
                (fun x =>
                   forallb
                     (fun y =>
                        Bool.eqb (sameLetter x y)
                          (Ascii.eqb (JS.lowerChar x) (JS.lowerChar y)))
                     (map ascii_of_nat (seq 0 256)))
                (map ascii_of_nat (seq 0 256)) = true)
    by (vm_compute; reflexivity).
  rewrite forallb_forall in H. specialize (H a (Hall a)).
  rewrite forallb_forall in H. specialize (H b (Hall b)).
  now apply eqb_prop in H.
Qed.

Lemma equalIgnoringCase_toLowerCase (s t : string) :
  asciiText s = true -> asciiText t = true ->
  equalIgnoringCase s t = true <-> JS.toLowerCase s = JS.toLowerCase t.
Proof.
  intros _ _. revert t. induction s as [|a s IH]; intros [|b t]; simpl.
  - split; reflexivity.
  - split; discriminate.
  - split; discriminate.
  - rewrite andb_true_iff, sameLetter_lowerChar, Ascii.eqb_eq, IH.
    split; [intros [-> ->]; reflexivity | intros H; now injection H].
Qed.





Lemma scrapedWorld_loads :
  loads (UIHelper.new ["repo"; "scripts"]) scrapedWorld scrapedCatalog.
Proof. split; vm_compute; reflexivity. Qed.


(** ** The helper: outcomes of the process *)

(** A required argument that is missing: the usage lines are printed and
    the file system is not called. *)
Lemma run_missing_argument (self : UIHelper.t) (node script : string) (w : World) :
  UIHelper.run self [node; script; "search"] w
  = (Returned tt,
     printed w ["❌ Please provide a search query"; "Usage: npm run ui search <query>"])
  /\ UIHelper.run self [node; script; "install"] w
     = (Returned tt,
        printed w ["❌ Please provide a component name";
                   "Usage: npm run ui install <component-name>"])
  /\ UIHelper.run self [node; script; "info"] w
     = (Returned tt,
        printed w ["❌ Please provide a component name";
                   "Usage: npm run ui info <component-name>"]).
Proof.
  repeat split.
  - change (UIHelper.run self [node; script; "search"] w)
      with (bind (consoleLog "❌ Please provide a search query")
              (fun _ => consoleLog "Usage: npm run ui search <query>") w).
    rewrite (bind_run _ _ _ _ _ (consoleLog_printed _ _)).
    now rewrite consoleLog_printed, printed_app.
  - change (UIHelper.run self [node; script; "install"] w)
      with (bind (consoleLog "❌ Please provide a component name")
              (fun _ => consoleLog "Usage: npm run ui install <component-name>") w).
    rewrite (bind_run _ _ _ _ _ (consoleLog_printed _ _)).
    now rewrite consoleLog_printed, printed_app.
  - change (UIHelper.run self [node; script; "info"] w)
      with (bind (consoleLog "❌ Please provide a component name")
              (fun _ => consoleLog "Usage: npm run ui info <component-name>") w).
    rewrite (bind_run _ _ _ _ _ (consoleLog_printed _ _)).
    now rewrite consoleLog_printed, printed_app.
Qed.

(** A name that the catalog does not have and that [Object.prototype] does
    not have either: [install] reports it and returns. *)
Lemma install_undefined (self : UIHelper.t) (w : World) (catalog : Catalog.t)
  (componentName : string) :
  loads self w catalog ->
  JS.get (Catalog.components catalog) componentName = JS.Undefined ->
  UIHelper.install self componentName w
  = (Returned tt,
     printed (afterFsCall w)
       [ UIHelper.componentNotFound componentName;
         "Use " ++ JS.dq ++ "npm run ui search <query>" ++ JS.dq
         ++ " to find components." ]).
Proof.
  intros Hl Hget. unfold UIHelper.install.
  rewrite (bind_run _ _ _ _ _ (loadCatalog_loads _ _ _ Hl)).
  change (bind (UIHelper.asCatalog (CatalogJson catalog)) ?k (afterFsCall w))
    with (k catalog (afterFsCall w)).
  cbv beta. rewrite Hget.
  rewrite (bind_run _ _ _ _ _ (consoleLog_printed _ _)).
  rewrite consoleLog_printed. now rewrite printed_app.
Qed.

(** A name that the catalog does not have but that every object inherits:
    [install] takes the inherited value for a record and throws. *)
Lemma install_inherited (self : UIHelper.t) (w : World) (catalog : Catalog.t)
  (componentName : string) (b : JS.Builtin) :
  loads self w catalog ->
  JS.get (Catalog.components catalog) componentName = JS.Inherited b ->
  UIHelper.install self componentName w
  = (Threw (JS.TypeError "Cannot read properties of undefined (reading 'cli')"),
     printed (afterFsCall w) ["🚀 Installing " ++ componentName ++ "..."]).
Proof.
  intros Hl Hget. unfold UIHelper.install.
  rewrite (bind_run _ _ _ _ _ (loadCatalog_loads _ _ _ Hl)).
  change (bind (UIHelper.asCatalog (CatalogJson catalog)) ?k (afterFsCall w))
    with (k catalog (afterFsCall w)).
  cbv beta. rewrite Hget.
  now rewrite (bind_run _ _ _ _ _ (consoleLog_printed _ _)).
Qed.

(** C6. With the catalog of a scraper run on disk, [install constructor]
    loads the catalog, prints that it installs, and ends with a TypeError
    that nothing handles: status 1, and no not-found message. *)
Theorem install_constructor_fails :
  let self := UIHelper.new ["repo"; "scripts"] in
  let r := UIHelper.main ["repo"; "scripts"]
             ["node"; "ui-helper.js"; "install"; "constructor"] scrapedWorld in
  exitStatus (fst (UIHelper.loadCatalog self scrapedWorld)) = 0
  /\ fst r = Threw (JS.TypeError "Cannot read properties of undefined (reading 'cli')")
  /\ exitStatus (fst r) = 1
  /\ stdout (snd r) = ["🚀 Installing constructor..."]
  /\ stderr (snd r) = [].
Proof. vm_compute. repeat split. Qed.

(** ** Objects and maps *)

Lemma own_None_keys {A} (o : JS.Obj A) (k : string) :
  JS.own o k = None <-> ~ In k (JS.keys o).
Proof.
  induction o as [|[k' v] o IH]; simpl; [tauto |].
  destruct (String.eqb_spec k k') as [-> | Hne].
  - split; [discriminate | intros H; exfalso; apply H; now left].
  - rewrite IH. split; [intros H [E | Hin]; [congruence | tauto] | tauto].
Qed.

Lemma own_Some_In {A} (o : JS.Obj A) (k : string) (v : A) :
  JS.own o k = Some v -> In (k, v) o.
Proof.
  induction o as [|[k' v'] o IH]; simpl; [discriminate |].
  destruct (String.eqb_spec k k') as [-> | Hne].
  - intros E. inversion E. now left.
  - intros E. right. now apply IH.
Qed.

Lemma define_fresh {A} (o : JS.Obj A) (k : string) (v : A) :
  ~ In k (JS.keys o) -> JS.define o k v = (o ++ [(k, v)])%list.
Proof.
  induction o as [|[k' v'] o IH]; simpl; [reflexivity |].
  intros Hk. destruct (String.eqb_spec k k') as [-> | Hne]; [tauto |].
  rewrite IH; [reflexivity | tauto].
Qed.

Lemma fold_define_fresh {A} (es acc : list (string * A)) :
  NoDup (JS.keys (acc ++ es)%list) ->
  fold_left (fun o e => JS.define o (fst e) (snd e)) es acc = (acc ++ es)%list.
Proof.
  revert acc; induction es as [|[k v] es IH]; intros acc Hnd; simpl.
  - now rewrite app_nil_r.
  - rewrite define_fresh.
    + rewrite IH; rewrite <- app_assoc; [reflexivity | exact Hnd].
    + unfold JS.keys in *. rewrite map_app in Hnd. simpl in Hnd.
      apply NoDup_remove_2 in Hnd. intros Hin. apply Hnd.
      apply in_app_iff. now left.
Qed.

(** [Object.fromEntries] of a map gives its entries back. *)
Lemma fromEntries_NoDup {A} (m : JS.MapOf A) :
  NoDup (JS.keys m) -> JS.fromEntries m = m.
Proof. intros H. exact (fold_define_fresh m [] H). Qed.

Lemma mapValues_keys {A B} (g : A -> B) (o : JS.Obj A) :
  JS.keys (mapValues g o) = JS.keys o.
Proof.
  unfold JS.keys, mapValues. rewrite map_map. reflexivity.
Qed.

Lemma mapValues_own {A B} (g : A -> B) (o : JS.Obj A) (k : string) :
  JS.own (mapValues g o) k = option_map g (JS.own o k).
Proof.
  induction o as [|[k' v] o IH]; simpl; [reflexivity |].
  destruct (String.eqb k k'); [reflexivity | exact IH].
Qed.

Lemma mapValues_define {A B} (g : A -> B) (o : JS.Obj A) (k : string) (v : A) :
  mapValues g (JS.define o k v) = JS.define (mapValues g o) k (g v).
Proof.
  induction o as [|[k' v'] o IH]; simpl; [reflexivity |].
  destruct (String.eqb k k'); simpl; [reflexivity | now rewrite IH].
Qed.

Lemma mapValues_fromEntries {A B} (g : A -> B) (es : list (string * A)) :
  mapValues g (JS.fromEntries es) = JS.fromEntries (mapValues g es).
Proof.
  unfold JS.fromEntries.
  assert (H : forall acc,
             mapValues g (fold_left (fun o e => JS.define o (fst e) (snd e)) es acc)
             = fold_left (fun o e => JS.define o (fst e) (snd e)) (mapValues g es)
                 (mapValues g acc)).
  { induction es as [|[k v] es IH]; intros acc; simpl; [reflexivity |].
    rewrite IH. now rewrite mapValues_define. }
  exact (H []).
Qed.

(** ** The store built by the scraper *)

Lemma synthesize_name (base n stamp : string) :
  Component.name (synthesize base n stamp) = n.
Proof.
  unfold synthesize.
  destruct (String.eqb n "button"); [reflexivity |].
  destruct (String.eqb n "input"); reflexivity.
Qed.

Lemma synthesize_withoutTimestamp (base n stamp : string) :
  withoutTimestamp (synthesize base n stamp) = synthesize base n "".
Proof.
  unfold synthesize.
  destruct (String.eqb n "button"); [reflexivity |].
  destruct (String.eqb n "input"); reflexivity.
Qed.

Lemma synthesizedFor_keys (base : string) (names : list string)
  (store : JS.MapOf Component.t) :
  synthesizedFor base names store -> JS.keys store = names.
Proof.
  induction 1 as [|n e names store [Hk _] _ IH]; simpl; [reflexivity |].
  now rewrite Hk, IH.
Qed.

Lemma synthesizedFor_snoc (base : string) (names : list string)
  (store : JS.MapOf Component.t) (n stamp : string) :
  synthesizedFor base names store -> ~ In n names ->
  synthesizedFor base (names ++ [n])%list (JS.mapSet store n (synthesize base n stamp)).
Proof.
  intros Hs Hn. unfold JS.mapSet. rewrite define_fresh.
  - apply Forall2_app; [exact Hs |].
    constructor; [| constructor]. split; [reflexivity | now exists stamp].
  - now rewrite (synthesizedFor_keys _ _ _ Hs).
Qed.

(** Every entry of such a store carries its key as name. *)
Lemma synthesizedFor_entry (base : string) (names : list string)
  (store : JS.MapOf Component.t) (k : string) (d : Component.t) :
  synthesizedFor base names store -> In (k, d) store -> Component.name d = k.
Proof.
  induction 1 as [|n e names store [Hk [stamp Hd]] _ IH]; simpl; [tauto |].
  intros [E | Hin]; [| now apply IH].
  subst e. simpl in *. subst. apply synthesize_name.
Qed.

(** Two such stores differ in their timestamps only. *)
Lemma synthesizedFor_withoutTimestamp (base : string) (names : list string)
  (store : JS.MapOf Component.t) :
  synthesizedFor base names store ->
  mapValues withoutTimestamp store = map (fun n => (n, synthesize base n "")) names.
Proof.
  induction 1 as [|n e names store [Hk [stamp Hd]] _ IH]; simpl; [reflexivity |].
  rewrite IH, Hk, Hd. now rewrite synthesize_withoutTimestamp.
Qed.

(** ** The scrape loop *)

Lemma bind_threw {S A B} (c : M S A) (k : A -> M S B) (s s1 : S) (e : JS.Error) :
  c s = (Threw e, s1) -> bind c k s = (Threw e, s1).
Proof. intros H. unfold bind. now rewrite H. Qed.

Lemma bind_gets {S A B} (f : S -> A) (k : A -> M S B) (s : S) :
  bind (gets f) k s = k (f s) s.
Proof. reflexivity. Qed.

(** A loop whose rounds all return, with an invariant on the rounds done. *)
Lemma forEach_invariant {S X} (l : list X) (body : X -> M S unit)
  (I : list X -> S -> Prop) :
  (forall done x rest s,
      l = (done ++ x :: rest)%list -> I done s ->
      exists s', body x s = (Returned tt, s') /\ I (done ++ [x])%list s') ->
  forall s, I [] s -> exists s', forEach l body s = (Returned tt, s') /\ I l s'.
Proof.
  intros Hstep.
  assert (H : forall todo done s,
             l = (done ++ todo)%list -> I done s ->
             exists s', forEach todo body s = (Returned tt, s') /\ I l s').
  { induction todo as [|x todo IH]; intros done s Hl HI; simpl.
    - exists s. rewrite app_nil_r in Hl. subst done. split; [reflexivity | exact HI].
    - destruct (Hstep done x todo s Hl HI) as [s1 [Hb HI1]].
      destruct (IH (done ++ [x])%list s1) as [s' [Hf HI']].
      + rewrite <- app_assoc. exact Hl.
      + exact HI1.
      + exists s'. split; [| exact HI']. now rewrite (bind_run _ _ _ _ _ Hb). }
  intros s HI. exact (H l [] s eq_refl HI).
Qed.

Lemma consoleLog_State (l : string) (s : State) :
  consoleLog l s = (Returned tt, inWorld s (printed (env s) [l])).
Proof. reflexivity. Qed.

Lemma saveComponentFile_cases (n : string) (d : Component.t) (s : State) :
  exists o s', saveComponentFile n d s = (o, s') /\ this s' = this s
               /\ (o = Returned tt \/ exists e, o = Threw e).
Proof.
  unfold saveComponentFile.
  rewrite bind_gets.
  rewrite writeFile_State.
  destruct (fsFault _ _).
  - eexists. eexists. split; [reflexivity | split; [reflexivity | right; eauto]].
  - destruct (isDir _ _).
    + eexists. eexists. split; [reflexivity | split; [reflexivity | now left]].
    + eexists. eexists. split; [reflexivity | split; [reflexivity | right; eauto]].
Qed.

(** One round of the loop always returns, with the record of the name in
    the store: a failure to save the file is caught after the record was
    stored. *)
Lemma processComponent_stores (n : string) (s : State) :
  exists s',
    processComponent n s = (Returned tt, s')
    /\ this s'
       = withStore (this s)
           (JS.mapSet (components (this s)) n
              (synthesize (baseUrl (this s)) n (nextStamp s))).
Proof.
  unfold processComponent.
  rewrite (bind_run _ _ _ _ _ (consoleLog_State _ s)).
  unfold tryCatch.
  rewrite (bind_run _ _ _ _ _ (fetchComponentInfo_returns n _)).
  match goal with
  | |- context [bind (setComponent n ?d) ?k ?s0] =>
      rewrite (bind_run (setComponent n d) k s0 _ tt eq_refl)
  end.
  match goal with
  | |- context [bind (saveComponentFile n ?d) ?k ?s0] =>
      destruct (saveComponentFile_cases n d s0) as [o [s1 [Hsave [Hthis Ho]]]]
  end.
  destruct Ho as [-> | [e ->]].
  - rewrite (bind_run _ _ _ _ _ Hsave).
    eexists. split; [reflexivity |]. simpl. rewrite Hthis. reflexivity.
  - rewrite (bind_threw _ _ _ _ _ Hsave).
    eexists. split; [reflexivity |]. simpl. rewrite Hthis. reflexivity.
Qed.

Lemma allComponents_NoDup : NoDup allComponents.
Proof. rewrite allComponents_flat. exact taxonomy_names_NoDup. Qed.

(** [scrapeAllComponents] on an empty store always returns, and the store
    then holds, in order, the records synthesized for the names of the
    taxonomy. *)
Lemma scrapeAllComponents_store (s : State) :
  components (this s) = [] ->
  exists s' store,
    scrapeAllComponents s = (Returned tt, s')
    /\ this s' = withStore (this s) store
    /\ synthesizedFor (baseUrl (this s)) allComponents store.
Proof.
  intros Hempty. unfold scrapeAllComponents.
  rewrite (bind_run _ _ _ _ _ (consoleLog_State _ s)).
  destruct (forEach_invariant allComponents processComponent
              (fun done s0 =>
                 exists store, this s0 = withStore (this s) store
                               /\ synthesizedFor (baseUrl (this s)) done store))
    with (s := inWorld s (printed (env s)
                            ["🚀 Starting Untitled UI component scraping..."]))
    as [s1 [Hloop [store [Hthis Hstore]]]].
  - intros done x rest s0 Hl [store [Hthis Hstore]].
    destruct (processComponent_stores x s0) as [s1 [Hrun Hthis1]].
    exists s1. split; [exact Hrun |].
    rewrite Hthis in Hthis1. simpl in Hthis1.
    eexists. split; [exact Hthis1 |].
    apply synthesizedFor_snoc; [exact Hstore |].
    pose proof allComponents_NoDup as Hnd. rewrite Hl in Hnd.
    apply NoDup_remove_2 in Hnd. intros Hin. apply Hnd.
    apply in_app_iff. now left.
  - exists []. split; [| constructor].
    simpl. unfold withStore. rewrite <- Hempty. now destruct (this s).
  - rewrite (bind_run _ _ _ _ _ Hloop).
    rewrite bind_gets.
    rewrite consoleLog_State. eexists. exists store.
    split; [reflexivity |]. split; [exact Hthis | exact Hstore].
Qed.

(** ** The catalog *)

(** A generated file: the directory is read from the scraper, then the
    file is written. *)
Lemma writeIn_returned (x : string) (f : File) (s s' : State) :
  bind (gets (fun s0 => outputDir (this s0)))
    (fun out => writeFile (JS.pathJoin [out; [x]]) f) s = (Returned tt, s') ->
  this s' = this s
  /\ files (env s') = storeFile (files (env s)) (JS.pathJoin [outputDir (this s); [x]]) f.
Proof.
  rewrite bind_gets. intros H. apply writeFile_returned in H. subst s'.
  split; reflexivity.
Qed.

(** When [generateCatalog] returns, [catalog.json] holds the catalog
    assembled from the store. *)
Lemma generateCatalog_returned (s s' : State) :
  generateCatalog s = (Returned tt, s') ->
  exists stamp,
    lookupFile (files (env s')) (JS.pathJoin [outputDir (this s); ["catalog.json"]])
    = Some (JsonFile (CatalogJson (assembleCatalog (this s) stamp))).
Proof.
  unfold generateCatalog. intros H.
  rewrite (bind_run _ _ _ _ _ (consoleLog_State _ s)) in H.
  apply bind_returned in H as [stamp [s1 [Hnow H]]].
  inversion Hnow; subst s1. clear Hnow.
  rewrite bind_gets in H. cbv zeta in H.
  apply bind_returned in H as [[] [s2 [Hw H]]].
  apply writeFile_returned in Hw.
  apply bind_returned in H as [[] [s3 [Ht H]]].
  apply (writeIn_returned "types.ts") in Ht as [Ht3 Hf3].
  apply bind_returned in H as [[] [s4 [Hu H]]].
  apply (writeIn_returned "README.md") in Hu as [Ht4 Hf4].
  apply bind_returned in H as [[] [s5 [Hs H]]].
  apply (writeIn_returned "search.ts") in Hs as [Ht5 Hf5].
  rewrite consoleLog_State in H. injection H as <-.
  exists stamp. simpl.
  rewrite Hf5, Ht4, Ht3, Hf4, Ht3, Hf3. subst s2. simpl.
  rewrite !lookup_store_other
    by (apply pathJoin_file_neq; discriminate).
  apply lookup_store_same.
Qed.

(** A run of the program that returns has scraped every name of the
    taxonomy and left the assembled catalog in [catalog.json]. *)
Lemma main_returned (dirname : JS.Path) (w w' : World) :
  main dirname w = (Returned tt, w') ->
  exists store stamp,
    synthesizedFor (baseUrl (new dirname)) allComponents store
    /\ lookupFile (files w') (catalogPath dirname)
       = Some (JsonFile (CatalogJson
                 (assembleCatalog (withStore (new dirname) store) stamp))).
Proof.
  unfold main.
  destruct (run {| this := new dirname; env := w |}) as [o s] eqn:Erun.
  intros H. inversion H; subst o w'. clear H.
  unfold run, tryCatch in Erun.
  match type of Erun with
  | context [match ?body ?s0 with _ => _ end] =>
      destruct (body s0) as [[[] | e | n] sb] eqn:Ebody
  end; try discriminate.
  inversion Erun; subst sb. clear Erun.
  apply bind_returned in Ebody as [[] [s1 [Hinit H]]].
  apply keepsThis_init in Hinit.
  destruct (scrapeAllComponents_store s1) as [s2 [store [Hscrape [Hthis2 Hstore]]]];
    [now rewrite Hinit |].
  rewrite (bind_run _ _ _ _ _ Hscrape) in H.
  apply bind_returned in H as [[] [s3 [Hgen H]]].
  apply generateCatalog_returned in Hgen as [stamp Hfile].
  rewrite (bind_run _ _ _ _ _ (consoleLog_State _ s3)) in H.
  rewrite bind_gets in H. rewrite consoleLog_State in H.
  inversion H; subst s. clear H.
  rewrite Hthis2, Hinit in Hfile. rewrite Hinit in Hstore.
  exists store, stamp. split; [exact Hstore | exact Hfile].
Qed.

(** The entries of a category list are records of the store. *)
Lemma categoryRecords_In (store : JS.MapOf Component.t) (names : list string)
  (r : Component.t) :
  In r (categoryRecords store names) ->
  exists n, In n names /\ In (n, r) store.
Proof.
  unfold categoryRecords. intros Hin.
  apply in_map_iff in Hin as [n [Hr Hn]].
  apply filter_In in Hn as [Hn Hhas].
  unfold JS.mapHas, JS.mapGet in *.
  destruct (JS.own store n) as [d |] eqn:Eown; [| discriminate].
  exists n. split; [exact Hn |]. subst r. now apply own_Some_In.
Qed.

Lemma assembleCatalog_fold (self : t) (stamp : string) :
  assembleCatalog self stamp
  = fold_left (addCategory (components self)) COMPONENT_CATEGORIES
      {| Catalog.metadata :=
           {| Metadata.source := "Untitled UI React Components";
              Metadata.url := baseUrl self;
              Metadata.scrapedAt := stamp;
              Metadata.totalComponents := JS.mapSize (components self);
              Metadata.categories := JS.keys COMPONENT_CATEGORIES |};
         Catalog.categories := [];
         Catalog.components := JS.fromEntries (components self) |}.
Proof. reflexivity. Qed.

(** The loop over the taxonomy touches the category lists only, and every
    list it defines is made of records of the store. *)
Lemma addCategory_fold (store : JS.MapOf Component.t)
  (es : list (string * list string)) (c : Catalog.t) :
  let c' := fold_left (addCategory store) es c in
  Catalog.metadata c' = Catalog.metadata c
  /\ Catalog.components c' = Catalog.components c
  /\ forall category records,
       In (category, records) (Catalog.categories c') ->
       In (category, records) (Catalog.categories c)
       \/ exists names, records = categoryRecords store names.
Proof.
  revert c; induction es as [|e es IH]; intros c; simpl.
  - repeat split. intros category records H. now left.
  - destruct (IH (addCategory store c e)) as [Hm [Hc Hcat]].
    split; [exact Hm | split; [exact Hc |]].
    intros category records Hin.
    destruct (Hcat _ _ Hin) as [Hold | Hnew]; [| now right].
    simpl in Hold. clear - Hold.
    induction (Catalog.categories c) as [|[k v] o IHo]; simpl in Hold.
    + destruct Hold as [E | []]. inversion E. right. eauto.
    + destruct (String.eqb (fst e) k).
      * destruct Hold as [E | Hin]; [inversion E; right; eauto | left; now right].
      * destruct Hold as [E | Hin]; [left; now left |].
        destruct (IHo Hin) as [H | H]; [left; now right | now right].
Qed.

(** C1. After a run of the scraper that returns, [catalog.json] holds a
    catalog whose [totalComponents] is the number of entries of
    [components], and every name in a category list is a key of
    [components]. *)
Theorem catalog_invariant (dirname : JS.Path) (w w' : World) :
  main dirname w = (Returned tt, w') ->
  exists catalog,
    lookupFile (files w') (catalogPath dirname) = Some (JsonFile (CatalogJson catalog))
    /\ Metadata.totalComponents (Catalog.metadata catalog)
       = List.length (JS.keys (Catalog.components catalog))
    /\ forall category records r,
         In (category, records) (Catalog.categories catalog) ->
         In r records ->
         In (Component.name r) (JS.keys (Catalog.components catalog)).
Proof.
  intros Hrun. apply main_returned in Hrun as [store [stamp [Hstore Hfile]]].
  eexists. split; [exact Hfile |].
  rewrite assembleCatalog_fold.
  match goal with
  | |- context [fold_left (addCategory ?st) ?es ?c] =>
      destruct (addCategory_fold st es c) as [Hm [Hc Hcat]]
  end.
  cbv zeta in Hm, Hc, Hcat. rewrite Hm, Hc. simpl.
  assert (Hkeys : JS.keys store = allComponents)
    by exact (synthesizedFor_keys _ _ _ Hstore).
  rewrite fromEntries_NoDup by (rewrite Hkeys; exact allComponents_NoDup).
  split.
  - unfold JS.mapSize, JS.keys. now rewrite length_map.
  - intros category records r Hin Hr.
    destruct (Hcat _ _ Hin) as [[] | [names Hrec]]. subst records.
    apply categoryRecords_In in Hr as [n [_ Hn]].
    rewrite (synthesizedFor_entry _ _ _ _ _ Hstore Hn).
    unfold JS.keys. apply in_map_iff. exists (n, r). split; [reflexivity | exact Hn].
Qed.

Lemma catalog_invariant_witness :
  exists catalog,
    lookupFile (files (snd (main ["repo"; "scripts"] emptyWorld)))
      (catalogPath ["repo"; "scripts"])
    = Some (JsonFile (CatalogJson catalog))
    /\ Metadata.totalComponents (Catalog.metadata catalog)
       = List.length (JS.keys (Catalog.components catalog))
    /\ forall category records r,
         In (category, records) (Catalog.categories catalog) ->
         In r records ->
         In (Component.name r) (JS.keys (Catalog.components catalog)).
Proof.
  apply (catalog_invariant ["repo"; "scripts"] emptyWorld).
  vm_compute. reflexivity.
Defined.

(** ** Two runs *)

Lemma categoryRecords_withoutTimestamp (store : JS.MapOf Component.t)
  (names : list string) :
  categoryRecords (mapValues withoutTimestamp store) names
  = map withoutTimestamp (categoryRecords store names).
Proof.
  unfold categoryRecords. rewrite map_map.
  rewrite (filter_ext (fun name => JS.mapHas (mapValues withoutTimestamp store) name)
             (fun name => JS.mapHas store name)).
  - apply map_ext. intros n. unfold JS.mapGet. rewrite mapValues_own.
    destruct (JS.own store n); reflexivity.
  - intros n. unfold JS.mapHas. rewrite mapValues_own.
    destruct (JS.own store n); reflexivity.
Qed.

Lemma addCategory_withoutTimestamps (store : JS.MapOf Component.t)
  (c : Catalog.t) (e : string * list string) :
  withoutTimestamps (addCategory store c e)
  = addCategory (mapValues withoutTimestamp store) (withoutTimestamps c) e.
Proof.
  unfold withoutTimestamps, addCategory. simpl. f_equal.
  rewrite categoryRecords_withoutTimestamp.
  exact (mapValues_define (map withoutTimestamp) (Catalog.categories c) (fst e) _).
Qed.

Lemma fold_addCategory_withoutTimestamps (store : JS.MapOf Component.t)
  (es : list (string * list string)) (c : Catalog.t) :
  withoutTimestamps (fold_left (addCategory store) es c)
  = fold_left (addCategory (mapValues withoutTimestamp store)) es (withoutTimestamps c).
Proof.
  revert c; induction es as [|e es IH]; intros c; simpl; [reflexivity |].
  now rewrite IH, addCategory_withoutTimestamps.
Qed.

(** Blanking the timestamps of the assembled catalog is assembling, with a
    blank timestamp, the catalog of the store with blank timestamps. *)
Lemma assembleCatalog_withoutTimestamps (self : t) (stamp : string) :
  withoutTimestamps (assembleCatalog self stamp)
  = assembleCatalog (withStore self (mapValues withoutTimestamp (components self))) "".
Proof.
  rewrite !assembleCatalog_fold, fold_addCategory_withoutTimestamps.
  f_equal. unfold withoutTimestamps. simpl. f_equal.
  - f_equal. unfold JS.mapSize, mapValues. now rewrite length_map.
  - exact (mapValues_fromEntries withoutTimestamp (components self)).
Qed.

Lemma withoutTimestamps_keys (c : Catalog.t) :
  JS.keys (Catalog.components (withoutTimestamps c)) = JS.keys (Catalog.components c).
Proof. exact (mapValues_keys withoutTimestamp (Catalog.components c)). Qed.

(** C7. Two runs of the scraper that return leave catalogs with the same
    keys in [components] and the same values in every field but the
    timestamps [lastUpdated] and [scrapedAt]. *)
Theorem scraper_runs_agree (dirname : JS.Path) (w1 w1' w2 w2' : World) :
  main dirname w1 = (Returned tt, w1') ->
  main dirname w2 = (Returned tt, w2') ->
  exists c1 c2,
    lookupFile (files w1') (catalogPath dirname) = Some (JsonFile (CatalogJson c1))
    /\ lookupFile (files w2') (catalogPath dirname) = Some (JsonFile (CatalogJson c2))
    /\ JS.keys (Catalog.components c1) = JS.keys (Catalog.components c2)
    /\ withoutTimestamps c1 = withoutTimestamps c2.
Proof.
  intros H1 H2.
  apply main_returned in H1 as [store1 [stamp1 [Hs1 Hf1]]].
  apply main_returned in H2 as [store2 [stamp2 [Hs2 Hf2]]].
  eexists. eexists. split; [exact Hf1 | split; [exact Hf2 |]].
  assert (E : withoutTimestamps (assembleCatalog (withStore (new dirname) store1) stamp1)
              = withoutTimestamps (assembleCatalog (withStore (new dirname) store2) stamp2)).
  { rewrite !assembleCatalog_withoutTimestamps. simpl.
    rewrite (synthesizedFor_withoutTimestamp _ _ _ Hs1).
    now rewrite (synthesizedFor_withoutTimestamp _ _ _ Hs2). }
  split; [| exact E].
  rewrite <- (withoutTimestamps_keys (assembleCatalog (withStore (new dirname) store1) stamp1)).
  rewrite <- (withoutTimestamps_keys (assembleCatalog (withStore (new dirname) store2) stamp2)).
  now rewrite E.
Qed.

Lemma scraper_runs_agree_witness :
  let first := main ["repo"; "scripts"] emptyWorld in
  let second := main ["repo"; "scripts"] (snd first) in
  exists c1 c2,
    lookupFile (files (snd first)) (catalogPath ["repo"; "scripts"])
    = Some (JsonFile (CatalogJson c1))
    /\ lookupFile (files (snd second)) (catalogPath ["repo"; "scripts"])
       = Some (JsonFile (CatalogJson c2))
    /\ JS.keys (Catalog.components c1) = JS.keys (Catalog.components c2)
    /\ withoutTimestamps c1 = withoutTimestamps c2.
Proof.
  intros first second.
  apply (scraper_runs_agree ["repo"; "scripts"] emptyWorld (snd first)
           (snd first) (snd second)); vm_compute; reflexivity.
Defined.

(** ** Runs on a file system that works *)

Lemma sameDisk_refl (s : State) : sameDisk s s.
Proof. split; [reflexivity | auto]. Qed.

Lemma sameDisk_trans (s1 s2 s3 : State) :
  sameDisk s1 s2 -> sameDisk s2 s3 -> sameDisk s1 s3.
Proof.
  intros [F1 D1] [F2 D2]. split; [now rewrite F2 | auto].
Qed.

Lemma keepsDisk_bind {A B} (c : M State A) (k : A -> M State B) :
  keepsDisk c -> (forall a, keepsDisk (k a)) -> keepsDisk (bind c k).
Proof.
  intros Hc Hk s o s'. unfold bind.
  destruct (c s) as [[a | e | n] s1] eqn:E; intros H.
  - exact (sameDisk_trans _ _ _ (Hc _ _ _ E) (Hk a _ _ _ H)).
  - injection H as <- <-. exact (Hc _ _ _ E).
  - injection H as <- <-. exact (Hc _ _ _ E).
Qed.

Lemma keepsDisk_tryCatch {A} (c : M State A) (h : JS.Error -> M State A) :
  keepsDisk c -> (forall e, keepsDisk (h e)) -> keepsDisk (tryCatch c h).
Proof.
  intros Hc Hh s o s'. unfold tryCatch.
  destruct (c s) as [[a | e | n] s1] eqn:E; intros H.
  - injection H as <- <-. exact (Hc _ _ _ E).
  - exact (sameDisk_trans _ _ _ (Hc _ _ _ E) (Hh e _ _ _ H)).
  - injection H as <- <-. exact (Hc _ _ _ E).
Qed.

Lemma keepsDisk_forEach {X} (l : list X) (body : X -> M State unit) :
  (forall x, keepsDisk (body x)) -> keepsDisk (forEach l body).
Proof.
  intros Hb. induction l as [|x l IH]; simpl.
  - intros s o s' H. injection H as <- <-. apply sameDisk_refl.
  - apply keepsDisk_bind; [apply Hb | intros _; exact IH].
Qed.

(** A step that changes neither the oracle nor the directories. *)
Lemma keepsDisk_step {A} (c : M State A) :
  (forall s, fsFault (env (snd (c s))) = fsFault (env s)
             /\ dirs (env (snd (c s))) = dirs (env s)) ->
  keepsDisk c.
Proof.
  intros H s o s' E. destruct (H s) as [Hf Hd]. rewrite E in Hf, Hd. simpl in *.
  split; [exact Hf |]. intros p. unfold isDir. now rewrite Hd.
Qed.

Lemma keepsDisk_writeFile (p : JS.Path) (f : File) : keepsDisk (writeFile p f).
Proof.
  apply keepsDisk_step. intros s. rewrite writeFile_State.
  destruct (fsFault _ _); [split; reflexivity |].
  destruct (isDir _ _); split; reflexivity.
Qed.

Lemma keepsDisk_processComponent (n : string) : keepsDisk (processComponent n).
Proof.
  unfold processComponent.
  apply keepsDisk_bind; [apply keepsDisk_step; intros s; split; reflexivity | intros _].
  apply keepsDisk_tryCatch.
  - apply keepsDisk_bind; [apply keepsDisk_step; intros s; split; reflexivity | intros d].
    apply keepsDisk_bind; [apply keepsDisk_step; intros s; split; reflexivity | intros _].
    apply keepsDisk_bind; [| intros _; apply keepsDisk_step; intros s; split; reflexivity].
    unfold saveComponentFile.
    apply keepsDisk_bind; [apply keepsDisk_step; intros s; split; reflexivity | intros out].
    apply keepsDisk_writeFile.
  - intros e. apply keepsDisk_step. intros s. split; reflexivity.
Qed.

Lemma keepsDisk_scrapeAllComponents : keepsDisk scrapeAllComponents.
Proof.
  unfold scrapeAllComponents.
  apply keepsDisk_bind; [apply keepsDisk_step; intros s; split; reflexivity | intros _].
  apply keepsDisk_bind; [apply keepsDisk_forEach, keepsDisk_processComponent | intros _].
  apply keepsDisk_bind; [apply keepsDisk_step; intros s; split; reflexivity | intros n].
  apply keepsDisk_step. intros s. split; reflexivity.
Qed.

Lemma ancestors_self (p : JS.Path) : In p (JS.ancestors p).
Proof.
  induction p as [|x p IH]; simpl; [now left | right].
  apply in_map_iff. now exists p.
Qed.

Lemma isDir_In (w : World) (p : JS.Path) : In p (dirs w) -> isDir w p = true.
Proof.
  intros H. unfold isDir. apply existsb_exists. exists p.
  split; [exact H | apply pathEqb_refl].
Qed.

(** A path without [..] is its own normal form, and normal forms have none. *)
Lemma normalize_clean (l acc : list string) :
  (forall x, In x l -> x <> "..") -> JS.normalize acc l = (rev acc ++ l)%list.
Proof.
  revert acc; induction l as [|y l IH]; intros acc Hl; simpl.
  - now rewrite app_nil_r.
  - assert (Hy : String.eqb y ".." = false)
      by (apply String.eqb_neq, Hl; now left).
    rewrite Hy, IH by (intros x Hx; apply Hl; now right).
    simpl. now rewrite <- app_assoc.
Qed.

Lemma normalize_no_dotdot (l acc : list string) :
  (forall x, In x acc -> x <> "..") ->
  forall x, In x (JS.normalize acc l) -> x <> "..".
Proof.
  revert acc; induction l as [|y l IH]; intros acc Hacc; simpl.
  - intros x Hx. apply Hacc. now apply in_rev.
  - destruct (String.eqb_spec y "..") as [-> | Hy].
    + apply IH. intros x Hx. apply Hacc. destruct acc; [contradiction | now right].
    + apply IH. intros x [<- | Hx]; [exact Hy | now apply Hacc].
Qed.

Lemma pathJoin_outputDir (dirname : JS.Path) :
  JS.pathJoin [outputDir (new dirname)] = outputDir (new dirname).
Proof.
  unfold JS.pathJoin at 1. simpl List.concat. rewrite app_nil_r.
  rewrite normalize_clean; [reflexivity |].
  apply normalize_no_dotdot. intros x [].
Qed.

Lemma dirname_file (dir : JS.Path) (x : string) :
  x <> ".." -> JS.dirname (JS.pathJoin [dir; [x]]) = JS.pathJoin [dir].
Proof.
  intros Hx. rewrite pathJoin_file by exact Hx. apply removelast_last.
Qed.

(** With no fault, [init] returns and the output directory exists. *)
Lemma init_returns (s : State) :
  (forall k, fsFault (env s) k = None) ->
  exists s',
    init s = (Returned tt, s')
    /\ this s' = this s
    /\ fsFault (env s') = fsFault (env s)
    /\ isDir (env s') (outputDir (this s)) = true.
Proof.
  intros Hok. unfold init. rewrite bind_gets.
  unfold mkdir, fsCall, bind, gets, updWorld, modify, throw, ret. simpl.
  rewrite (Hok (fsCalls (env s))). simpl.
  rewrite (Hok (S (fsCalls (env s)))). simpl.
  eexists. split; [reflexivity |]. simpl.
  split; [reflexivity | split; [reflexivity |]].
  apply isDir_In. simpl. apply in_app_iff. right. apply in_app_iff. left.
  apply ancestors_self.
Qed.

(** With no fault and the directory in place, a generated file is written. *)
Lemma writeIn_returns (x : string) (f : File) (s : State) :
  x <> ".." ->
  (forall k, fsFault (env s) k = None) ->
  isDir (env s) (JS.pathJoin [outputDir (this s)]) = true ->
  exists s',
    bind (gets (fun s0 => outputDir (this s0)))
      (fun out => writeFile (JS.pathJoin [out; [x]]) f) s = (Returned tt, s')
    /\ this s' = this s /\ sameDisk s s'.
Proof.
  intros Hx Hok Hdir. rewrite bind_gets.
  assert (E : writeFile (JS.pathJoin [outputDir (this s); [x]]) f s
              = (Returned tt,
                 inWorld s (written (afterFsCall (env s))
                              (JS.pathJoin [outputDir (this s); [x]]) f))).
  { rewrite writeFile_State, (Hok _), (dirname_file _ _ Hx), Hdir. reflexivity. }
  eexists. split; [exact E | split; [reflexivity |]].
  exact (keepsDisk_writeFile _ _ _ _ _ E).
Qed.

Lemma nowISO_State (s : State) : nowISO s = (Returned (nextStamp s), ticked s).
Proof. reflexivity. Qed.

Lemma generateCatalog_returns (s : State) :
  (forall k, fsFault (env s) k = None) ->
  isDir (env s) (JS.pathJoin [outputDir (this s)]) = true ->
  exists s', generateCatalog s = (Returned tt, s').
Proof.
  intros Hok Hdir. unfold generateCatalog.
  rewrite (bind_run _ _ _ _ _ (consoleLog_State _ s)).
  rewrite (bind_run _ _ _ _ _ (nowISO_State _)).
  rewrite bind_gets. cbv zeta.
  set (s1 := ticked _).
  assert (Hok1 : forall k, fsFault (env s1) k = None) by exact Hok.
  assert (Hdir1 : isDir (env s1) (JS.pathJoin [outputDir (this s1)]) = true)
    by exact Hdir.
  destruct (writeIn_returns "catalog.json"
              (JsonFile (CatalogJson (assembleCatalog (this s1) (nextStamp
                 (inWorld s (printed (env s) ["📚 Generating component catalog..."]))))))
              s1) as [s2 [Hw [Ht2 [Hf2 Hd2]]]];
    [discriminate | exact Hok1 | exact Hdir1 |].
  rewrite bind_gets in Hw.
  rewrite (bind_run _ _ _ _ _ Hw).
  destruct (writeIn_returns "types.ts"
              (Text (typeDefinitions (assembleCatalog (this s1) (nextStamp
                 (inWorld s (printed (env s) ["📚 Generating component catalog..."]))))))
              s2) as [s3 [Hw3 [Ht3 [Hf3 Hd3]]]];
    [discriminate | intros k; rewrite Hf2; apply Hok1
     | rewrite Ht2; now apply Hd2 |].
  unfold generateTypeDefinitions. rewrite (bind_run _ _ _ _ _ Hw3).
  destruct (writeIn_returns "README.md"
              (Text (usageGuide (assembleCatalog (this s1) (nextStamp
                 (inWorld s (printed (env s) ["📚 Generating component catalog..."]))))))
              s3) as [s4 [Hw4 [Ht4 [Hf4 Hd4]]]];
    [discriminate | intros k; rewrite Hf3, Hf2; apply Hok1
     | rewrite Ht3, Ht2; now apply Hd3, Hd2 |].
  unfold generateUsageGuide. rewrite (bind_run _ _ _ _ _ Hw4).
  destruct (writeIn_returns "search.ts" (Text searchUtility) s4)
    as [s5 [Hw5 _]];
    [discriminate | intros k; rewrite Hf4, Hf3, Hf2; apply Hok1
     | rewrite Ht4, Ht3, Ht2; now apply Hd4, Hd3, Hd2 |].
  unfold generateSearchUtility. rewrite (bind_run _ _ _ _ _ Hw5).
  rewrite consoleLog_State. eexists. reflexivity.
Qed.

(** On a file system that never faults, the scraper runs to its end. *)
Lemma main_returns (dirname : JS.Path) (w : World) :
  (forall k, fsFault w k = None) ->
  exists w', main dirname w = (Returned tt, w').
Proof.
  intros Hok. unfold main, run, tryCatch.
  destruct (init_returns {| this := new dirname; env := w |} Hok)
    as [s1 [Hinit [Ht1 [Hf1 Hd1]]]].
  rewrite (bind_run _ _ _ _ _ Hinit).
  destruct (scrapeAllComponents_store s1) as [s2 [store [Hscrape [Ht2 _]]]];
    [now rewrite Ht1 |].
  destruct (keepsDisk_scrapeAllComponents _ _ _ Hscrape) as [Hf2 Hd2].
  rewrite (bind_run _ _ _ _ _ Hscrape).
  destruct (generateCatalog_returns s2) as [s3 Hgen].
  - intros k. rewrite Hf2, Hf1. apply Hok.
  - assert (Hout : outputDir (this s2) = outputDir (new dirname))
      by (rewrite Ht2, Ht1; reflexivity).
    rewrite Hout, pathJoin_outputDir. apply Hd2. exact Hd1.
  - rewrite (bind_run _ _ _ _ _ Hgen).
    rewrite (bind_run _ _ _ _ _ (consoleLog_State _ s3)).
    rewrite bind_gets, consoleLog_State. eexists. reflexivity.
Qed.

Lemma keepsDisk_mkdir (p : JS.Path) : keepsDisk (mkdir p).
Proof.
  intros s o s'. unfold mkdir, fsCall, bind, gets, updWorld, modify, throw, ret. simpl.
  destruct (fsFault _ _); intros H; injection H as <- <-.
  - split; [reflexivity | auto].
  - split; [reflexivity |]. intros q. unfold isDir. simpl.
    rewrite existsb_app. intros ->. apply orb_true_r.
Qed.

Lemma keepsDisk_writeIn (x : string) (f : File) :
  keepsDisk (bind (gets (fun s0 => outputDir (this s0)))
               (fun out => writeFile (JS.pathJoin [out; [x]]) f)).
Proof.
  apply keepsDisk_bind; [apply keepsDisk_step; intros s; split; reflexivity |].
  intros out. apply keepsDisk_writeFile.
Qed.

Lemma keepsDisk_run : keepsDisk run.
Proof.
  unfold run. apply keepsDisk_tryCatch.
  - apply keepsDisk_bind.
    { unfold init.
      apply keepsDisk_bind; [apply keepsDisk_step; intros s; split; reflexivity |].
      intros out. apply keepsDisk_bind; [apply keepsDisk_mkdir |].
      intros _. apply keepsDisk_mkdir. }
    intros _. apply keepsDisk_bind; [apply keepsDisk_scrapeAllComponents |].
    intros _. apply keepsDisk_bind.
    { unfold generateCatalog.
      apply keepsDisk_bind; [apply keepsDisk_step; intros s; split; reflexivity |].
      intros _.
      apply keepsDisk_bind; [apply keepsDisk_step; intros s; split; reflexivity |].
      intros stamp.
      apply keepsDisk_bind; [apply keepsDisk_step; intros s; split; reflexivity |].
      intros self. cbv zeta.
      apply keepsDisk_bind; [apply keepsDisk_writeFile |].
      intros _. apply keepsDisk_bind; [apply keepsDisk_writeIn |].
      intros _. apply keepsDisk_bind; [apply keepsDisk_writeIn |].
      intros _. apply keepsDisk_bind; [apply keepsDisk_writeIn |].
      intros _. apply keepsDisk_step. intros s. split; reflexivity. }
    intros _.
    apply keepsDisk_bind; [apply keepsDisk_step; intros s; split; reflexivity |].
    intros _.
    apply keepsDisk_bind; [apply keepsDisk_step; intros s; split; reflexivity |].
    intros out. apply keepsDisk_step. intros s. split; reflexivity.
  - intros e.
    apply keepsDisk_bind; [apply keepsDisk_step; intros s; split; reflexivity |].
    intros _. apply keepsDisk_step. intros s. split; reflexivity.
Qed.

(** A run does not change how the file system answers. *)
Lemma main_fsFault (dirname : JS.Path) (w w' : World) (o : Outcome unit) :
  main dirname w = (o, w') -> fsFault w' = fsFault w.
Proof.
  unfold main.
  destruct (run {| this := new dirname; env := w |}) as [o' s] eqn:E.
  intros H. injection H as <- <-.
  exact (proj1 (keepsDisk_run _ _ _ E)).
Qed.

(** On a file system that never faults, two runs in succession both run to
    their end. *)
Lemma main_twice_returns (dirname : JS.Path) (w : World) :
  (forall k, fsFault w k = None) ->
  exists w1 w2,
    main dirname w = (Returned tt, w1) /\ main dirname w1 = (Returned tt, w2).
Proof.
  intros Hok. destruct (main_returns dirname w Hok) as [w1 H1].
  destruct (main_returns dirname w1) as [w2 H2].
  - intros k. rewrite (main_fsFault _ _ _ _ H1). apply Hok.
  - now exists w1, w2.
Qed.

(** * Further properties *)

(** ** The sitemap rules, branch by branch *)

(** X1. [serialize] never changes the URL nor the modification date of an
    item, and applying it twice is applying it once. *)
Theorem serialize_idempotent (item : SiteConfig.SitemapItem) :
  SiteConfig.url (SiteConfig.serialize item) = SiteConfig.url item
  /\ SiteConfig.lastmod (SiteConfig.serialize item) = SiteConfig.lastmod item
  /\ SiteConfig.serialize (SiteConfig.serialize item) = SiteConfig.serialize item.
Proof.
  unfold SiteConfig.serialize.
  destruct (JS.includes (SiteConfig.url item) "/projects/") eqn:E1;
    [cbn; rewrite E1; repeat split |].
  destruct (JS.includes (SiteConfig.url item) "/blog/") eqn:E2;
    [cbn; rewrite E1, E2; repeat split |].
  destruct (String.eqb (SiteConfig.url item) "https://nextworkmarketing.com/") eqn:E3;
    [cbn; rewrite E1, E2, E3; repeat split |].
  destruct (JS.includes (SiteConfig.url item) "/about"
            || JS.includes (SiteConfig.url item) "/careers") eqn:E4;
    [cbn; rewrite E1, E2, E3, E4; repeat split |].
  destruct (JS.includes (SiteConfig.url item) "/privacy"
            || JS.includes (SiteConfig.url item) "/terms") eqn:E5;
    [cbn; rewrite E1, E2, E3, E4, E5; repeat split |].
  rewrite E1, E2, E3, E4, E5. repeat split.
Qed.

(** X2. The rules after the first: "/blog/" without "/projects/" gives 0.8
    and "weekly"; then, for a URL that is not the root, "/about" or
    "/careers" give 0.6 and "monthly"; then "/privacy" or "/terms" give 0.3
    and "yearly". *)
Theorem serialize_later_rules (item : SiteConfig.SitemapItem) :
  ~ occursIn "/projects/" (SiteConfig.url item) ->
  (occursIn "/blog/" (SiteConfig.url item) ->
   SiteConfig.priority (SiteConfig.serialize item) = (8 # 10)%Q
   /\ SiteConfig.changefreq (SiteConfig.serialize item) = "weekly")
  /\ (~ occursIn "/blog/" (SiteConfig.url item) ->
      SiteConfig.url item <> SiteConfig.site ++ "/" ->
      (occursIn "/about" (SiteConfig.url item)
       \/ occursIn "/careers" (SiteConfig.url item) ->
       SiteConfig.priority (SiteConfig.serialize item) = (6 # 10)%Q
       /\ SiteConfig.changefreq (SiteConfig.serialize item) = "monthly")
      /\ (~ occursIn "/about" (SiteConfig.url item) ->
          ~ occursIn "/careers" (SiteConfig.url item) ->
          occursIn "/privacy" (SiteConfig.url item)
          \/ occursIn "/terms" (SiteConfig.url item) ->
          SiteConfig.priority (SiteConfig.serialize item) = (3 # 10)%Q
          /\ SiteConfig.changefreq (SiteConfig.serialize item) = "yearly")).
Proof.
  intros Hp. apply includes_false in Hp. unfold SiteConfig.serialize. rewrite Hp.
  split.
  - intros Hb. apply includes_occursIn in Hb. rewrite Hb. split; reflexivity.
  - intros Hb Hroot. apply includes_false in Hb. rewrite Hb.
    apply String.eqb_neq in Hroot.
    change "https://nextworkmarketing.com/" with (SiteConfig.site ++ "/").
    rewrite Hroot. split.
    + intros Ha.
      assert (E : JS.includes (SiteConfig.url item) "/about"
                  || JS.includes (SiteConfig.url item) "/careers" = true).
      { apply orb_true_iff. now rewrite !includes_occursIn. }
      rewrite E. split; reflexivity.
    + intros Ha Hc Hl. apply includes_false in Ha, Hc. rewrite Ha, Hc.
      assert (E : JS.includes (SiteConfig.url item) "/privacy"
                  || JS.includes (SiteConfig.url item) "/terms" = true).
      { apply orb_true_iff. now rewrite !includes_occursIn. }
      cbn [orb]. rewrite E. split; reflexivity.
Qed.

Lemma serialize_later_rules_witness :
  (let item := SiteConfig.itemFor "https://nextworkmarketing.com/blog/about-us" "" in
   SiteConfig.priority (SiteConfig.serialize item) = (8 # 10)%Q
   /\ SiteConfig.changefreq (SiteConfig.serialize item) = "weekly")
  /\ (let item := SiteConfig.itemFor "https://nextworkmarketing.com/careers/privacy" "" in
      SiteConfig.priority (SiteConfig.serialize item) = (6 # 10)%Q
      /\ SiteConfig.changefreq (SiteConfig.serialize item) = "monthly")
  /\ (let item := SiteConfig.itemFor "https://nextworkmarketing.com/terms" "" in
      SiteConfig.priority (SiteConfig.serialize item) = (3 # 10)%Q
      /\ SiteConfig.changefreq (SiteConfig.serialize item) = "yearly").
Proof.
  split; [| split].
  - apply (proj1 (serialize_later_rules
                    (SiteConfig.itemFor "https://nextworkmarketing.com/blog/about-us" "")
                    ltac:(apply includes_false; reflexivity))).
    apply includes_occursIn. reflexivity.
  - apply (proj2 (serialize_later_rules
                    (SiteConfig.itemFor "https://nextworkmarketing.com/careers/privacy" "")
                    ltac:(apply includes_false; reflexivity))).
    + apply includes_false. reflexivity.
    + discriminate.
    + right. apply includes_occursIn. reflexivity.
  - apply (proj2 (serialize_later_rules
                    (SiteConfig.itemFor "https://nextworkmarketing.com/terms" "")
                    ltac:(apply includes_false; reflexivity))).
    + apply includes_false. reflexivity.
    + discriminate.
    + apply includes_false. reflexivity.
    + apply includes_false. reflexivity.
    + right. apply includes_occursIn. reflexivity.
Defined.

(** X3. The sitemap keeps a page exactly when neither "/admin/" nor
    "/internal/" occurs in it. *)
Theorem filter_excludes (page : string) :
  SiteConfig.filter page = true
  <-> ~ occursIn "/admin/" page /\ ~ occursIn "/internal/" page.
Proof.
  unfold SiteConfig.filter.
  rewrite andb_true_iff, !negb_true_iff, !includes_false. reflexivity.
Qed.

(** ** The helper: what it leaves alone *)

Lemma quiet_ret {A} (a : A) : quiet (ret a).
Proof. intros w o w' H. injection H as <- <-. auto. Qed.

Lemma quiet_throw {A} (e : JS.Error) : quiet (@throw World A e).
Proof. intros w o w' H. injection H as <- <-. auto. Qed.

Lemma quiet_consoleLog (l : string) : quiet (consoleLog l).
Proof. intros w o w' H. rewrite consoleLog_printed in H. injection H as <- <-. auto. Qed.

Lemma quiet_bind {A B} (c : M World A) (k : A -> M World B) :
  quiet c -> (forall a, quiet (k a)) -> quiet (bind c k).
Proof.
  intros Hc Hk w o w'. unfold bind.
  destruct (c w) as [[a | e | n] w1] eqn:E; intros H.
  - destruct (Hc _ _ _ E) as [F1 [D1 C1]]. destruct (Hk a _ _ _ H) as [F2 [D2 C2]].
    repeat split; congruence.
  - injection H as <- <-. exact (Hc _ _ _ E).
  - injection H as <- <-. exact (Hc _ _ _ E).
Qed.

Lemma quiet_forEach {X} (l : list X) (body : X -> M World unit) :
  (forall x, quiet (body x)) -> quiet (forEach l body).
Proof.
  intros Hb. induction l as [|x l IH]; simpl.
  - apply quiet_ret.
  - apply quiet_bind; [apply Hb | intros _; exact IH].
Qed.

Ltac quiet_steps :=
  repeat first
    [ apply quiet_consoleLog
    | apply quiet_ret
    | apply quiet_throw
    | apply quiet_forEach; intros ?
    | apply quiet_bind; [| intros ?]
    | match goal with
      | |- quiet (if ?b then _ else _) => destruct b
      | |- quiet (match ?x with _ => _ end) => destruct x
      end ].

(** [loadCatalog] calls the file system once and changes no file. *)
Lemma loadCatalog_reads (self : UIHelper.t) (w w' : World) (o : Outcome Json) :
  UIHelper.loadCatalog self w = (o, w') ->
  files w' = files w /\ dirs w' = dirs w /\ fsCalls w' = S (fsCalls w).
Proof.
  unfold UIHelper.loadCatalog, tryCatch, readFile, fsCall, bind, gets, updWorld,
    modify, throw, ret. simpl.
  destruct (fsFault w (fsCalls w)); simpl.
  - intros H. injection H as <- <-. auto.
  - destruct (lookupFile (files w) (UIHelper.catalogPath self)) as [[doc | t] |];
      simpl; intros H; injection H as <- <-; auto.
Qed.

Lemma loadCatalog_then_quiet {B} (self : UIHelper.t) (k : Json -> M World B)
  (w w' : World) (o : Outcome B) :
  (forall doc, quiet (k doc)) ->
  bind (UIHelper.loadCatalog self) k w = (o, w') ->
  files w' = files w /\ dirs w' = dirs w /\ fsCalls w' = S (fsCalls w).
Proof.
  intros Hk. unfold bind.
  destruct (UIHelper.loadCatalog self w) as [[doc | e | n] w1] eqn:E; intros H.
  - destruct (loadCatalog_reads _ _ _ _ E) as [F1 [D1 C1]].
    destruct (Hk doc _ _ _ H) as [F2 [D2 C2]]. repeat split; congruence.
  - injection H as <- <-. exact (loadCatalog_reads _ _ _ _ E).
  - injection H as <- <-. exact (loadCatalog_reads _ _ _ _ E).
Qed.

Lemma quiet_listAll (catalog : Catalog.t) : quiet (UIHelper.listAll catalog).
Proof. unfold UIHelper.listAll. quiet_steps. Qed.

Lemma quiet_listCategory (catalog : Catalog.t) (c : string) :
  quiet (UIHelper.listCategory catalog c).
Proof. unfold UIHelper.listCategory. quiet_steps. Qed.

(** X4. Whatever its arguments and whatever the world, the helper changes
    no file and no directory, and calls the file system at most once. *)
Theorem helper_read_only (self : UIHelper.t) (argv : list string) (w : World) :
  files (snd (UIHelper.run self argv w)) = files w
  /\ dirs (snd (UIHelper.run self argv w)) = dirs w
  /\ (fsCalls (snd (UIHelper.run self argv w)) = fsCalls w
      \/ fsCalls (snd (UIHelper.run self argv w)) = S (fsCalls w)).
Proof.
  assert (Hq : forall c : M World unit,
             quiet c ->
             files (snd (c w)) = files w /\ dirs (snd (c w)) = dirs w
             /\ (fsCalls (snd (c w)) = fsCalls w \/ fsCalls (snd (c w)) = S (fsCalls w))).
  { intros c Hc. destruct (c w) as [o w'] eqn:E.
    destruct (Hc _ _ _ E) as [F [D C]]. simpl. auto. }
  assert (Hl : forall k : Json -> M World unit,
             (forall doc, quiet (k doc)) ->
             let c := bind (UIHelper.loadCatalog self) k in
             files (snd (c w)) = files w /\ dirs (snd (c w)) = dirs w
             /\ (fsCalls (snd (c w)) = fsCalls w \/ fsCalls (snd (c w)) = S (fsCalls w))).
  { intros k Hk c. destruct (c w) as [o w'] eqn:E.
    destruct (loadCatalog_then_quiet _ _ _ _ _ Hk E) as [F [D C]]. simpl. auto. }
  unfold UIHelper.run.
  destruct (nth_error (skipn 2 argv) 0) as [c |];
    [| apply Hq; unfold UIHelper.showHelp; quiet_steps].
  destruct (String.eqb c "search").
  { destruct (nth_error (skipn 2 argv) 1) as [query |];
      [destruct (JS.truthy query) |]; try solve [apply Hq; quiet_steps].
    unfold UIHelper.search. apply Hl. intros doc. unfold UIHelper.asCatalog.
    quiet_steps. }
  destruct (String.eqb c "list").
  { unfold UIHelper.list. apply Hl. intros doc. unfold UIHelper.asCatalog.
    apply quiet_bind; [quiet_steps | intros catalog].
    destruct (nth_error (skipn 2 argv) 1) as [cat |];
      [destruct (JS.truthy cat) |];
      first [apply quiet_listCategory | apply quiet_listAll]. }
  destruct (String.eqb c "install").
  { destruct (nth_error (skipn 2 argv) 1) as [name |];
      [destruct (JS.truthy name) |]; try solve [apply Hq; quiet_steps].
    unfold UIHelper.install. apply Hl. intros doc. unfold UIHelper.asCatalog.
    quiet_steps. }
  destruct (String.eqb c "info").
  { destruct (nth_error (skipn 2 argv) 1) as [name |];
      [destruct (JS.truthy name) |]; try solve [apply Hq; quiet_steps].
    unfold UIHelper.info. apply Hl. intros doc. unfold UIHelper.asCatalog.
    quiet_steps. }
  apply Hq. unfold UIHelper.showHelp. quiet_steps.
Qed.

(** ** The helper: dispatch, help and the failure to load *)

(** X5. Without a command, or with a command that is not one of the four
    subcommands, [run] prints the help text and returns, and the catalog
    is not read. *)
Theorem run_help (self : UIHelper.t) (argv : list string) (w : World) :
  (forall c, nth_error (skipn 2 argv) 0 = Some c ->
             c <> "search" /\ c <> "list" /\ c <> "install" /\ c <> "info") ->
  UIHelper.run self argv w = (Returned tt, printed w [UIHelper.helpText]).
Proof.
  intros H. unfold UIHelper.run.
  destruct (nth_error (skipn 2 argv) 0) as [c |]; [| reflexivity].
  destruct (H c eq_refl) as [H1 [H2 [H3 H4]]].
  apply String.eqb_neq in H1, H2, H3, H4. rewrite H1, H2, H3, H4. reflexivity.
Qed.

Lemma run_help_witness :
  UIHelper.run (UIHelper.new ["repo"; "scripts"]) ["node"; "ui-helper.js"; "help"]
    emptyWorld
  = (Returned tt, printed emptyWorld [UIHelper.helpText]).
Proof.
  apply run_help. intros c H. injection H as <-. repeat split; discriminate.
Defined.

Lemma loadCatalog_unloadable (self : UIHelper.t) (w : World) :
  unloadable self w ->
  UIHelper.loadCatalog self w = (Exited 1, errored (afterFsCall w) guidance).
Proof.
  unfold UIHelper.loadCatalog, tryCatch, readFile, fsCall, bind, gets, updWorld,
    modify, throw, ret. simpl.
  intros [Hf | [Hn | [t Ht]]].
  - destruct (fsFault w (fsCalls w)); [reflexivity | contradiction].
  - destruct (fsFault w (fsCalls w)); [reflexivity |]. simpl. rewrite Hn. reflexivity.
  - destruct (fsFault w (fsCalls w)); [reflexivity |]. simpl. rewrite Ht. reflexivity.
Qed.

(** How [run] dispatches the four subcommands when their argument is there. *)
Lemma run_dispatch (self : UIHelper.t) (node script arg : string) (w : World) :
  JS.truthy arg = true ->
  UIHelper.run self [node; script; "search"; arg] w = UIHelper.search self arg w
  /\ UIHelper.run self [node; script; "install"; arg] w = UIHelper.install self arg w
  /\ UIHelper.run self [node; script; "info"; arg] w = UIHelper.info self arg w
  /\ UIHelper.run self [node; script; "list"; arg] w = UIHelper.list self (Some arg) w
  /\ UIHelper.run self [node; script; "list"] w = UIHelper.list self None w.
Proof.
  intros H. unfold UIHelper.run.
  cbn [skipn nth_error]. cbv [String.eqb Ascii.eqb Bool.eqb]. cbv beta iota.
  rewrite H. repeat split.
Qed.

(** X6. When the catalog cannot be loaded, each of the four subcommands
    ends the process with status 1 after the message that tells to run the
    scraper, and prints nothing on the standard output. *)
Theorem run_unloadable (self : UIHelper.t) (node script arg : string) (w : World) :
  unloadable self w ->
  JS.truthy arg = true ->
  let failed := (@Exited unit 1, errored (afterFsCall w) guidance) in
  UIHelper.run self [node; script; "search"; arg] w = failed
  /\ UIHelper.run self [node; script; "install"; arg] w = failed
  /\ UIHelper.run self [node; script; "info"; arg] w = failed
  /\ UIHelper.run self [node; script; "list"; arg] w = failed
  /\ UIHelper.run self [node; script; "list"] w = failed.
Proof.
  intros Hu Ht failed.
  destruct (run_dispatch self node script arg w Ht) as [-> [-> [-> [-> ->]]]].
  pose proof (loadCatalog_unloadable self w Hu) as Hl.
  unfold UIHelper.search, UIHelper.install, UIHelper.info, UIHelper.list, bind.
  rewrite Hl. repeat split.
Qed.

Lemma run_unloadable_witness :
  UIHelper.run (UIHelper.new ["repo"; "scripts"])
    ["node"; "ui-helper.js"; "search"; "button"] emptyWorld
  = (Exited 1, errored (afterFsCall emptyWorld) guidance).
Proof.
  apply (run_unloadable (UIHelper.new ["repo"; "scripts"]) "node" "ui-helper.js"
           "button" emptyWorld).
  - right. left. reflexivity.
  - reflexivity.
Defined.

(** ** The helper: listing a category and describing a component *)

(** X7. [list] with a category of the catalog prints its header and two
    lines per member; with a name that is neither a category nor a name
    that every object inherits, it prints that the category is not found
    and the names of the categories, and returns. *)
Theorem list_category_prints (self : UIHelper.t) (w : World) (catalog : Catalog.t)
  (category : string) :
  loads self w catalog ->
  JS.truthy category = true ->
  (forall records,
      JS.get (Catalog.categories catalog) category = JS.Own records ->
      UIHelper.list self (Some category) w
      = (Returned tt, printed (afterFsCall w) (categoryLines category records)))
  /\ (JS.get (Catalog.categories catalog) category = JS.Undefined ->
      UIHelper.list self (Some category) w
      = (Returned tt,
         printed (afterFsCall w)
           [ UIHelper.categoryNotFound category;
             "Available categories: "
             ++ JS.join ", " (JS.keys (Catalog.categories catalog)) ])).
Proof.
  intros Hl Ht.
  assert (E : UIHelper.list self (Some category) w
              = UIHelper.listCategory catalog category (afterFsCall w)).
  { unfold UIHelper.list.
    rewrite (bind_run _ _ _ _ _ (loadCatalog_loads _ _ _ Hl)).
    change (bind (UIHelper.asCatalog (CatalogJson catalog)) ?k (afterFsCall w))
      with (k catalog (afterFsCall w)).
    cbv beta. now rewrite Ht. }
  rewrite E. unfold UIHelper.listCategory. split.
  - intros records Hg. rewrite Hg.
    rewrite (bind_run _ _ _ _ _ (consoleLog_printed _ _)).
    rewrite (forEach_printed _ _
               (fun comp =>
                  [ "  📦 " ++ Component.name comp ++ " - " ++ Component.description comp;
                    "     " ++ Installation.cli (Component.installation comp) ])).
    + now rewrite printed_app.
    + intros comp w0.
      rewrite (bind_run _ _ _ _ _ (consoleLog_printed _ _)).
      now rewrite consoleLog_printed, printed_app.
  - intros Hg. rewrite Hg.
    rewrite (bind_run _ _ _ _ _ (consoleLog_printed _ _)).
    now rewrite consoleLog_printed, printed_app.
Qed.

Lemma list_category_prints_witness :
  exists records,
    UIHelper.list (UIHelper.new ["repo"; "scripts"]) (Some "forms") scrapedWorld
    = (Returned tt, printed (afterFsCall scrapedWorld) (categoryLines "forms" records))
    /\ List.length records = 4.
Proof.
  eexists. split.
  - apply (proj1 (list_category_prints (UIHelper.new ["repo"; "scripts"]) scrapedWorld
                    scrapedCatalog "forms" scrapedWorld_loads eq_refl)).
    vm_compute. reflexivity.
  - reflexivity.
Defined.

(** A title followed by one line per element. *)
Lemma section_printed {X} (h : string) (g : X -> string) (l : list X) (w : World) :
  bind (consoleLog h) (fun _ => forEach l (fun x => consoleLog (g x))) w
  = (Returned tt, printed w (h :: map g l)).
Proof.
  rewrite (bind_run _ _ _ _ _ (consoleLog_printed _ _)).
  now rewrite forEach_consoleLog, printed_app.
Qed.

Lemma bind_ret {S A B} (a : A) (k : A -> M S B) (s : S) : bind (ret a) k s = k a s.
Proof. reflexivity. Qed.

(** X8. [info] on a name that is neither in the catalog nor inherited
    prints one not-found line and returns; on a component of the catalog it
    prints six lines, then the variants if there are some and the
    properties if there are some. *)
Theorem info_prints (self : UIHelper.t) (w : World) (catalog : Catalog.t)
  (componentName : string) :
  loads self w catalog ->
  (JS.get (Catalog.components catalog) componentName = JS.Undefined ->
   UIHelper.info self componentName w
   = (Returned tt, printed (afterFsCall w) [UIHelper.componentNotFound componentName]))
  /\ (forall component,
        JS.get (Catalog.components catalog) componentName = JS.Own component ->
        UIHelper.info self componentName w
        = (Returned tt, printed (afterFsCall w) (infoLines component))).
Proof.
  intros Hl.
  assert (E : forall k : Catalog.t -> M World unit,
             bind (UIHelper.loadCatalog self)
               (fun doc => bind (UIHelper.asCatalog doc) k) w
             = k catalog (afterFsCall w)).
  { intros k. now rewrite (bind_run _ _ _ _ _ (loadCatalog_loads _ _ _ Hl)). }
  unfold UIHelper.info. rewrite E. split.
  - intros Hg. rewrite Hg. apply consoleLog_printed.
  - intros component Hg. rewrite Hg. unfold infoLines.
    repeat rewrite (bind_run _ _ _ _ _ (consoleLog_printed _ _)).
    rewrite !printed_app. cbn [List.app].
    destruct (Component.variants component) as [|v vs];
      destruct (Component.props component) as [|p ps];
      cbn [List.length Nat.ltb Nat.leb JS.keys map List.app].
    + rewrite bind_ret. reflexivity.
    + rewrite bind_ret.
      rewrite (section_printed _ (fun e : string * string =>
                                    "  • " ++ fst e ++ ": " ++ snd e)).
      rewrite printed_app. reflexivity.
    + rewrite (bind_run _ _ _ _ _ (section_printed _ (fun variant => "  • " ++ variant)
                                     (v :: vs) _)).
      cbv [ret]. rewrite printed_app, app_nil_r. reflexivity.
    + rewrite (bind_run _ _ _ _ _ (section_printed _ (fun variant => "  • " ++ variant)
                                     (v :: vs) _)).
      rewrite (section_printed _ (fun e : string * string =>
                                    "  • " ++ fst e ++ ": " ++ snd e)).
      rewrite !printed_app. reflexivity.
Qed.

Lemma info_prints_witness :
  UIHelper.info (UIHelper.new ["repo"; "scripts"]) "does-not-exist" scrapedWorld
  = (Returned tt,
     printed (afterFsCall scrapedWorld) [UIHelper.componentNotFound "does-not-exist"]).
Proof.
  apply (proj1 (info_prints (UIHelper.new ["repo"; "scripts"]) scrapedWorld
                  scrapedCatalog "does-not-exist" scrapedWorld_loads)).
  vm_compute. reflexivity.
Defined.

(** ** The helper: what a search finds *)

Lemma string_app_nil_r (a : string) : a ++ "" = a.
Proof. induction a as [|x a IH]; simpl; [reflexivity | now rewrite IH]. Qed.

Lemma string_app_assoc (a b c : string) : (a ++ b) ++ c = a ++ b ++ c.
Proof. induction a as [|x a IH]; simpl; [reflexivity | now rewrite IH]. Qed.

Lemma occursIn_refl (s : string) : occursIn s s.
Proof. exists "", "". simpl. now rewrite string_app_nil_r. Qed.

Lemma occursIn_trans (a b c : string) : occursIn a b -> occursIn b c -> occursIn a c.
Proof.
  intros [p [q ->]] [p' [q' ->]]. exists (p' ++ p), (q ++ q').
  now rewrite !string_app_assoc.
Qed.

Lemma occursIn_empty (s : string) : occursIn "" s.
Proof. now exists "", s. Qed.

(** X9. Searching for the name of a component of the catalog finds it;
    when the name is ASCII text, so does the name typed in capitals, and so
    does any ASCII query that is the name up to the case of its letters. *)
Theorem search_finds_by_name (catalog : Catalog.t) (c : Component.t) :
  In c (JS.values (Catalog.components catalog)) ->
  In c (UIHelper.searchResults catalog (Component.name c))
  /\ (asciiText (Component.name c) = true ->
      In c (UIHelper.searchResults catalog (JS.toUpperCase (Component.name c)))
      /\ forall query,
           asciiText query = true ->
           equalIgnoringCase query (Component.name c) = true ->
           In c (UIHelper.searchResults catalog query)).
Proof.
  intros Hin. unfold UIHelper.searchResults. split; [| intros Hn; split].
  - rewrite filter_In, matches_occursIn.
    split; [exact Hin | left; apply occursIn_refl].
  - rewrite filter_In, matches_occursIn, (toLowerCase_toUpperCase _ Hn).
    split; [exact Hin | left; apply occursIn_refl].
  - intros query Hq He. rewrite filter_In, matches_occursIn.
    apply (equalIgnoringCase_toLowerCase _ _ Hq Hn) in He. rewrite He.
    split; [exact Hin | left; apply occursIn_refl].
Qed.

Lemma search_finds_by_name_witness :
  let c := synthesize "https://www.untitledui.com/react/components" "tooltip" "" in
  let catalog :=
    {| Catalog.metadata :=
         {| Metadata.source := ""; Metadata.url := ""; Metadata.scrapedAt := "";
            Metadata.totalComponents := 1; Metadata.categories := [] |};
       Catalog.categories := [];
       Catalog.components := [("tooltip", c)] |} in
  In c (UIHelper.searchResults catalog "tooltip")
  /\ In c (UIHelper.searchResults catalog "TOOLTIP")
  /\ In c (UIHelper.searchResults catalog "ToolTip").
Proof.
  intros c catalog.
  destruct (search_finds_by_name catalog c (or_introl eq_refl)) as [Hname Hascii].
  destruct (Hascii eq_refl) as [Hcapitals Hquery].
  split; [exact Hname |]. split; [exact Hcapitals |].
  apply (Hquery "ToolTip"); reflexivity.
Defined.

Lemma filter_all {A} (f : A -> bool) (l : list A) :
  (forall x, f x = true) -> filter f l = l.
Proof.
  intros H. induction l as [|x l IH]; simpl; [reflexivity |].
  now rewrite H, IH.
Qed.

(** X10. An ASCII query that contains another query finds no more than
    it: every result for the longer query is a result for the shorter one,
    whatever the text of the catalog (the lowered shorter query occurs in
    the lowered longer one, which occurs in the lowered text); and the
    empty query finds every component. *)
Theorem search_narrows (catalog : Catalog.t) (q q' : string) :
  (asciiText q' = true ->
   occursIn q q' ->
   incl (UIHelper.searchResults catalog q') (UIHelper.searchResults catalog q))
  /\ UIHelper.searchResults catalog "" = JS.values (Catalog.components catalog).
Proof.
  split.
  - intros Ha Hq c. unfold UIHelper.searchResults. rewrite !filter_In, !matches_occursIn.
    apply (occursIn_toLowerCase _ _ Ha) in Hq.
    intros [Hin [H | [H | [H | [v [Hv H]]]]]]; (split; [exact Hin |]).
    + left. exact (occursIn_trans _ _ _ Hq H).
    + right. left. exact (occursIn_trans _ _ _ Hq H).
    + right. right. left. exact (occursIn_trans _ _ _ Hq H).
    + right. right. right. exists v. split; [exact Hv | exact (occursIn_trans _ _ _ Hq H)].
  - unfold UIHelper.searchResults. apply filter_all.
    intros c. apply matches_occursIn. left. apply occursIn_empty.
Qed.

Lemma search_narrows_witness :
  incl (UIHelper.searchResults scrapedCatalog "button")
       (UIHelper.searchResults scrapedCatalog "but").
Proof.
  apply (proj1 (search_narrows scrapedCatalog "but" "button")).
  - reflexivity.
  - apply includes_occursIn. reflexivity.
Defined.

(** X11. The search of the generated utility looks at the name, the
    description and the category only: the helper finds what the utility
    finds, and besides it the components with a variant that matches. *)
Theorem helper_search_extends_utility (catalog : Catalog.t) (query : string)
  (c : Component.t) :
  In c (UIHelper.searchResults catalog query)
  <-> In c (UntitledUISearch.search catalog query)
      \/ (In c (JS.values (Catalog.components catalog))
          /\ exists variant,
               In variant (Component.variants c)
               /\ occursIn (JS.toLowerCase query) (JS.toLowerCase variant)).
Proof.
  unfold UIHelper.searchResults, UntitledUISearch.search.
  rewrite !filter_In, matches_occursIn, !orb_true_iff, !includes_occursIn.
  tauto.
Qed.

(** ** The catalog of a run, entry by entry *)

Lemma synthesizedFor_own (base : string) (names : list string)
  (store : JS.MapOf Component.t) (n : string) :
  synthesizedFor base names store ->
  (In n names -> exists stamp, JS.own store n = Some (synthesize base n stamp))
  /\ (~ In n names -> JS.own store n = None).
Proof.
  induction 1 as [|n0 e names store [Hk [stamp Hd]] _ IH]; simpl.
  - split; [contradiction | reflexivity].
  - destruct e as [k d]. simpl in Hk, Hd. subst k d.
    destruct (String.eqb_spec n n0) as [-> | Hne].
    + split; [intros _; now exists stamp | intros H; exfalso; apply H; now left].
    + destruct IH as [IH1 IH2]. split.
      * intros [E | Hin]; [congruence | now apply IH1].
      * intros Hn. apply IH2. tauto.
Qed.

Lemma own_NoDup_In {A} (o : JS.Obj A) (k : string) (v : A) :
  NoDup (JS.keys o) -> In (k, v) o -> JS.own o k = Some v.
Proof.
  induction o as [|[k' v'] o IH]; simpl; [contradiction |].
  intros Hnd [E | Hin].
  - inversion E; subst. now rewrite String.eqb_refl.
  - inversion Hnd as [|? ? Hk Hnd']; subst.
    destruct (String.eqb_spec k k') as [-> | Hne]; [| now apply IH].
    exfalso. apply Hk. unfold JS.keys. apply in_map_iff. now exists (k', v).
Qed.

Lemma assembleCatalog_categories (self : t) (stamp : string) :
  Catalog.categories (assembleCatalog self stamp)
  = map (fun e => (fst e, categoryRecords (components self) (snd e)))
      COMPONENT_CATEGORIES.
Proof. reflexivity. Qed.

Lemma assembleCatalog_metadata (self : t) (stamp : string) :
  Catalog.metadata (assembleCatalog self stamp)
  = {| Metadata.source := "Untitled UI React Components";
       Metadata.url := baseUrl self;
       Metadata.scrapedAt := stamp;
       Metadata.totalComponents := JS.mapSize (components self);
       Metadata.categories := JS.keys COMPONENT_CATEGORIES |}.
Proof. reflexivity. Qed.

Lemma assembleCatalog_components (self : t) (stamp : string) :
  Catalog.components (assembleCatalog self stamp) = JS.fromEntries (components self).
Proof. reflexivity. Qed.

(** The records listed for names that are all in the store are the records
    synthesized for these names, in order. *)
Lemma categoryRecords_all (base : string) (names0 names : list string)
  (store : JS.MapOf Component.t) :
  synthesizedFor base names0 store ->
  (forall n, In n names -> In n names0) ->
  Forall2 (fun n r => exists stamp, r = synthesize base n stamp)
          names (categoryRecords store names).
Proof.
  intros Hs. unfold categoryRecords.
  induction names as [|n names IH]; intros Hsub; simpl; [constructor |].
  destruct (proj1 (synthesizedFor_own _ _ _ n Hs) (Hsub n (or_introl eq_refl)))
    as [stamp Hown].
  unfold JS.mapHas. rewrite Hown. simpl. unfold JS.mapGet at 1. rewrite Hown.
  constructor; [now exists stamp |].
  apply IH. intros m Hm. apply Hsub. now right.
Qed.

Lemma getCategoryForComponent_listed (category n : string) (members : list string) :
  In (category, members) COMPONENT_CATEGORIES -> In n members ->
  getCategoryForComponent n = category.
Proof.
  intros Hc Hm. unfold getCategoryForComponent, JS.entries.
  destruct (firstCategory_spec COMPONENT_CATEGORIES n) as [[ms [Hin Hn]] | [_ Hnone]].
  - exact (concat_NoDup_unique COMPONENT_CATEGORIES taxonomy_names_NoDup
             _ _ _ _ _ Hin Hc Hn Hm).
  - exfalso. exact (Hnone _ _ Hc Hm).
Qed.

Lemma synthesize_category (base n stamp : string) :
  Component.category (synthesize base n stamp) = getCategoryForComponent n.
Proof.
  unfold synthesize.
  destruct (String.eqb n "button"); [reflexivity |].
  destruct (String.eqb n "input"); reflexivity.
Qed.

Lemma taxonomy_keys_NoDup : NoDup (JS.keys COMPONENT_CATEGORIES).
Proof.
  rewrite <- (eq_refl : nodup string_dec (JS.keys COMPONENT_CATEGORIES)
                        = JS.keys COMPONENT_CATEGORIES).
  apply NoDup_nodup.
Qed.

(** X12. In the catalog of a run that returns, the categories are those of
    the taxonomy, in its order, as [metadata.categories] says; the list of
    a category holds one record per name of the taxonomy list, in order,
    and each of these records names this category as its own. *)
Theorem catalog_category_lists (dirname : JS.Path) (w w' : World) :
  main dirname w = (Returned tt, w') ->
  exists catalog,
    lookupFile (files w') (catalogPath dirname) = Some (JsonFile (CatalogJson catalog))
    /\ JS.keys (Catalog.categories catalog) = JS.keys COMPONENT_CATEGORIES
    /\ Metadata.categories (Catalog.metadata catalog) = JS.keys COMPONENT_CATEGORIES
    /\ forall category names,
         In (category, names) COMPONENT_CATEGORIES ->
         exists records,
           JS.get (Catalog.categories catalog) category = JS.Own records
           /\ map Component.name records = names
           /\ forall r, In r records -> Component.category r = category.
Proof.
  intros Hrun. apply main_returned in Hrun as [store [stamp [Hstore Hfile]]].
  eexists. split; [exact Hfile |].
  rewrite assembleCatalog_categories, assembleCatalog_metadata.
  split; [reflexivity | split; [reflexivity |]].
  intros category names Hin.
  exists (categoryRecords store names).
  assert (Hall : Forall2 (fun n r => exists stamp0, r = synthesize (baseUrl (new dirname)) n stamp0)
                   names (categoryRecords store names)).
  { apply (categoryRecords_all _ allComponents); [exact Hstore |].
    intros n Hn. rewrite allComponents_flat. apply taxonomy_member. eauto. }
  split; [| split].
  - unfold JS.get.
    rewrite (own_NoDup_In _ category (categoryRecords store names)).
    + reflexivity.
    + unfold JS.keys. rewrite map_map. exact taxonomy_keys_NoDup.
    + apply in_map_iff. exists (category, names). split; [reflexivity | exact Hin].
  - clear - Hall. induction Hall as [|n r names records [stamp0 ->] _ IH]; simpl;
      [reflexivity |].
    now rewrite synthesize_name, IH.
  - intros r Hr.
    assert (Hn : exists n, In n names
                           /\ exists stamp0, r = synthesize (baseUrl (new dirname)) n stamp0).
    { clear - Hall Hr. induction Hall as [|n r0 names records Hr0 _ IH];
        [contradiction |].
      destruct Hr as [<- | Hr].
      - exists n. split; [now left | exact Hr0].
      - destruct (IH Hr) as [m [Hm Hs]]. exists m. split; [now right | exact Hs]. }
    destruct Hn as [n [Hn [stamp0 ->]]].
    rewrite synthesize_category.
    exact (getCategoryForComponent_listed _ _ _ Hin Hn).
Qed.

Lemma catalog_category_lists_witness :
  exists catalog,
    lookupFile (files (snd (main ["repo"; "scripts"] emptyWorld)))
      (catalogPath ["repo"; "scripts"])
    = Some (JsonFile (CatalogJson catalog))
    /\ JS.keys (Catalog.categories catalog) = JS.keys COMPONENT_CATEGORIES.
Proof.
  destruct (catalog_category_lists ["repo"; "scripts"] emptyWorld
              (snd (main ["repo"; "scripts"] emptyWorld)))
    as [catalog [Hfile [Hkeys _]]]; [vm_compute; reflexivity |].
  exists catalog. split; [exact Hfile | exact Hkeys].
Defined.

Lemma totalLength_categoryRecords (base : string) (names0 : list string)
  (store : JS.MapOf Component.t) (es : list (string * list string)) :
  synthesizedFor base names0 store ->
  (forall n, In n (List.concat (map snd es)) -> In n names0) ->
  totalLength (map (fun e => (fst e, categoryRecords store (snd e))) es)
  = List.length (List.concat (map snd es)).
Proof.
  intros Hs. induction es as [|[c names] es IH]; intros Hsub; simpl; [reflexivity |].
  rewrite length_app, IH by (intros n Hn; apply Hsub; simpl; apply in_app_iff; now right).
  f_equal. symmetry.
  apply (Forall2_length (categoryRecords_all base names0 names store Hs
           (fun n Hn => Hsub n (proj2 (in_app_iff _ _ _) (or_introl Hn))))).
Qed.

(** X13. In the catalog of a run that returns, the sizes of the category
    lists add up to [totalComponents], which is 40. *)
Theorem catalog_counts_sum (dirname : JS.Path) (w w' : World) :
  main dirname w = (Returned tt, w') ->
  exists catalog,
    lookupFile (files w') (catalogPath dirname) = Some (JsonFile (CatalogJson catalog))
    /\ totalLength (Catalog.categories catalog)
       = Metadata.totalComponents (Catalog.metadata catalog)
    /\ Metadata.totalComponents (Catalog.metadata catalog) = 40.
Proof.
  intros Hrun. apply main_returned in Hrun as [store [stamp [Hstore Hfile]]].
  eexists. split; [exact Hfile |].
  rewrite assembleCatalog_categories, assembleCatalog_metadata.
  cbn [Metadata.totalComponents withStore components].
  assert (Hsize : JS.mapSize store = 40).
  { unfold JS.mapSize. rewrite <- (length_map fst).
    change (map fst store) with (JS.keys store).
    rewrite (synthesizedFor_keys _ _ _ Hstore), allComponents_flat. reflexivity. }
  split; [| exact Hsize].
  rewrite (totalLength_categoryRecords _ allComponents _ _ Hstore).
  - rewrite Hsize. reflexivity.
  - intros n Hn. rewrite allComponents_flat. exact Hn.
Qed.

Lemma catalog_counts_sum_witness :
  exists catalog,
    lookupFile (files (snd (main ["repo"; "scripts"] emptyWorld)))
      (catalogPath ["repo"; "scripts"])
    = Some (JsonFile (CatalogJson catalog))
    /\ totalLength (Catalog.categories catalog) = 40.
Proof.
  destruct (catalog_counts_sum ["repo"; "scripts"] emptyWorld
              (snd (main ["repo"; "scripts"] emptyWorld)))
    as [catalog [Hfile [Hsum Htotal]]]; [vm_compute; reflexivity |].
  exists catalog. split; [exact Hfile | now rewrite Hsum].
Defined.

(** ** From the scraper to its readers *)

(** The helper reads the file that the scraper writes. *)
Lemma catalogPath_agree (dirname : JS.Path) :
  UIHelper.catalogPath (UIHelper.new dirname) = catalogPath dirname.
Proof.
  unfold catalogPath. rewrite pathJoin_file by discriminate.
  rewrite pathJoin_outputDir.
  unfold UIHelper.new, UIHelper.catalogPath, new, outputDir, JS.pathJoin.
  cbn [List.concat].
  rewrite !app_nil_r.
  replace (dirname ++ [".."] ++ ["src"] ++ ["lib"] ++ ["untitled-ui"] ++ ["catalog.json"])%list
    with ((dirname ++ [".."] ++ ["src"] ++ ["lib"] ++ ["untitled-ui"]) ++ ["catalog.json"])%list
    by (rewrite <- app_assoc; reflexivity).
  apply normalize_snoc. discriminate.
Qed.

(** The store of a run, read back from the catalog. *)
Lemma main_returned_lookup (dirname : JS.Path) (w w' : World) :
  main dirname w = (Returned tt, w') ->
  exists catalog,
    lookupFile (files w') (catalogPath dirname) = Some (JsonFile (CatalogJson catalog))
    /\ (forall n, In n (List.concat (JS.values COMPONENT_CATEGORIES)) ->
                  exists stamp,
                    JS.get (Catalog.components catalog) n
                    = JS.Own (synthesize (baseUrl (new dirname)) n stamp))
    /\ (forall n, ~ In n (List.concat (JS.values COMPONENT_CATEGORIES)) ->
                  JS.own (Catalog.components catalog) n = None).
Proof.
  intros Hrun. apply main_returned in Hrun as [store [stamp [Hstore Hfile]]].
  eexists. split; [exact Hfile |].
  rewrite assembleCatalog_components. cbn [withStore components].
  rewrite fromEntries_NoDup
    by (rewrite (synthesizedFor_keys _ _ _ Hstore); exact allComponents_NoDup).
  rewrite <- allComponents_flat. split.
  - intros n Hn.
    destruct (proj1 (synthesizedFor_own _ _ _ n Hstore) Hn) as [stamp0 Hown].
    exists stamp0. unfold JS.get. rewrite Hown. reflexivity.
  - intros n Hn. exact (proj2 (synthesizedFor_own _ _ _ n Hstore) Hn).
Qed.

Lemma install_own (self : UIHelper.t) (w : World) (catalog : Catalog.t)
  (componentName : string) (component : Component.t) :
  loads self w catalog ->
  JS.get (Catalog.components catalog) componentName = JS.Own component ->
  UIHelper.install self componentName w
  = (Returned tt, printed (afterFsCall w) (installLines componentName component)).
Proof.
  intros Hl Hget. unfold UIHelper.install.
  rewrite (bind_run _ _ _ _ _ (loadCatalog_loads _ _ _ Hl)).
  change (bind (UIHelper.asCatalog (CatalogJson catalog)) ?k (afterFsCall w))
    with (k catalog (afterFsCall w)).
  cbv beta. rewrite Hget.
  repeat rewrite (bind_run _ _ _ _ _ (consoleLog_printed _ _)).
  rewrite consoleLog_printed. rewrite !printed_app. reflexivity.
Qed.

Lemma installLines_stamp (base n stamp : string) :
  installLines n (synthesize base n stamp) = installLines n (synthesize base n "").
Proof.
  unfold synthesize.
  destruct (String.eqb n "button"); [reflexivity |].
  destruct (String.eqb n "input"); reflexivity.
Qed.

(** X14. After a run of the scraper that returns, the helper started in the
    same directory answers [install] for every name of the taxonomy: if its
    read of the catalog is not refused, it returns after printing the
    command and the summary of the record synthesized for the name. *)
Theorem scraped_components_installable (dirname : JS.Path) (w w' : World) (n : string) :
  main dirname w = (Returned tt, w') ->
  fsFault w' (fsCalls w') = None ->
  In n (List.concat (JS.values COMPONENT_CATEGORIES)) ->
  UIHelper.install (UIHelper.new dirname) n w'
  = (Returned tt,
     printed (afterFsCall w')
       (installLines n (synthesize "https://www.untitledui.com/react/components" n ""))).
Proof.
  intros Hrun Hok Hn.
  destruct (main_returned_lookup _ _ _ Hrun) as [catalog [Hfile [Hin _]]].
  destruct (Hin n Hn) as [stamp Hget].
  rewrite <- (installLines_stamp _ n stamp).
  apply (install_own _ _ catalog); [| exact Hget].
  split; [exact Hok |]. rewrite catalogPath_agree. exact Hfile.
Qed.

Lemma scraped_components_installable_witness :
  let w' := snd (main ["repo"; "scripts"] emptyWorld) in
  UIHelper.install (UIHelper.new ["repo"; "scripts"]) "modal" w'
  = (Returned tt,
     printed (afterFsCall w')
       (installLines "modal"
          (synthesize "https://www.untitledui.com/react/components" "modal" ""))).
Proof.
  intros w'.
  apply (scraped_components_installable ["repo"; "scripts"] emptyWorld w' "modal").
  - vm_compute. reflexivity.
  - reflexivity.
  - vm_compute. tauto.
Defined.

(** X15. On the catalog of a run that returns, [getInstallCommand] of the
    generated utility gives, for every name of the taxonomy, the command
    "npx untitledui@latest add " followed by the name, and [null] for a
    name that is neither in the taxonomy nor inherited by every object; for
    an inherited name it throws. *)
Theorem scraped_install_commands (dirname : JS.Path) (w w' : World) :
  main dirname w = (Returned tt, w') ->
  exists catalog,
    lookupFile (files w') (catalogPath dirname) = Some (JsonFile (CatalogJson catalog))
    /\ (forall n, In n (List.concat (JS.values COMPONENT_CATEGORIES)) ->
                  UntitledUISearch.getInstallCommand catalog n
                  = Returned (Some ("npx untitledui@latest add " ++ n)))
    /\ (forall n, ~ In n (List.concat (JS.values COMPONENT_CATEGORIES)) ->
                  (JS.objectPrototype n = None ->
                   UntitledUISearch.getInstallCommand catalog n = Returned None)
                  /\ (JS.objectPrototype n <> None ->
                      exists e, UntitledUISearch.getInstallCommand catalog n = Threw e)).
Proof.
  intros Hrun.
  destruct (main_returned_lookup _ _ _ Hrun) as [catalog [Hfile [Hin Hout]]].
  exists catalog. split; [exact Hfile | split].
  - intros n Hn. destruct (Hin n Hn) as [stamp Hget].
    unfold UntitledUISearch.getInstallCommand, UntitledUISearch.findByName.
    rewrite Hget. unfold synthesize.
    destruct (String.eqb n "button"); [reflexivity |].
    destruct (String.eqb n "input"); reflexivity.
  - intros n Hn.
    unfold UntitledUISearch.getInstallCommand, UntitledUISearch.findByName, JS.get.
    rewrite (Hout n Hn).
    destruct (JS.objectPrototype n) as [b |]; split; intros H;
      try congruence; eauto.
Qed.

Lemma scraped_install_commands_witness :
  exists catalog,
    lookupFile (files (snd (main ["repo"; "scripts"] emptyWorld)))
      (catalogPath ["repo"; "scripts"])
    = Some (JsonFile (CatalogJson catalog))
    /\ UntitledUISearch.getInstallCommand catalog "badge"
       = Returned (Some "npx untitledui@latest add badge")
    /\ UntitledUISearch.getInstallCommand catalog "nonexistent" = Returned None
    /\ exists e, UntitledUISearch.getInstallCommand catalog "constructor" = Threw e.
Proof.
  destruct (scraped_install_commands ["repo"; "scripts"] emptyWorld
              (snd (main ["repo"; "scripts"] emptyWorld)))
    as [catalog [Hfile [Hin Hout]]]; [vm_compute; reflexivity |].
  assert (Hno : forall n, List.forallb (fun m => negb (String.eqb n m))
                            (List.concat (JS.values COMPONENT_CATEGORIES)) = true ->
                          ~ In n (List.concat (JS.values COMPONENT_CATEGORIES))).
  { intros n Hall Hn. rewrite forallb_forall in Hall.
    specialize (Hall n Hn). now rewrite String.eqb_refl in Hall. }
  exists catalog. split; [exact Hfile | split; [| split]].
  - apply Hin. vm_compute. tauto.
  - apply (proj1 (Hout "nonexistent" (Hno "nonexistent" eq_refl))). reflexivity.
  - apply (proj2 (Hout "constructor" (Hno "constructor" eq_refl))). discriminate.
Defined.

(** ** The scrape loop under faults *)

(** X16. Whatever the file system does, [scrapeAllComponents] on an empty
    store returns, and the store then holds the 40 names of the taxonomy in
    the order of the taxonomy, each with a record that carries this name
    and the category of the name. *)
Theorem scrape_never_aborts (s : State) :
  components (this s) = [] ->
  exists s',
    scrapeAllComponents s = (Returned tt, s')
    /\ JS.keys (components (this s')) = List.concat (JS.values COMPONENT_CATEGORIES)
    /\ JS.mapSize (components (this s')) = 40
    /\ forall k d, In (k, d) (components (this s')) ->
                   Component.name d = k
                   /\ Component.category d = getCategoryForComponent k.
Proof.
  intros Hempty.
  destruct (scrapeAllComponents_store s Hempty) as [s' [store [Hrun [Hthis Hstore]]]].
  exists s'. split; [exact Hrun |]. rewrite Hthis. cbn [withStore components].
  assert (Hkeys : JS.keys store = List.concat (JS.values COMPONENT_CATEGORIES)).
  { rewrite (synthesizedFor_keys _ _ _ Hstore). exact allComponents_flat. }
  split; [exact Hkeys | split].
  - unfold JS.mapSize. rewrite <- (length_map fst).
    change (map fst store) with (JS.keys store). rewrite Hkeys. reflexivity.
  - intros k d Hin. split; [exact (synthesizedFor_entry _ _ _ _ _ Hstore Hin) |].
    clear - Hstore Hin.
    induction Hstore as [|n e names store [Hk [stamp Hd]] _ IH]; [contradiction |].
    destruct Hin as [E | Hin]; [| now apply IH].
    subst e. simpl in Hk, Hd. subst k d. apply synthesize_category.
Qed.

Lemma scrape_never_aborts_witness :
  let refusing :=
    {| clock := clock emptyWorld; clockReads := 0;
       fsFault := fun _ => Some "EACCES: permission denied"; fsCalls := 0;
       dirs := []; files := []; stdout := []; stderr := []; slept := 0 |} in
  exists s',
    scrapeAllComponents {| this := new ["repo"; "scripts"]; env := refusing |}
    = (Returned tt, s')
    /\ JS.mapSize (components (this s')) = 40.
Proof.
  intros refusing.
  destruct (scrape_never_aborts {| this := new ["repo"; "scripts"]; env := refusing |}
              eq_refl) as [s' [Hrun [_ [Hsize _]]]].
  exists s'. split; [exact Hrun | exact Hsize].
Defined.

Lemma saveComponentFile_State (n : string) (d : Component.t) (s : State) :
  saveComponentFile n d s
  = writeFile (JS.pathJoin [outputDir (this s); ["components"]; [n ++ ".json"]])
      (JsonFile (ComponentJson d)) s.
Proof. reflexivity. Qed.

Lemma writeFile_fault (p : JS.Path) (f : File) (s : State) (m : string) :
  fsFault (env s) (fsCalls (env s)) = Some m ->
  writeFile p f s = (Threw (JS.SystemError m), inWorld s (afterFsCall (env s))).
Proof. intros H. rewrite writeFile_State, H. reflexivity. Qed.

Lemma writeFile_ok (p : JS.Path) (f : File) (s : State) :
  fsFault (env s) (fsCalls (env s)) = None ->
  isDir (env s) (JS.dirname p) = true ->
  writeFile p f s = (Returned tt, inWorld s (written (afterFsCall (env s)) p f)).
Proof. intros H1 H2. rewrite writeFile_State, H1, H2. reflexivity. Qed.

(** X17. One round of the loop when the save of the file is refused: the
    round still returns, the record is in the store, no file changes, the
    pause of 100 ms is skipped and one line is written to the standard
    error with the name and the message.  When the save succeeds, the file
    of the component holds the record, the pause is taken and nothing is
    written to the standard error. *)
Theorem processComponent_outcomes (n : string) (s : State) :
  let record := synthesize (baseUrl (this s)) n (nextStamp s) in
  let path := JS.pathJoin [outputDir (this s); ["components"]; [n ++ ".json"]] in
  (forall m,
      fsFault (env s) (fsCalls (env s)) = Some m ->
      exists s',
        processComponent n s = (Returned tt, s')
        /\ components (this s') = JS.mapSet (components (this s)) n record
        /\ files (env s') = files (env s)
        /\ slept (env s') = slept (env s)
        /\ stderr (env s')
           = (stderr (env s)
              ++ [[Str ("❌ Error processing " ++ n ++ ":"); Str m]])%list)
  /\ (fsFault (env s) (fsCalls (env s)) = None ->
      isDir (env s) (JS.dirname path) = true ->
      exists s',
        processComponent n s = (Returned tt, s')
        /\ components (this s') = JS.mapSet (components (this s)) n record
        /\ lookupFile (files (env s')) path = Some (JsonFile (ComponentJson record))
        /\ slept (env s') = 100 + slept (env s)
        /\ stderr (env s') = stderr (env s)).
Proof.
  intros record path. split.
  - intros m Hm. unfold processComponent.
    rewrite (bind_run _ _ _ _ _ (consoleLog_State _ s)).
    unfold tryCatch.
    rewrite (bind_run _ _ _ _ _ (fetchComponentInfo_returns n _)).
    match goal with
    | |- context [bind (setComponent n ?d) ?k ?s0] =>
        rewrite (bind_run (setComponent n d) k s0 _ tt eq_refl)
    end.
    match goal with
    | |- context [bind (saveComponentFile n ?d) ?k ?s0] =>
        rewrite (bind_threw (saveComponentFile n d) k s0
                   (inWorld s0 (afterFsCall (env s0))) (JS.SystemError m))
    end.
    + eexists. split; [reflexivity |]. repeat split.
    + rewrite saveComponentFile_State. apply writeFile_fault. exact Hm.
  - intros Hok Hdir. unfold processComponent.
    rewrite (bind_run _ _ _ _ _ (consoleLog_State _ s)).
    unfold tryCatch.
    rewrite (bind_run _ _ _ _ _ (fetchComponentInfo_returns n _)).
    match goal with
    | |- context [bind (setComponent n ?d) ?k ?s0] =>
        rewrite (bind_run (setComponent n d) k s0 _ tt eq_refl)
    end.
    match goal with
    | |- context [bind (saveComponentFile n ?d) ?k ?s0] =>
        rewrite (bind_run (saveComponentFile n d) k s0
                   (inWorld s0 (written (afterFsCall (env s0))
                                  (JS.pathJoin [outputDir (this s0); ["components"];
                                                [n ++ ".json"]])
                                  (JsonFile (ComponentJson d)))) tt)
    end.
    + eexists. split; [reflexivity |].
      split; [reflexivity | split; [| split; reflexivity]].
      cbn [env files inWorld written]. apply lookup_store_same.
    + rewrite saveComponentFile_State. apply writeFile_ok; [exact Hok | exact Hdir].
Qed.

Lemma processComponent_outcomes_witness :
  let refusing :=
    {| clock := clock emptyWorld; clockReads := 0;
       fsFault := fun _ => Some "EACCES: permission denied"; fsCalls := 0;
       dirs := []; files := []; stdout := []; stderr := []; slept := 0 |} in
  exists s',
    processComponent "card" {| this := new ["repo"; "scripts"]; env := refusing |}
    = (Returned tt, s')
    /\ JS.mapHas (components (this s')) "card" = true
    /\ files (env s') = []
    /\ slept (env s') = 0.
Proof.
  intros refusing.
  destruct (proj1 (processComponent_outcomes "card"
                     {| this := new ["repo"; "scripts"]; env := refusing |})
              "EACCES: permission denied" eq_refl)
    as [s' [Hrun [Hstore [Hfiles [Hslept _]]]]].
  exists s'. split; [exact Hrun |]. rewrite Hstore, Hfiles, Hslept.
  repeat split.
Defined.

(** ** How a run of the scraper ends *)

Lemma neverExits_bind {A B} (c : M State A) (k : A -> M State B) :
  neverExits c -> (forall a, neverExits (k a)) -> neverExits (bind c k).
Proof.
  intros Hc Hk s o s'. unfold bind.
  destruct (c s) as [[a | e | n] s1] eqn:E; intros H.
  - exact (Hk a _ _ _ H).
  - injection H as <- <-. discriminate.
  - exfalso. exact (Hc _ _ _ E n eq_refl).
Qed.

Lemma neverExits_tryCatch {A} (c : M State A) (h : JS.Error -> M State A) :
  neverExits c -> (forall e, neverExits (h e)) -> neverExits (tryCatch c h).
Proof.
  intros Hc Hh s o s'. unfold tryCatch.
  destruct (c s) as [[a | e | n] s1] eqn:E; intros H.
  - injection H as <- <-. discriminate.
  - exact (Hh e _ _ _ H).
  - exfalso. exact (Hc _ _ _ E n eq_refl).
Qed.

Lemma neverExits_forEach {X} (l : list X) (body : X -> M State unit) :
  (forall x, neverExits (body x)) -> neverExits (forEach l body).
Proof.
  intros Hb. induction l as [|x l IH]; simpl.
  - intros s o s' H. injection H as <- <-. discriminate.
  - apply neverExits_bind; [apply Hb | intros _; exact IH].
Qed.

(** A step that always returns. *)
Lemma neverExits_step {A} (c : M State A) :
  (forall s, exists a, fst (c s) = Returned a) -> neverExits c.
Proof.
  intros H s o s' E n ->. destruct (H s) as [a Ha]. rewrite E in Ha. discriminate.
Qed.

Lemma neverExits_writeFile (p : JS.Path) (f : File) : neverExits (writeFile p f).
Proof.
  intros s o s' E n ->. rewrite writeFile_State in E.
  destruct (fsFault _ _); [discriminate |].
  destruct (isDir _ _); discriminate.
Qed.

Lemma neverExits_mkdir (p : JS.Path) : neverExits (mkdir p).
Proof.
  intros s o s' E n ->. revert E.
  unfold mkdir, fsCall, bind, gets, updWorld, modify, throw, ret. simpl.
  destruct (fsFault _ _); discriminate.
Qed.

Lemma neverExits_writeIn (x : string) (f : File) :
  neverExits (bind (gets (fun s0 => outputDir (this s0)))
                (fun out => writeFile (JS.pathJoin [out; [x]]) f)).
Proof.
  apply neverExits_bind; [apply neverExits_step; intros s; eexists; reflexivity |].
  intros out. apply neverExits_writeFile.
Qed.

Ltac returns_step := apply neverExits_step; intros ?; eexists; reflexivity.

(** The body of the [try] of [run] does not end the process by itself. *)
Lemma neverExits_body :
  neverExits
    (bind init (fun _ =>
     bind scrapeAllComponents (fun _ =>
     bind generateCatalog (fun _ =>
     bind (consoleLog "🎉 Untitled UI scraping completed successfully!") (fun _ =>
     bind (gets (fun s => outputDir (this s))) (fun out =>
     consoleLog ("📁 Files generated in: " ++ JS.pathToString out))))))).
Proof.
  apply neverExits_bind.
  { unfold init. apply neverExits_bind; [returns_step | intros out].
    apply neverExits_bind; [apply neverExits_mkdir | intros _; apply neverExits_mkdir]. }
  intros _. apply neverExits_bind.
  { unfold scrapeAllComponents.
    apply neverExits_bind; [returns_step | intros _].
    apply neverExits_bind.
    { apply neverExits_forEach. intros n s o s' E k ->.
      destruct (processComponent_stores n s) as [s1 [Hrun _]]. congruence. }
    intros _. apply neverExits_bind; [returns_step | intros size; returns_step]. }
  intros _. apply neverExits_bind.
  { unfold generateCatalog.
    apply neverExits_bind; [returns_step | intros _].
    apply neverExits_bind; [returns_step | intros stamp].
    apply neverExits_bind; [returns_step | intros self]. cbv zeta.
    apply neverExits_bind; [apply neverExits_writeFile | intros _].
    apply neverExits_bind; [apply neverExits_writeIn | intros _].
    apply neverExits_bind; [apply neverExits_writeIn | intros _].
    apply neverExits_bind; [apply neverExits_writeIn | intros _].
    returns_step. }
  intros _. apply neverExits_bind; [returns_step | intros _].
  apply neverExits_bind; [returns_step | intros out; returns_step].
Qed.

(** X18. A run of the scraper never ends in an exception: either it
    returns, or it ends the process with status 1 and the last thing on the
    standard error is the scraping-failed message with the error. *)
Theorem scraper_never_throws (dirname : JS.Path) (w : World) :
  (exists w', main dirname w = (Returned tt, w'))
  \/ (exists w' e,
        main dirname w = (Exited 1, w')
        /\ last (stderr w') [] = [Str "❌ Scraping failed:"; Err e]).
Proof.
  unfold main, run, tryCatch.
  match goal with
  | |- context [match ?body ?s0 with _ => _ end] =>
      destruct (body s0) as [[[] | e | n] sb] eqn:Ebody
  end.
  - left. eexists. reflexivity.
  - right. eexists. exists e. split; [reflexivity |].
    cbn [env stderr]. apply last_last.
  - exfalso. exact (neverExits_body _ _ _ Ebody n eq_refl).
Qed.

Lemma init_refused (s : State) (m : string) :
  fsFault (env s) (fsCalls (env s)) = Some m ->
  init s = (Threw (JS.SystemError m), inWorld s (afterFsCall (env s))).
Proof.
  intros H. unfold init. rewrite bind_gets.
  unfold mkdir, fsCall, bind, gets, updWorld, modify, throw, ret. simpl.
  rewrite H. reflexivity.
Qed.

(** X19. When the creation of the output directory is refused, the run
    ends with status 1 after the scraping-failed message; nothing is
    scraped, nothing is printed on the standard output and the disk is as
    it was. *)
Theorem scraper_init_refused (dirname : JS.Path) (w : World) (m : string) :
  fsFault w (fsCalls w) = Some m ->
  main dirname w
  = (Exited 1,
     errored (afterFsCall w) [Str "❌ Scraping failed:"; Err (JS.SystemError m)]).
Proof.
  intros H. unfold main, run, tryCatch.
  rewrite (bind_threw _ _ _ _ _
             (init_refused {| this := new dirname; env := w |} m H)).
  reflexivity.
Qed.

Lemma scraper_init_refused_witness :
  let refusing :=
    {| clock := clock emptyWorld; clockReads := 0;
       fsFault := fun _ => Some "EACCES: permission denied"; fsCalls := 0;
       dirs := []; files := []; stdout := []; stderr := []; slept := 0 |} in
  main ["repo"; "scripts"] refusing
  = (Exited 1,
     errored (afterFsCall refusing)
       [Str "❌ Scraping failed:"; Err (JS.SystemError "EACCES: permission denied")]).
Proof.
  intros refusing.
  apply (scraper_init_refused ["repo"; "scripts"] refusing). reflexivity.
Defined.

(** ** The files of a run *)

(** When [generateCatalog] returns, the four files it writes hold the
    catalog assembled from the store and the three texts made from it. *)
Lemma generateCatalog_files (s s' : State) :
  generateCatalog s = (Returned tt, s') ->
  exists stamp,
    let catalog := assembleCatalog (this s) stamp in
    let file x := lookupFile (files (env s')) (JS.pathJoin [outputDir (this s); [x]]) in
    file "catalog.json" = Some (JsonFile (CatalogJson catalog))
    /\ file "types.ts" = Some (Text (typeDefinitions catalog))
    /\ file "README.md" = Some (Text (usageGuide catalog))
    /\ file "search.ts" = Some (Text searchUtility).
Proof.
  unfold generateCatalog. intros H.
  rewrite (bind_run _ _ _ _ _ (consoleLog_State _ s)) in H.
  apply bind_returned in H as [stamp [s1 [Hnow H]]].
  inversion Hnow; subst s1. clear Hnow.
  rewrite bind_gets in H. cbv zeta in H.
  apply bind_returned in H as [[] [s2 [Hw H]]].
  apply writeFile_returned in Hw.
  apply bind_returned in H as [[] [s3 [Ht H]]].
  apply (writeIn_returned "types.ts") in Ht as [Ht3 Hf3].
  apply bind_returned in H as [[] [s4 [Hu H]]].
  apply (writeIn_returned "README.md") in Hu as [Ht4 Hf4].
  apply bind_returned in H as [[] [s5 [Hs H]]].
  apply (writeIn_returned "search.ts") in Hs as [Ht5 Hf5].
  rewrite consoleLog_State in H. injection H as <-.
  exists stamp. cbv zeta. cbn [env files inWorld printed].
  rewrite Hf5, Ht4, Ht3, Hf4, Ht3, Hf3. subst s2.
  cbn [env this files inWorld written ticked printed afterFsCall].
  repeat split.
  - rewrite !lookup_store_other by (apply pathJoin_file_neq; discriminate).
    apply lookup_store_same.
  - rewrite !lookup_store_other by (apply pathJoin_file_neq; discriminate).
    apply lookup_store_same.
  - rewrite !lookup_store_other by (apply pathJoin_file_neq; discriminate).
    apply lookup_store_same.
  - apply lookup_store_same.
Qed.

(** X20. After a run that returns, the three companion files are those of
    the catalog in [catalog.json]: [types.ts] holds its type definitions,
    [README.md] its usage guide, and [search.ts] the search utility. *)
Theorem companion_files_match (dirname : JS.Path) (w w' : World) :
  main dirname w = (Returned tt, w') ->
  exists catalog,
    let file x := lookupFile (files w') (JS.pathJoin [outputDir (new dirname); [x]]) in
    file "catalog.json" = Some (JsonFile (CatalogJson catalog))
    /\ file "types.ts" = Some (Text (typeDefinitions catalog))
    /\ file "README.md" = Some (Text (usageGuide catalog))
    /\ file "search.ts" = Some (Text searchUtility).
Proof.
  unfold main.
  destruct (run {| this := new dirname; env := w |}) as [o s] eqn:Erun.
  intros H. injection H as -> <-.
  unfold run, tryCatch in Erun.
  match type of Erun with
  | context [match ?body ?s0 with _ => _ end] =>
      destruct (body s0) as [[[] | e | n] sb] eqn:Ebody
  end; try discriminate.
  injection Erun as <-.
  apply bind_returned in Ebody as [[] [s1 [Hinit H]]].
  apply keepsThis_init in Hinit.
  destruct (scrapeAllComponents_store s1) as [s2 [store [Hscrape [Hthis2 _]]]];
    [rewrite Hinit; reflexivity |].
  rewrite (bind_run _ _ _ _ _ Hscrape) in H.
  apply bind_returned in H as [[] [s3 [Hgen H]]].
  apply generateCatalog_files in Hgen as [stamp Hfiles].
  rewrite (bind_run _ _ _ _ _ (consoleLog_State _ s3)) in H.
  rewrite bind_gets in H. rewrite consoleLog_State in H.
  injection H as <-.
  rewrite Hthis2, Hinit in Hfiles.
  exists (assembleCatalog (withStore (new dirname) store) stamp).
  exact Hfiles.
Qed.

Lemma companion_files_match_witness :
  exists catalog,
    let file x :=
      lookupFile (files (snd (main ["repo"; "scripts"] emptyWorld)))
        (JS.pathJoin [outputDir (new ["repo"; "scripts"]); [x]]) in
    file "catalog.json" = Some (JsonFile (CatalogJson catalog))
    /\ file "types.ts" = Some (Text (typeDefinitions catalog))
    /\ file "README.md" = Some (Text (usageGuide catalog))
    /\ file "search.ts" = Some (Text searchUtility).
Proof.
  apply (companion_files_match ["repo"; "scripts"] emptyWorld).
  vm_compute. reflexivity.
Defined.

(** X21. On a file system that refuses nothing, a run of the scraper
    returns, the file system refuses nothing afterwards either, and a
    second run started in the world the first one left returns as well. *)
Theorem scraper_completes (dirname : JS.Path) (w : World) :
  (forall k, fsFault w k = None) ->
  exists w1 w2,
    main dirname w = (Returned tt, w1)
    /\ (forall k, fsFault w1 k = None)
    /\ main dirname w1 = (Returned tt, w2).
Proof.
  intros Hok. destruct (main_returns dirname w Hok) as [w1 H1].
  assert (Hok1 : forall k, fsFault w1 k = None).
  { intros k. rewrite (main_fsFault _ _ _ _ H1). apply Hok. }
  destruct (main_returns dirname w1 Hok1) as [w2 H2].
  exists w1, w2. split; [exact H1 | split; [exact Hok1 | exact H2]].
Qed.

Lemma scraper_completes_witness :
  exists w1 w2,
    main ["repo"; "scripts"] emptyWorld = (Returned tt, w1)
    /\ (forall k, fsFault w1 k = None)
    /\ main ["repo"; "scripts"] w1 = (Returned tt, w2).
Proof.
  apply (scraper_completes ["repo"; "scripts"] emptyWorld). reflexivity.
Defined.

(** ** The usage guide *)

Lemma occursIn_app_l (t a b : string) : occursIn t a -> occursIn t (a ++ b).
Proof.
  intros [p [q ->]]. exists p, (q ++ b). now rewrite !string_app_assoc.
Qed.

Lemma occursIn_app_r (t a b : string) : occursIn t b -> occursIn t (a ++ b).
Proof.
  intros [p [q ->]]. exists (a ++ p), q. now rewrite !string_app_assoc.
Qed.

Lemma occursIn_join (sep x : string) (l : list string) :
  In x l -> occursIn x (JS.join sep l).
Proof.
  induction l as [|y l IH]; [contradiction |].
  intros [-> | Hin].
  - destruct l as [|z l]; [apply occursIn_refl |].
    change (JS.join sep (x :: z :: l)) with (x ++ sep ++ JS.join sep (z :: l)).
    apply occursIn_app_l, occursIn_refl.
  - destruct l as [|z l]; [contradiction |].
    change (JS.join sep (y :: z :: l)) with (y ++ sep ++ JS.join sep (z :: l)).
    apply occursIn_app_r, occursIn_app_r, IH, Hin.
Qed.

(** The part of the guide written for one category. *)
Lemma usageGuide_category (catalog : Catalog.t) (e : string * list Component.t) :
  In e (Catalog.categories catalog) ->
  occursIn
    (JS.nl ++ "### " ++ capitalize (fst e) ++ JS.nl
     ++ JS.join JS.nl
          (map (fun comp => "- **" ++ Component.name comp ++ "**: "
                            ++ Component.description comp) (snd e))
     ++ JS.nl)
    (usageGuide catalog).
Proof.
  intros Hin. unfold usageGuide.
  do 21 apply occursIn_app_r. apply occursIn_app_l.
  apply occursIn_join. unfold JS.entries.
  apply (in_map (fun e0 : string * list Component.t =>
                   JS.nl ++ "### " ++ capitalize (fst e0) ++ JS.nl
                   ++ JS.join JS.nl
                        (map (fun comp => "- **" ++ Component.name comp ++ "**: "
                                          ++ Component.description comp) (snd e0))
                   ++ JS.nl)).
  exact Hin.
Qed.

(** X22. The usage guide of a catalog states the install command pattern,
    and has for every category of the catalog a heading with its
    capitalized name and for every record of the category a bullet with the
    name and the description of the record. *)
Theorem usageGuide_lists (catalog : Catalog.t) :
  occursIn "npx untitledui@latest add [component-name]" (usageGuide catalog)
  /\ forall category records,
       In (category, records) (Catalog.categories catalog) ->
       occursIn ("### " ++ capitalize category) (usageGuide catalog)
       /\ forall comp,
            In comp records ->
            occursIn ("- **" ++ Component.name comp ++ "**: "
                      ++ Component.description comp)
                     (usageGuide catalog).
Proof.
  split.
  - unfold usageGuide. do 14 apply occursIn_app_r. apply occursIn_app_l.
    apply occursIn_refl.
  - intros category records Hin.
    pose proof (usageGuide_category catalog (category, records) Hin) as Hcat.
    cbn [fst snd] in Hcat. split.
    + refine (occursIn_trans _ _ _ _ Hcat).
      apply occursIn_app_r.
      rewrite <- string_app_assoc. apply occursIn_app_l, occursIn_refl.
    + intros comp Hcomp. refine (occursIn_trans _ _ _ _ Hcat).
      do 4 apply occursIn_app_r. apply occursIn_app_l.
      apply occursIn_join.
      apply (in_map (fun c => "- **" ++ Component.name c ++ "**: "
                              ++ Component.description c)).
      exact Hcomp.
Qed.

Lemma usageGuide_lists_witness :
  let c := synthesize "https://www.untitledui.com/react/components" "tooltip" "" in
  let catalog :=
    {| Catalog.metadata :=
         {| Metadata.source := ""; Metadata.url := ""; Metadata.scrapedAt := "";
            Metadata.totalComponents := 1; Metadata.categories := ["overlays"] |};
       Catalog.categories := [("overlays", [c])];
       Catalog.components := [("tooltip", c)] |} in
  occursIn "### Overlays" (usageGuide catalog)
  /\ occursIn "- **tooltip**: Tooltip component from Untitled UI" (usageGuide catalog).
Proof.
  intros c catalog.
  destruct (proj2 (usageGuide_lists catalog) "overlays" [c]) as [Hh Hb];
    [left; reflexivity |].
  split; [exact Hh |].
  apply (Hb c). left. reflexivity.
Defined.

(** ** The files of the components *)

Lemma string_length_app (a b : string) :
  String.length (a ++ b) = String.length a + String.length b.
Proof. induction a as [|x a IH]; simpl; [reflexivity | now rewrite IH]. Qed.

Lemma string_app_inv_tail (a b s : string) : a ++ s = b ++ s -> a = b.
Proof.
  revert b; induction a as [|x a IH]; intros [|y b] H; simpl in H.
  - reflexivity.
  - exfalso. apply (f_equal String.length) in H. simpl in H.
    rewrite string_length_app in H. lia.
  - exfalso. apply (f_equal String.length) in H. simpl in H.
    rewrite string_length_app in H. lia.
  - injection H as -> H. f_equal. now apply IH.
Qed.

Lemma json_not_dotdot (n : string) : n ++ ".json" <> "..".
Proof.
  intros H. apply (f_equal String.length) in H.
  rewrite string_length_app in H. simpl in H. lia.
Qed.

(** The path of the file of a component. *)
Lemma componentPath (out : JS.Path) (n : string) :
  JS.pathJoin [out; ["components"]; [n ++ ".json"]]
  = (JS.pathJoin [out] ++ ["components"; (n ++ ".json")%string])%list.
Proof.
  unfold JS.pathJoin. simpl List.concat. rewrite app_nil_r.
  replace (out ++ ["components"; (n ++ ".json")%string])%list
    with ((out ++ ["components"]) ++ [(n ++ ".json")%string])%list
    by (rewrite <- app_assoc; reflexivity).
  rewrite normalize_snoc by apply json_not_dotdot.
  rewrite normalize_snoc by discriminate.
  rewrite <- app_assoc. reflexivity.
Qed.

Lemma componentPath_inj (out : JS.Path) (n m : string) :
  JS.pathJoin [out; ["components"]; [n ++ ".json"]]
  = JS.pathJoin [out; ["components"]; [m ++ ".json"]] ->
  n = m.
Proof.
  rewrite !componentPath. intros H. apply app_inv_head in H.
  injection H as H. now apply string_app_inv_tail in H.
Qed.

Lemma componentPath_not_top (out : JS.Path) (n x : string) :
  x <> ".." ->
  JS.pathJoin [out; ["components"]; [n ++ ".json"]] <> JS.pathJoin [out; [x]].
Proof.
  intros Hx H. rewrite componentPath, pathJoin_file in H by exact Hx.
  apply app_inv_head in H. discriminate.
Qed.

Lemma componentPath_dirname (out : JS.Path) (n : string) :
  JS.dirname (JS.pathJoin [out; ["components"]; [n ++ ".json"]])
  = JS.pathJoin [out; ["components"]].
Proof.
  rewrite componentPath, pathJoin_file by discriminate.
  replace (JS.pathJoin [out] ++ ["components"; (n ++ ".json")%string])%list
    with ((JS.pathJoin [out] ++ ["components"]) ++ [(n ++ ".json")%string])%list
    by (rewrite <- app_assoc; reflexivity).
  apply removelast_last.
Qed.

(** One round of the loop on a file system that works. *)
Lemma processComponent_saved (n : string) (s : State) :
  fsFault (env s) (fsCalls (env s)) = None ->
  isDir (env s) (JS.pathJoin [outputDir (this s); ["components"]]) = true ->
  exists s',
    processComponent n s = (Returned tt, s')
    /\ this s'
       = withStore (this s)
           (JS.mapSet (components (this s)) n
              (synthesize (baseUrl (this s)) n (nextStamp s)))
    /\ files (env s')
       = storeFile (files (env s))
           (JS.pathJoin [outputDir (this s); ["components"]; [n ++ ".json"]])
           (JsonFile (ComponentJson (synthesize (baseUrl (this s)) n (nextStamp s))))
    /\ fsFault (env s') = fsFault (env s)
    /\ fsCalls (env s') = S (fsCalls (env s))
    /\ dirs (env s') = dirs (env s).
Proof.
  intros Hok Hdir. unfold processComponent.
  rewrite (bind_run _ _ _ _ _ (consoleLog_State _ s)).
  unfold tryCatch.
  rewrite (bind_run _ _ _ _ _ (fetchComponentInfo_returns n _)).
  match goal with
  | |- context [bind (setComponent n ?d) ?k ?s0] =>
      rewrite (bind_run (setComponent n d) k s0 _ tt eq_refl)
  end.
  match goal with
  | |- context [bind (saveComponentFile n ?d) ?k ?s0] =>
      rewrite (bind_run (saveComponentFile n d) k s0
                 (inWorld s0 (written (afterFsCall (env s0))
                                (JS.pathJoin [outputDir (this s0); ["components"];
                                              [n ++ ".json"]])
                                (JsonFile (ComponentJson d)))) tt)
  end.
  - eexists. split; [reflexivity |]. repeat split.
  - rewrite saveComponentFile_State. apply writeFile_ok; [exact Hok |].
    rewrite componentPath_dirname. exact Hdir.
Qed.

(** On a file system that works, the loop leaves for every record of the
    store the file of its name. *)
Lemma scrapeAllComponents_files (s : State) :
  components (this s) = [] ->
  (forall k, fsFault (env s) k = None) ->
  isDir (env s) (JS.pathJoin [outputDir (this s); ["components"]]) = true ->
  exists s' store,
    scrapeAllComponents s = (Returned tt, s')
    /\ this s' = withStore (this s) store
    /\ synthesizedFor (baseUrl (this s)) allComponents store
    /\ forall n d,
         In (n, d) store ->
         lookupFile (files (env s'))
           (JS.pathJoin [outputDir (this s); ["components"]; [n ++ ".json"]])
         = Some (JsonFile (ComponentJson d)).
Proof.
  intros Hempty Hok Hdir. unfold scrapeAllComponents.
  rewrite (bind_run _ _ _ _ _ (consoleLog_State _ s)).
  destruct (forEach_invariant allComponents processComponent
              (fun done s0 =>
                 exists store,
                   this s0 = withStore (this s) store
                   /\ synthesizedFor (baseUrl (this s)) done store
                   /\ fsFault (env s0) = fsFault (env s)
                   /\ dirs (env s0) = dirs (env s)
                   /\ forall n d,
                        In (n, d) store ->
                        lookupFile (files (env s0))
                          (JS.pathJoin [outputDir (this s); ["components"];
                                        [n ++ ".json"]])
                        = Some (JsonFile (ComponentJson d))))
    with (s := inWorld s (printed (env s)
                            ["🚀 Starting Untitled UI component scraping..."]))
    as [s1 [Hloop [store [Hthis [Hstore [Hf [Hd Hfiles]]]]]]].
  - intros done x rest s0 Hl [store [Hthis [Hstore [Hf [Hd Hfiles]]]]].
    assert (Hx : ~ In x done).
    { pose proof allComponents_NoDup as Hnd. rewrite Hl in Hnd.
      apply NoDup_remove_2 in Hnd. intros Hin. apply Hnd.
      apply in_app_iff. left. exact Hin. }
    destruct (processComponent_saved x s0) as [s1 [Hrun [Ht1 [Hf1 [Hff [_ Hd1]]]]]].
    + rewrite Hf. apply Hok.
    + rewrite Hthis. unfold isDir in *. rewrite Hd. exact Hdir.
    + exists s1. split; [exact Hrun |].
      rewrite Hthis in Ht1, Hf1. cbn [withStore baseUrl outputDir components] in Ht1, Hf1.
      eexists. split; [exact Ht1 |].
      split; [apply synthesizedFor_snoc; [exact Hstore | exact Hx] |].
      split; [rewrite Hff; exact Hf |].
      split; [rewrite Hd1; exact Hd |].
      intros n d Hin. rewrite Hf1.
      unfold JS.mapSet in Hin.
      rewrite define_fresh in Hin
        by (rewrite (synthesizedFor_keys _ _ _ Hstore); exact Hx).
      apply in_app_iff in Hin as [Hin | [E | []]].
      * rewrite lookup_store_other; [apply Hfiles; exact Hin |].
        intros Heq. apply componentPath_inj in Heq. subst n.
        apply Hx. rewrite <- (synthesizedFor_keys _ _ _ Hstore).
        unfold JS.keys. apply in_map_iff. exists (x, d). split; [reflexivity | exact Hin].
      * injection E as <- <-. apply lookup_store_same.
  - exists []. split; [| split; [constructor | split; [reflexivity | split; [reflexivity |]]]].
    + simpl. unfold withStore. rewrite <- Hempty. destruct (this s). reflexivity.
    + intros n d [].
  - rewrite (bind_run _ _ _ _ _ Hloop).
    rewrite bind_gets. rewrite consoleLog_State. eexists. exists store.
    split; [reflexivity |]. split; [exact Hthis |]. split; [exact Hstore |].
    exact Hfiles.
Qed.

Lemma init_dirs (s : State) :
  (forall k, fsFault (env s) k = None) ->
  exists s',
    init s = (Returned tt, s')
    /\ this s' = this s
    /\ fsFault (env s') = fsFault (env s)
    /\ isDir (env s') (JS.pathJoin [outputDir (this s); ["components"]]) = true.
Proof.
  intros Hok. unfold init. rewrite bind_gets.
  unfold mkdir, fsCall, bind, gets, updWorld, modify, throw, ret. simpl.
  rewrite (Hok (fsCalls (env s))). simpl.
  rewrite (Hok (S (fsCalls (env s)))). simpl.
  eexists. split; [reflexivity |]. simpl.
  split; [reflexivity | split; [reflexivity |]].
  apply isDir_In. simpl. apply in_app_iff. left. apply ancestors_self.
Qed.

(** [generateCatalog] writes in the output directory itself only. *)
Lemma generateCatalog_keeps (s s' : State) (p : JS.Path) :
  generateCatalog s = (Returned tt, s') ->
  (forall x, x <> ".." -> p <> JS.pathJoin [outputDir (this s); [x]]) ->
  lookupFile (files (env s')) p = lookupFile (files (env s)) p.
Proof.
  unfold generateCatalog. intros H Hp.
  rewrite (bind_run _ _ _ _ _ (consoleLog_State _ s)) in H.
  apply bind_returned in H as [stamp [s1 [Hnow H]]].
  inversion Hnow; subst s1. clear Hnow.
  rewrite bind_gets in H. cbv zeta in H.
  apply bind_returned in H as [[] [s2 [Hw H]]].
  apply writeFile_returned in Hw.
  apply bind_returned in H as [[] [s3 [Ht H]]].
  apply (writeIn_returned "types.ts") in Ht as [Ht3 Hf3].
  apply bind_returned in H as [[] [s4 [Hu H]]].
  apply (writeIn_returned "README.md") in Hu as [Ht4 Hf4].
  apply bind_returned in H as [[] [s5 [Hs H]]].
  apply (writeIn_returned "search.ts") in Hs as [Ht5 Hf5].
  rewrite consoleLog_State in H. injection H as <-.
  cbn [env files inWorld printed].
  rewrite Hf5, Ht4, Ht3, Hf4, Ht3, Hf3. subst s2.
  cbn [env this files inWorld written ticked printed afterFsCall].
  rewrite !lookup_store_other by (apply Hp; discriminate).
  reflexivity.
Qed.

(** X23. On a file system that refuses nothing, a run returns and the two
    outputs agree: for every name of the taxonomy, the file of the
    component holds the very record that [catalog.json] has under this
    name, timestamp included. *)
Theorem component_files_match (dirname : JS.Path) (w : World) :
  (forall k, fsFault w k = None) ->
  exists w' catalog,
    main dirname w = (Returned tt, w')
    /\ lookupFile (files w') (catalogPath dirname) = Some (JsonFile (CatalogJson catalog))
    /\ forall n,
         In n (List.concat (JS.values COMPONENT_CATEGORIES)) ->
         exists d,
           JS.get (Catalog.components catalog) n = JS.Own d
           /\ lookupFile (files w')
                (JS.pathJoin [outputDir (new dirname); ["components"]; [n ++ ".json"]])
              = Some (JsonFile (ComponentJson d)).
Proof.
  intros Hok. destruct (main_returns dirname w Hok) as [w' Hmain].
  exists w'. revert Hmain. unfold main.
  destruct (run {| this := new dirname; env := w |}) as [o s] eqn:Erun.
  intros H. injection H as -> <-.
  unfold run, tryCatch in Erun.
  match type of Erun with
  | context [match ?body ?s0 with _ => _ end] =>
      destruct (body s0) as [[[] | e | n] sb] eqn:Ebody
  end; try discriminate.
  injection Erun as <-.
  destruct (init_dirs {| this := new dirname; env := w |} Hok)
    as [s1 [Hinit [Ht1 [Hf1 Hd1]]]].
  rewrite (bind_run _ _ _ _ _ Hinit) in Ebody.
  cbn [this] in Ht1, Hd1. cbn [env] in Hf1.
  destruct (scrapeAllComponents_files s1)
    as [s2 [store [Hscrape [Ht2 [Hstore Hfiles]]]]].
  { rewrite Ht1. reflexivity. }
  { intros k. rewrite Hf1. apply Hok. }
  { rewrite Ht1. exact Hd1. }
  rewrite Ht1 in Ht2, Hstore, Hfiles.
  rewrite (bind_run _ _ _ _ _ Hscrape) in Ebody.
  apply bind_returned in Ebody as [[] [s3 [Hgen H]]].
  pose proof (generateCatalog_returned _ _ Hgen) as [stamp Hcat].
  rewrite (bind_run _ _ _ _ _ (consoleLog_State _ s3)) in H.
  rewrite bind_gets in H. rewrite consoleLog_State in H.
  injection H as <-.
  rewrite Ht2 in Hcat.
  exists (assembleCatalog (withStore (new dirname) store) stamp).
  split; [reflexivity |]. split; [exact Hcat |].
  intros n Hn. rewrite <- allComponents_flat in Hn.
  destruct (proj1 (synthesizedFor_own _ _ _ n Hstore) Hn) as [stamp0 Hown].
  exists (synthesize (baseUrl (new dirname)) n stamp0). split.
  - rewrite assembleCatalog_components. cbn [withStore components].
    rewrite fromEntries_NoDup
      by (rewrite (synthesizedFor_keys _ _ _ Hstore); exact allComponents_NoDup).
    unfold JS.get. rewrite Hown. reflexivity.
  - cbn [env files inWorld printed].
    rewrite (generateCatalog_keeps _ _ _ Hgen).
    + apply Hfiles. apply own_Some_In. exact Hown.
    + intros x Hx. rewrite Ht2. apply componentPath_not_top. exact Hx.
Qed.

Lemma component_files_match_witness :
  exists w' catalog,
    main ["repo"; "scripts"] emptyWorld = (Returned tt, w')
    /\ lookupFile (files w') (catalogPath ["repo"; "scripts"])
       = Some (JsonFile (CatalogJson catalog))
    /\ exists d,
         JS.get (Catalog.components catalog) "stat" = JS.Own d
         /\ lookupFile (files w') ["repo"; "src"; "lib"; "untitled-ui"; "components"; "stat.json"]
            = Some (JsonFile (ComponentJson d)).
Proof.
  destruct (component_files_match ["repo"; "scripts"] emptyWorld (fun _ => eq_refl))
    as [w' [catalog [Hrun [Hfile Hall]]]].
  exists w', catalog. split; [exact Hrun | split; [exact Hfile |]].
  apply (Hall "stat"). vm_compute. tauto.
Defined.

(** ** Which faults end a run *)

Lemma saveComponentFile_counts (n : string) (d : Component.t) (s : State) :
  exists o s',
    saveComponentFile n d s = (o, s')
    /\ this s' = this s
    /\ fsFault (env s') = fsFault (env s)
    /\ fsCalls (env s') = S (fsCalls (env s))
    /\ dirs (env s') = dirs (env s)
    /\ (o = Returned tt \/ exists e, o = Threw e).
Proof.
  rewrite saveComponentFile_State, writeFile_State.
  destruct (fsFault _ _).
  - eexists. eexists. split; [reflexivity |]. repeat split. right. eauto.
  - destruct (isDir _ _).
    + eexists. eexists. split; [reflexivity |]. repeat split. now left.
    + eexists. eexists. split; [reflexivity |]. repeat split. right. eauto.
Qed.

(** One round of the loop calls the file system once, whatever the answer. *)
Lemma processComponent_counts (n : string) (s : State) :
  exists s',
    processComponent n s = (Returned tt, s')
    /\ outputDir (this s') = outputDir (this s)
    /\ fsFault (env s') = fsFault (env s)
    /\ fsCalls (env s') = S (fsCalls (env s))
    /\ dirs (env s') = dirs (env s).
Proof.
  unfold processComponent.
  rewrite (bind_run _ _ _ _ _ (consoleLog_State _ s)).
  unfold tryCatch.
  rewrite (bind_run _ _ _ _ _ (fetchComponentInfo_returns n _)).
  match goal with
  | |- context [bind (setComponent n ?d) ?k ?s0] =>
      rewrite (bind_run (setComponent n d) k s0 _ tt eq_refl)
  end.
  match goal with
  | |- context [bind (saveComponentFile n ?d) ?k ?s0] =>
      destruct (saveComponentFile_counts n d s0)
        as [o [s1 [Hsave [Hthis [Hf [Hc [Hd Ho]]]]]]]
  end.
  destruct Ho as [-> | [e ->]].
  - rewrite (bind_run _ _ _ _ _ Hsave).
    eexists. split; [reflexivity |]. simpl.
    rewrite Hthis, Hf, Hc, Hd. repeat split.
  - rewrite (bind_threw _ _ _ _ _ Hsave).
    eexists. split; [reflexivity |]. simpl.
    rewrite Hthis, Hf, Hc, Hd. repeat split.
Qed.

Lemma scrapeAllComponents_counts (s : State) :
  exists s',
    scrapeAllComponents s = (Returned tt, s')
    /\ outputDir (this s') = outputDir (this s)
    /\ fsFault (env s') = fsFault (env s)
    /\ fsCalls (env s') = fsCalls (env s) + 40
    /\ dirs (env s') = dirs (env s).
Proof.
  unfold scrapeAllComponents.
  rewrite (bind_run _ _ _ _ _ (consoleLog_State _ s)).
  destruct (forEach_invariant allComponents processComponent
              (fun done s0 =>
                 outputDir (this s0) = outputDir (this s)
                 /\ fsFault (env s0) = fsFault (env s)
                 /\ fsCalls (env s0) = fsCalls (env s) + List.length done
                 /\ dirs (env s0) = dirs (env s)))
    with (s := inWorld s (printed (env s)
                            ["🚀 Starting Untitled UI component scraping..."]))
    as [s1 [Hloop [Ho [Hf [Hc Hd]]]]].
  - intros done x rest s0 _ [Ho [Hf [Hc Hd]]].
    destruct (processComponent_counts x s0) as [s1 [Hrun [Ho1 [Hf1 [Hc1 Hd1]]]]].
    exists s1. split; [exact Hrun |].
    rewrite Ho1, Hf1, Hc1, Hd1, Ho, Hf, Hc, Hd.
    repeat split. rewrite length_app. simpl. lia.
  - simpl. repeat split. lia.
  - rewrite (bind_run _ _ _ _ _ Hloop).
    rewrite bind_gets, consoleLog_State. eexists.
    split; [reflexivity |]. simpl.
    rewrite Ho, Hf, Hc, Hd. repeat split.
Qed.

(** [init] when its two calls are answered: both directories exist
    afterwards, those that existed still do, and no file changes. *)
Lemma init_two_calls (s : State) :
  fsFault (env s) (fsCalls (env s)) = None ->
  fsFault (env s) (S (fsCalls (env s))) = None ->
  exists s',
    init s = (Returned tt, s')
    /\ this s' = this s
    /\ fsFault (env s') = fsFault (env s)
    /\ fsCalls (env s') = S (S (fsCalls (env s)))
    /\ files (env s') = files (env s)
    /\ isDir (env s') (outputDir (this s)) = true
    /\ isDir (env s') (JS.pathJoin [outputDir (this s); ["components"]]) = true
    /\ forall p, isDir (env s) p = true -> isDir (env s') p = true.
Proof.
  intros H0 H1. unfold init. rewrite bind_gets.
  unfold mkdir, fsCall, bind, gets, updWorld, modify, throw, ret. simpl.
  rewrite H0. simpl. rewrite H1. simpl.
  eexists. split; [reflexivity |]. simpl.
  repeat split.
  - apply isDir_In. simpl. apply in_app_iff. right. apply in_app_iff. left.
    apply ancestors_self.
  - apply isDir_In. simpl. apply in_app_iff. left. apply ancestors_self.
  - intros p. unfold isDir. simpl. rewrite !existsb_app. intros ->.
    rewrite !orb_true_r. reflexivity.
Qed.

(** X24. [init] does not mind directories that exist: when its two calls
    are answered it returns, the output directory and its [components]
    directory exist afterwards, every directory that existed still does,
    and no file has changed. *)
Theorem init_creates_directories (s : State) :
  fsFault (env s) (fsCalls (env s)) = None ->
  fsFault (env s) (S (fsCalls (env s))) = None ->
  exists s',
    init s = (Returned tt, s')
    /\ files (env s') = files (env s)
    /\ isDir (env s') (outputDir (this s)) = true
    /\ isDir (env s') (JS.pathJoin [outputDir (this s); ["components"]]) = true
    /\ forall p, isDir (env s) p = true -> isDir (env s') p = true.
Proof.
  intros H0 H1.
  destruct (init_two_calls s H0 H1) as [s' [Hrun [_ [_ [_ [Hf [Hd1 [Hd2 Hd]]]]]]]].
  exists s'. split; [exact Hrun | split; [exact Hf | split; [exact Hd1 |]]].
  split; [exact Hd2 | exact Hd].
Qed.

Lemma init_creates_directories_witness :
  let s := {| this := new ["repo"; "scripts"]; env := scrapedWorld |} in
  exists s',
    init s = (Returned tt, s')
    /\ files (env s') = files scrapedWorld
    /\ isDir (env s') ["repo"; "src"; "lib"; "untitled-ui"; "components"] = true.
Proof.
  intros s.
  destruct (init_creates_directories s eq_refl eq_refl)
    as [s' [Hrun [Hf [_ [Hd _]]]]].
  exists s'. split; [exact Hrun | split; [exact Hf | exact Hd]].
Defined.

Lemma writeIn_ok (x : string) (f : File) (s : State) :
  x <> ".." ->
  fsFault (env s) (fsCalls (env s)) = None ->
  isDir (env s) (JS.pathJoin [outputDir (this s)]) = true ->
  exists s',
    bind (gets (fun s0 => outputDir (this s0)))
      (fun out => writeFile (JS.pathJoin [out; [x]]) f) s = (Returned tt, s')
    /\ this s' = this s
    /\ fsFault (env s') = fsFault (env s)
    /\ fsCalls (env s') = S (fsCalls (env s))
    /\ dirs (env s') = dirs (env s).
Proof.
  intros Hx Hok Hdir. rewrite bind_gets.
  rewrite (writeFile_ok _ _ _ Hok)
    by (rewrite (dirname_file _ _ Hx); exact Hdir).
  eexists. split; [reflexivity |]. repeat split.
Qed.

(** [generateCatalog] when its four calls are answered. *)
Lemma generateCatalog_four_calls (s : State) :
  (forall i, i < 4 -> fsFault (env s) (fsCalls (env s) + i) = None) ->
  isDir (env s) (JS.pathJoin [outputDir (this s)]) = true ->
  exists s', generateCatalog s = (Returned tt, s').
Proof.
  intros Hok Hdir. unfold generateCatalog.
  rewrite (bind_run _ _ _ _ _ (consoleLog_State _ s)).
  rewrite (bind_run _ _ _ _ _ (nowISO_State _)).
  rewrite bind_gets. cbv zeta.
  set (s1 := ticked _).
  set (catalog := assembleCatalog (this s1) _).
  assert (Hf1 : fsFault (env s1) = fsFault (env s)) by reflexivity.
  assert (Hc1 : fsCalls (env s1) = fsCalls (env s)) by reflexivity.
  assert (Hd1 : dirs (env s1) = dirs (env s)) by reflexivity.
  assert (Ht1 : this s1 = this s) by reflexivity.
  destruct (writeIn_ok "catalog.json" (JsonFile (CatalogJson catalog)) s1)
    as [s2 [Hw2 [Ht2 [Hf2 [Hc2 Hd2]]]]].
  { discriminate. }
  { rewrite Hf1, Hc1, <- (Nat.add_0_r (fsCalls (env s))). apply Hok. lia. }
  { unfold isDir. rewrite Hd1, Ht1. exact Hdir. }
  rewrite bind_gets in Hw2. rewrite (bind_run _ _ _ _ _ Hw2).
  destruct (writeIn_ok "types.ts" (Text (typeDefinitions catalog)) s2)
    as [s3 [Hw3 [Ht3 [Hf3 [Hc3 Hd3]]]]].
  { discriminate. }
  { rewrite Hf2, Hc2, Hf1, Hc1.
    replace (S (fsCalls (env s))) with (fsCalls (env s) + 1) by lia. apply Hok. lia. }
  { unfold isDir. rewrite Hd2, Ht2, Hd1, Ht1. exact Hdir. }
  unfold generateTypeDefinitions. rewrite (bind_run _ _ _ _ _ Hw3).
  destruct (writeIn_ok "README.md" (Text (usageGuide catalog)) s3)
    as [s4 [Hw4 [Ht4 [Hf4 [Hc4 Hd4]]]]].
  { discriminate. }
  { rewrite Hf3, Hc3, Hf2, Hc2, Hf1, Hc1.
    replace (S (S (fsCalls (env s)))) with (fsCalls (env s) + 2) by lia.
    apply Hok. lia. }
  { unfold isDir. rewrite Hd3, Ht3, Hd2, Ht2, Hd1, Ht1. exact Hdir. }
  unfold generateUsageGuide. rewrite (bind_run _ _ _ _ _ Hw4).
  destruct (writeIn_ok "search.ts" (Text searchUtility) s4)
    as [s5 [Hw5 _]].
  { discriminate. }
  { rewrite Hf4, Hc4, Hf3, Hc3, Hf2, Hc2, Hf1, Hc1.
    replace (S (S (S (fsCalls (env s))))) with (fsCalls (env s) + 3) by lia.
    apply Hok. lia. }
  { unfold isDir. rewrite Hd4, Ht4, Hd3, Ht3, Hd2, Ht2, Hd1, Ht1. exact Hdir. }
  unfold generateSearchUtility. rewrite (bind_run _ _ _ _ _ Hw5).
  rewrite consoleLog_State. eexists. reflexivity.
Qed.

(** X25. The saves of the component files cannot fail a run: when the two
    calls of [init] and the four writes of [generateCatalog] are answered,
    the run returns, whatever happens at the forty calls in between. *)
Theorem save_faults_do_not_fail_run (dirname : JS.Path) (w : World) :
  fsFault w (fsCalls w) = None ->
  fsFault w (S (fsCalls w)) = None ->
  (forall i, i < 4 -> fsFault w (fsCalls w + 42 + i) = None) ->
  exists w', main dirname w = (Returned tt, w').
Proof.
  intros H0 H1 Hlate. unfold main, run, tryCatch.
  destruct (init_two_calls {| this := new dirname; env := w |} H0 H1)
    as [s1 [Hinit [Ht1 [Hf1 [Hc1 [_ [Hd1 _]]]]]]].
  cbn [this env] in Ht1, Hf1, Hc1, Hd1.
  rewrite (bind_run _ _ _ _ _ Hinit).
  destruct (scrapeAllComponents_counts s1) as [s2 [Hscrape [Ho2 [Hf2 [Hc2 Hd2]]]]].
  rewrite (bind_run _ _ _ _ _ Hscrape).
  destruct (generateCatalog_four_calls s2) as [s3 Hgen].
  - intros i Hi. rewrite Hf2, Hc2, Hf1, Hc1.
    replace (S (S (fsCalls w)) + 40 + i) with (fsCalls w + 42 + i) by lia.
    apply Hlate. exact Hi.
  - rewrite Ho2, Ht1. rewrite pathJoin_outputDir.
    unfold isDir. rewrite Hd2. exact Hd1.
  - rewrite (bind_run _ _ _ _ _ Hgen).
    rewrite (bind_run _ _ _ _ _ (consoleLog_State _ s3)).
    rewrite bind_gets, consoleLog_State. eexists. reflexivity.
Qed.

Lemma save_faults_do_not_fail_run_witness :
  let flaky :=
    {| clock := clock emptyWorld; clockReads := 0;
       fsFault := fun k => if ((2 <=? k) && (k <? 42))%nat
                           then Some "ENOSPC: no space left on device" else None;
       fsCalls := 0; dirs := [[]]; files := []; stdout := []; stderr := [];
       slept := 0 |} in
  exists w', main ["repo"; "scripts"] flaky = (Returned tt, w').
Proof.
  intros flaky.
  apply (save_faults_do_not_fail_run ["repo"; "scripts"] flaky); reflexivity.
Defined.

(** ** The helper: a missing or empty argument *)

(** X26. [search], [install] and [info] without their argument, or with
    the empty string for it, print their two usage lines and return; the
    file system is not called, so the catalog need not exist. *)
Theorem run_usage (self : UIHelper.t) (node script : string) (rest : list string)
  (w : World) :
  let usage c a b :=
    UIHelper.run self [node; script; c] w = (Returned tt, printed w [a; b])
    /\ UIHelper.run self (node :: script :: c :: "" :: rest) w
       = (Returned tt, printed w [a; b]) in
  usage "search" "❌ Please provide a search query" "Usage: npm run ui search <query>"
  /\ usage "install" "❌ Please provide a component name"
       "Usage: npm run ui install <component-name>"
  /\ usage "info" "❌ Please provide a component name"
       "Usage: npm run ui info <component-name>".
Proof.
  assert (H : forall a b,
             bind (consoleLog a) (fun _ => consoleLog b) w
             = (Returned tt, printed w [a; b])).
  { intros a b. rewrite (bind_run _ _ _ _ _ (consoleLog_printed _ _)).
    rewrite consoleLog_printed, printed_app. reflexivity. }
  cbv zeta. repeat split; apply H.
Qed.

(** ** The helper: names that every object inherits *)

(** X27. A name that is no key of the catalog but that every object
    inherits from [Object.prototype] is not reported as not found: [install]
    prints that it installs and throws, [list] prints the header of the
    category and throws, [info] throws without a not-found line; each time
    the exception leaves [run] and the status of the process is 1. *)
Theorem inherited_names_throw (self : UIHelper.t) (w : World) (catalog : Catalog.t)
  (name : string) (b : JS.Builtin) :
  loads self w catalog ->
  JS.own (Catalog.components catalog) name = None ->
  JS.own (Catalog.categories catalog) name = None ->
  JS.objectPrototype name = Some b ->
  UIHelper.install self name w
  = (Threw (JS.TypeError "Cannot read properties of undefined (reading 'cli')"),
     printed (afterFsCall w) ["🚀 Installing " ++ name ++ "..."])
  /\ UIHelper.list self (Some name) w
     = (Threw (JS.TypeError "categoryComponents.forEach is not a function"),
        printed (afterFsCall w)
          ["📂 " ++ JS.toUpperCase name ++ " Components:" ++ JS.nl])
  /\ exists e lines,
       UIHelper.info self name w = (Threw e, printed (afterFsCall w) lines)
       /\ ~ In (UIHelper.componentNotFound name) lines
       /\ exitStatus (fst (UIHelper.info self name w)) = 1.
Proof.
  intros Hl Hc Hg Hb.
  assert (E : forall (B : Type) (k : Catalog.t -> M World B),
             bind (UIHelper.loadCatalog self)
               (fun doc => bind (UIHelper.asCatalog doc) k) w
             = k catalog (afterFsCall w)).
  { intros B k. rewrite (bind_run _ _ _ _ _ (loadCatalog_loads _ _ _ Hl)).
    reflexivity. }
  assert (Ht : JS.truthy name = true).
  { destruct name as [|c name]; [discriminate | reflexivity]. }
  split; [| split].
  - apply (install_inherited self w catalog name b Hl).
    unfold JS.get. rewrite Hc, Hb. reflexivity.
  - unfold UIHelper.list. rewrite E, Ht. unfold UIHelper.listCategory, JS.get.
    rewrite Hg, Hb.
    rewrite (bind_run _ _ _ _ _ (consoleLog_printed _ _)). reflexivity.
  - unfold UIHelper.info. rewrite E. unfold JS.get. rewrite Hc, Hb.
    destruct b as [fname |].
    + repeat rewrite (bind_run _ _ _ _ _ (consoleLog_printed _ _)).
      rewrite !printed_app. eexists. eexists. split; [reflexivity |].
      split; [| reflexivity].
      unfold UIHelper.componentNotFound.
      intros [H | [H | [H | []]]]; discriminate.
    + exists (JS.TypeError "Cannot read properties of undefined (reading 'toUpperCase')"), [].
      split; [now rewrite printed_nil | split; [intros [] | reflexivity]].
Qed.

Lemma inherited_names_throw_witness :
  UIHelper.list (UIHelper.new ["repo"; "scripts"]) (Some "toString") scrapedWorld
  = (Threw (JS.TypeError "categoryComponents.forEach is not a function"),
     printed (afterFsCall scrapedWorld) ["📂 TOSTRING Components:" ++ JS.nl]).
Proof.
  apply (proj1 (proj2 (inherited_names_throw (UIHelper.new ["repo"; "scripts"])
                         scrapedWorld scrapedCatalog "toString"
                         (JS.BuiltinFunction "toString") scrapedWorld_loads
                         ltac:(vm_compute; reflexivity)
                         ltac:(vm_compute; reflexivity) eq_refl))).
Defined.
